(** * Task dispatch and SLA enforcement: a shallow embedding

    The development follows the two back ends of the repository:

    - [Gateway]: the api-gateway service.  Its workers
      ([workers/taskAssigner.ts], [workers/timeoutChecker.ts]), its REST
      routes ([routes/tasks.routes.ts], [routes/employees.routes.ts],
      [routes/auth.routes.ts]) and its WebSocket server
      ([websocket/server.ts]) over the schema of [backend/init.sql].
    - [Worker]: the stand-alone worker-service
      ([backend/worker-service/src/index.ts]), which runs its own
      [assignTasks] and [checkTimeouts] over its own columns
      ([is_active], [deadline], [last_active], [original_ats_score]).

    SQL statements are embedded as list operations on tables (lists of
    rows); every awaited call is a step of a state-and-exception monad in
    which a named step can be made to throw, so that the difference
    between a handler wrapped in [db.transaction] and one that issues its
    statements one by one is visible. *)

From Stdlib Require Import ZArith List String Bool Lia QArith DecimalString.
From Stdlib Require Import Sorting.Sorted Sorting.Permutation.
Import ListNotations.

Local Open Scope string_scope.
Local Open Scope Z_scope.

(** ** A small relational layer *)

Module Sql.

Section Relation.
Context {Row : Type}.

(** [SELECT * FROM t WHERE p] *)
Definition select_where (p : Row -> bool) (t : list Row) : list Row :=
  filter p t.

(** [UPDATE t SET ... WHERE p]: every row matching [p] is rewritten. *)
Definition update_where (p : Row -> bool) (f : Row -> Row) (t : list Row)
  : list Row :=
  map (fun r => if p r then f r else r) t.

(** [INSERT INTO t VALUES r] *)
Definition insert_into (r : Row) (t : list Row) : list Row := t ++ [r].

(** [ORDER BY]: a stable insertion sort along a boolean "comes no later
    than" relation.  SQL leaves the order of rows that compare equal
    open; the embedding keeps them in table order. *)
Fixpoint place (leb : Row -> Row -> bool) (r : Row) (l : list Row)
  : list Row :=
  match l with
  | [] => [r]
  | x :: l' => if leb r x then r :: x :: l' else x :: place leb r l'
  end.

Definition order_by (leb : Row -> Row -> bool) (t : list Row) : list Row :=
  fold_right (place leb) [] t.

(** [LIMIT n] *)
Definition limit (n : nat) (t : list Row) : list Row := firstn n t.

End Relation.

(** Timestamps are milliseconds since the epoch, as [Date.getTime()]
    gives them; a nullable column is an [option]. *)
Definition timestamp := Z.

(** [ORDER BY c ASC] on a non-null integer or timestamp column. *)
Definition asc (a b : Z) : bool := a <=? b.

(** [ORDER BY c DESC] on a nullable timestamp column: PostgreSQL sorts
    NULL as larger than every value, hence first when descending. *)
Definition desc_nulls_first (a b : option timestamp) : bool :=
  match a, b with
  | None, _ => true
  | Some _, None => false
  | Some x, Some y => y <=? x
  end.

(** [c > bound] on a nullable column: NULL never satisfies it. *)
Definition newer_than (c : option timestamp) (bound : timestamp) : bool :=
  match c with
  | Some x => bound <? x
  | None => false
  end.

(** A number written to a [DECIMAL(5,2)] column: PostgreSQL rounds it to
    two decimals, a half away from zero, and refuses the statement
    ("numeric field overflow") when the rounded value has more than
    three digits before the point.  [hundredths q] is [q] in hundredths,
    rounded. *)
Definition hundredths (q : Q) : Z :=
  Z.sgn (Qnum q)
  * ((2 * Z.abs (Qnum q) * 100 + Z.pos (Qden q)) / (2 * Z.pos (Qden q))).

Definition decimal_5_2 (q : Q) : option Q :=
  if Z.abs (hundredths q) <? 100000 then Some (Qmake (hundredths q) 100)
  else None.

End Sql.

(** ** Awaited steps

    Every [await] of the source is a step over the world (the database
    and what has been published on Redis).  A step may throw: either the
    handler itself throws an [AppError], or the awaited call rejects.
    Which calls reject is a parameter, [fails], over the steps' names, so
    that a run is determined by the world and by the calls that fail. *)

Module Steps.

Inductive Error : Type :=
| AppError (message : string) (statusCode : Z)
| Rejected (step : string).

Section Monad.
Context {World : Type}.

Definition Db (A : Type) : Type := World -> World * (Error + A).

Definition ret {A} (a : A) : Db A := fun w => (w, inr a).

Definition throw {A} (e : Error) : Db A := fun w => (w, inl e).

Definition bind {A B} (m : Db A) (k : A -> Db B) : Db B :=
  fun w =>
    match m w with
    | (w', inr a) => k a w'
    | (w', inl e) => (w', inl e)
    end.

(** [await step f]: the call named [step] either rejects, leaving the
    world as it was, or runs [f]. *)
Definition await {A} (fails : string -> bool) (step : string)
  (f : World -> World * A) : Db A :=
  fun w =>
    if fails step then (w, inl (Rejected step))
    else let (w', a) := f w in (w', inr a).

(** [try { ... } catch (error) { console.error(...) }] *)
Definition try_catch (m : Db unit) : Db unit :=
  fun w => let (w', _) := m w in (w', inr tt).

(** [for (const x of xs) { await body(x) }] *)
Fixpoint for_of {A} (xs : list A) (body : A -> Db unit) : Db unit :=
  match xs with
  | [] => ret tt
  | x :: xs' => bind (body x) (fun _ => for_of xs' body)
  end.

End Monad.

Arguments Db : clear implicits.

Module Notations.
Notation "x <- m ;; k" := (bind m (fun x => k))
  (at level 61, m at next level, right associativity).
Notation "m ;; k" := (bind m (fun _ => k))
  (at level 61, right associativity).
End Notations.

(** No awaited call rejects. *)
Definition no_fault : string -> bool := fun _ => false.

End Steps.

(** ** Values shared by the two services *)

Module Model.

Definition uuid := string.

Inductive Role := role_admin | role_manager | role_employee.
Inductive EmployeeStatus := available | busy | offline.
Inductive TaskStatus :=
  pending | queued | assigned | in_progress | completed | failed | timeout.
Inductive IncidentType := warning | violation.

Definition EmployeeStatus_eqb (a b : EmployeeStatus) : bool :=
  match a, b with
  | available, available | busy, busy | offline, offline => true
  | _, _ => false
  end.

Definition TaskStatus_eqb (a b : TaskStatus) : bool :=
  match a, b with
  | pending, pending | queued, queued | assigned, assigned
  | in_progress, in_progress | completed, completed | failed, failed
  | timeout, timeout => true
  | _, _ => false
  end.

(** [status IN ('assigned', 'in_progress')] *)
Definition held (s : TaskStatus) : bool :=
  TaskStatus_eqb s assigned || TaskStatus_eqb s in_progress.

(** [column = $n] on a nullable uuid column: NULL equals nothing. *)
Definition is_uuid (c : option uuid) (v : uuid) : bool :=
  match c with
  | Some x => String.eqb x v
  | None => false
  end.

(** [column IS NULL] *)
Definition is_null {A} (c : option A) : bool :=
  match c with
  | Some _ => false
  | None => true
  end.

(** [`${n}`] for an integer [n] *)
Definition show_Z (n : Z) : string :=
  DecimalString.NilZero.string_of_int (Z.to_int n).

End Model.

(** ** The api-gateway service *)

Module Gateway.
Import Sql Steps Steps.Notations Model.

(** *** Schema ([backend/init.sql])

    Columns that no modelled statement reads or writes ([password_hash],
    [avatar_url], the [created_at]/[updated_at] bookkeeping of tables
    other than [ats_tasks]) are left out. *)

Inductive ApplicationStatus :=
  app_pending | submitted | app_failed | withdrawn | interview | rejected
  | accepted.

Record Employee := mkEmployee {
  emp_id : uuid;
  emp_email : string;
  emp_name : string;
  emp_role : Role;
  emp_status : EmployeeStatus;
  emp_current_task_id : option uuid;
  emp_tasks_completed : Z;
  emp_warnings : Z;
  emp_violations : Z;
  emp_average_completion_time_seconds : Z;
  emp_last_heartbeat : option timestamp
}.

Record Task := mkTask {
  task_id : uuid;
  task_candidate_id : uuid;
  task_job_id : uuid;
  task_ats_score : Q;
  task_status : TaskStatus;
  task_assigned_to : option uuid;
  task_assigned_at : option timestamp;
  task_due_at : option timestamp;
  task_started_at : option timestamp;
  task_completed_at : option timestamp;
  task_old_resume_url : option string;
  task_new_resume_url : option string;
  task_missing_keywords : list string;
  task_suggestions : list string;
  task_notes : option string;
  task_retry_count : Z;
  task_created_at : timestamp
}.

Record Candidate := mkCandidate {
  cand_id : uuid;
  cand_name : string;
  cand_resume_url : option string;
  cand_total_applications : Z
}.

Record Job := mkJob {
  job_id : uuid;
  job_title : string;
  job_application_count : Z
}.

Record Application := mkApplication {
  app_candidate_id : uuid;
  app_job_id : uuid;
  app_task_id : option uuid;
  app_resume_used_url : option string;
  app_ats_score_at_submission : Q;
  app_status : ApplicationStatus;
  app_auto_submitted : bool;
  app_submitted_at : option timestamp
}.

Record Incident := mkIncident {
  inc_employee_id : uuid;
  inc_type : IncidentType;
  inc_reason : string;
  inc_task_id : option uuid
}.

Record Activity := mkActivity {
  act_actor_id : uuid;
  act_action : string;
  act_entity_type : string;
  act_entity_id : uuid;
  act_details : list (string * Z)
}.

Record Store := mkStore {
  employees : list Employee;
  ats_tasks : list Task;
  candidates : list Candidate;
  jobs : list Job;
  applications : list Application;
  employee_incidents : list Incident;
  activity_log : list Activity
}.

(** Messages published on the Redis channels [task_updates] and
    [presence_updates] (the free-text [message] field is left out). *)
Inductive Message :=
| TASK_ASSIGNED (employeeId taskId : uuid) (dueAt : timestamp)
| WARNING_ADDED (employeeId : uuid) (warnings violations : Z) (taskId : uuid)
| VIOLATION_ADDED (employeeId : uuid) (warnings violations : Z) (taskId : uuid)
| MANAGER_ALERT (alertType : string) (employeeId : uuid) (violations : Z)
| TASK_COMPLETED (taskId employeeId : uuid) (completionTimeSeconds : Z)
| PRESENCE_UPDATE (userId : uuid) (status : EmployeeStatus).

Record World := mkWorld {
  db : Store;
  published : list Message
}.

(** *** Access to the world *)

Definition with_db (f : Store -> Store) (w : World) : World :=
  {| db := f (db w); published := published w |}.

Definition with_employees (f : list Employee -> list Employee) (s : Store)
  : Store :=
  {| employees := f (employees s); ats_tasks := ats_tasks s;
     candidates := candidates s; jobs := jobs s;
     applications := applications s;
     employee_incidents := employee_incidents s;
     activity_log := activity_log s |}.

Definition with_ats_tasks (f : list Task -> list Task) (s : Store) : Store :=
  {| employees := employees s; ats_tasks := f (ats_tasks s);
     candidates := candidates s; jobs := jobs s;
     applications := applications s;
     employee_incidents := employee_incidents s;
     activity_log := activity_log s |}.

Definition with_candidates (f : list Candidate -> list Candidate) (s : Store)
  : Store :=
  {| employees := employees s; ats_tasks := ats_tasks s;
     candidates := f (candidates s); jobs := jobs s;
     applications := applications s;
     employee_incidents := employee_incidents s;
     activity_log := activity_log s |}.

Definition with_applications (f : list Application -> list Application)
  (s : Store) : Store :=
  {| employees := employees s; ats_tasks := ats_tasks s;
     candidates := candidates s; jobs := jobs s;
     applications := f (applications s);
     employee_incidents := employee_incidents s;
     activity_log := activity_log s |}.

Definition with_employee_incidents (f : list Incident -> list Incident)
  (s : Store) : Store :=
  {| employees := employees s; ats_tasks := ats_tasks s;
     candidates := candidates s; jobs := jobs s;
     applications := applications s;
     employee_incidents := f (employee_incidents s);
     activity_log := activity_log s |}.

Definition with_activity_log (f : list Activity -> list Activity) (s : Store)
  : Store :=
  {| employees := employees s; ats_tasks := ats_tasks s;
     candidates := candidates s; jobs := jobs s;
     applications := applications s;
     employee_incidents := employee_incidents s;
     activity_log := f (activity_log s) |}.

(** The handlers of this service run over [World]. *)
Definition Db (A : Type) : Type := Steps.Db World A.

Section Calls.
Variable fails : string -> bool.

(** [await db.query(SELECT ...)] *)
Definition query {A} (step : string) (q : Store -> A) : Db A :=
  await fails step (fun w => (w, q (db w))).

(** [await db.query(UPDATE ... | INSERT ...)] *)
Definition execute (step : string) (u : Store -> Store) : Db unit :=
  await fails step (fun w => (with_db u w, tt)).

(** A statement that the database rejects when a constraint does not
    hold (a foreign key that references no row). *)
Definition execute_checked (step : string) (constraint : Store -> bool)
  (u : Store -> Store) : Db unit :=
  fun w =>
    if fails step then (w, inl (Rejected step))
    else if constraint (db w) then (with_db u w, inr tt)
    else (w, inl (Rejected step)).

(** [await redis.publish(channel, JSON.stringify(m))] *)
Definition publish (step : string) (m : Message) : Db unit :=
  await fails step
    (fun w => ({| db := db w; published := (published w ++ [m])%list |}, tt)).

(** An awaited call on a collaborator whose state is not part of the
    world ([redis.sadd], [redis.srem], [minio.upload]): it can reject,
    and otherwise yields [a]. *)
Definition external {A} (step : string) (a : A) : Db A :=
  await fails step (fun w => (w, a)).

(** [db.transaction(callback)] ([config/database.ts]): BEGIN, the
    callback, COMMIT; when the callback throws, ROLLBACK puts the
    database back and the error is thrown on.  What was already
    published on Redis stays published.  Taking a client from the pool,
    BEGIN and COMMIT are taken not to reject. *)
Definition transaction {A} (callback : Db A) : Db A :=
  fun w =>
    match callback w with
    | (w', inr a) => (w', inr a)
    | (w', inl e) => ({| db := db w; published := published w' |}, inl e)
    end.

End Calls.

(** *** [workers/timeoutChecker.ts] *)

Definition SLA_MINUTES : Z := 20.
Definition WARNINGS_PER_VIOLATION : Z := 3.
Definition MAX_VIOLATIONS : Z := 4.

(** A row of the overdue query: the task joined with the employee that
    holds it, whose counters are read at the time of the query. *)
Record OverdueTask := mkOverdueTask {
  ot_id : uuid;
  ot_candidate_id : uuid;
  ot_job_id : uuid;
  ot_assigned_to : uuid;
  ot_due_at : timestamp;
  employee_name : string;
  employee_email : string;
  employee_warnings : Z;
  employee_violations : Z
}.

Definition overdue_row (t : Task) (e : Employee) (due : timestamp)
  : OverdueTask :=
  {| ot_id := task_id t;
     ot_candidate_id := task_candidate_id t;
     ot_job_id := task_job_id t;
     ot_assigned_to := emp_id e;
     ot_due_at := due;
     employee_name := emp_name e;
     employee_email := emp_email e;
     employee_warnings := emp_warnings e;
     employee_violations := emp_violations e |}.

(** [SELECT ... FROM ats_tasks t JOIN employees e ON t.assigned_to = e.id
     WHERE t.status IN ('assigned', 'in_progress') AND t.due_at < $1] *)
Definition overdue_tasks (now : timestamp) (s : Store) : list OverdueTask :=
  flat_map
    (fun t =>
       match task_due_at t with
       | Some due =>
           if held (task_status t) && (due <? now) then
             map (fun e => overdue_row t e due)
                 (select_where (fun e => is_uuid (task_assigned_to t) (emp_id e))
                               (employees s))
           else []
       | None => []
       end)
    (ats_tasks s).

(** Step 1 of [handleTimeout]: the task row goes back to the queue. *)
Definition requeue (t : Task) : Task :=
  {| task_id := task_id t;
     task_candidate_id := task_candidate_id t;
     task_job_id := task_job_id t;
     task_ats_score := task_ats_score t;
     task_status := queued;
     task_assigned_to := None;
     task_assigned_at := None;
     task_due_at := None;
     task_started_at := None;
     task_completed_at := task_completed_at t;
     task_old_resume_url := task_old_resume_url t;
     task_new_resume_url := task_new_resume_url t;
     task_missing_keywords := task_missing_keywords t;
     task_suggestions := task_suggestions t;
     task_notes := task_notes t;
     task_retry_count := task_retry_count t + 1;
     task_created_at := task_created_at t |}.

(** Step 2 of [handleTimeout]: the new counters, the new status and the
    kind of incident. *)
Record Strike := mkStrike {
  newWarnings : Z;
  newViolations : Z;
  newStatus : EmployeeStatus;
  incidentType : IncidentType
}.

Definition strike (task : OverdueTask) : Strike :=
  let newWarnings := employee_warnings task + 1 in
  let newViolations := employee_violations task in
  if WARNINGS_PER_VIOLATION <=? newWarnings then
    let newViolations := newViolations + 1 in
    {| newWarnings := 0;
       newViolations := newViolations;
       newStatus :=
         if MAX_VIOLATIONS <=? newViolations then offline else available;
       incidentType := violation |}
  else
    {| newWarnings := newWarnings;
       newViolations := newViolations;
       newStatus := available;
       incidentType := warning |}.

(** Step 3 of [handleTimeout]: the employee row. *)
Definition struck (k : Strike) (e : Employee) : Employee :=
  {| emp_id := emp_id e;
     emp_email := emp_email e;
     emp_name := emp_name e;
     emp_role := emp_role e;
     emp_status := newStatus k;
     emp_current_task_id := None;
     emp_tasks_completed := emp_tasks_completed e;
     emp_warnings := newWarnings k;
     emp_violations := newViolations k;
     emp_average_completion_time_seconds :=
       emp_average_completion_time_seconds e;
     emp_last_heartbeat := emp_last_heartbeat e |}.

Section TimeoutChecker.
Variable fails : string -> bool.

Definition handleTimeout (task : OverdueTask) : Db unit :=
  try_catch (transaction (
    execute fails "handleTimeout: UPDATE ats_tasks"
      (with_ats_tasks
         (update_where (fun t => String.eqb (task_id t) (ot_id task))
                       requeue)) ;;
    let k := strike task in
    execute fails "handleTimeout: UPDATE employees"
      (with_employees
         (update_where (fun e => String.eqb (emp_id e) (ot_assigned_to task))
                       (struck k))) ;;
    execute fails "handleTimeout: INSERT INTO employee_incidents"
      (with_employee_incidents
         (insert_into
            {| inc_employee_id := ot_assigned_to task;
               inc_type := incidentType k;
               inc_reason :=
                 "Task timeout - exceeded " ++ show_Z SLA_MINUTES
                 ++ " minute SLA";
               inc_task_id := Some (ot_id task) |})) ;;
    publish fails "handleTimeout: publish strike"
      (match incidentType k with
       | violation =>
           VIOLATION_ADDED (ot_assigned_to task) (newWarnings k)
                           (newViolations k) (ot_id task)
       | warning =>
           WARNING_ADDED (ot_assigned_to task) (newWarnings k)
                         (newViolations k) (ot_id task)
       end) ;;
    match incidentType k with
    | violation =>
        publish fails "handleTimeout: publish MANAGER_ALERT"
          (MANAGER_ALERT
             (if MAX_VIOLATIONS <=? newViolations k
              then "serious_action" else "violation")
             (ot_assigned_to task) (newViolations k))
    | warning => ret tt
    end)).

Definition checkTimeouts (now : timestamp) : Db unit :=
  try_catch (
    rows <- query fails "checkTimeouts: SELECT" (overdue_tasks now) ;;
    for_of rows handleTimeout).

End TimeoutChecker.

(** *** [workers/taskAssigner.ts] *)

(** The row shapes of the two queries (interfaces [Task] and [Employee]
    of the file). *)
Record QueuedTask := mkQueuedTask {
  qt_id : uuid;
  qt_candidate_id : uuid;
  qt_job_id : uuid;
  qt_ats_score : Q;
  qt_candidate_name : string;
  qt_job_title : string;
  qt_missing_keywords : list string;
  qt_suggestions : list string;
  qt_old_resume_url : option string
}.

Record AvailableEmployee := mkAvailableEmployee {
  ae_id : uuid;
  ae_name : string;
  ae_email : string;
  ae_tasks_completed : Z
}.

(** [FROM ats_tasks t JOIN candidates c ON t.candidate_id = c.id
     JOIN jobs j ON t.job_id = j.id WHERE t.status = 'queued'] *)
Definition queued_join (s : Store) : list (Task * Candidate * Job) :=
  flat_map
    (fun t =>
       if TaskStatus_eqb (task_status t) queued then
         flat_map
           (fun c =>
              map (fun j => (t, c, j))
                  (select_where
                     (fun j => String.eqb (task_job_id t) (job_id j))
                     (jobs s)))
           (select_where
              (fun c => String.eqb (task_candidate_id t) (cand_id c))
              (candidates s))
       else [])
    (ats_tasks s).

(** [ORDER BY t.created_at ASC] *)
Definition by_created_at (a b : Task * Candidate * Job) : bool :=
  asc (task_created_at (fst (fst a))) (task_created_at (fst (fst b))).

Definition queued_task_row (r : Task * Candidate * Job) : QueuedTask :=
  let '(t, c, j) := r in
  {| qt_id := task_id t;
     qt_candidate_id := task_candidate_id t;
     qt_job_id := task_job_id t;
     qt_ats_score := task_ats_score t;
     qt_candidate_name := cand_name c;
     qt_job_title := job_title j;
     qt_missing_keywords := task_missing_keywords t;
     qt_suggestions := task_suggestions t;
     qt_old_resume_url := task_old_resume_url t |}.

(** Query 1 of [assignNextTask]: the next queued task (FIFO).  No other
    transaction holds a row lock in this embedding, so FOR UPDATE SKIP
    LOCKED skips nothing, here and in the queries below. *)
Definition next_queued_task (s : Store) : list QueuedTask :=
  map queued_task_row (limit 1 (order_by by_created_at (queued_join s))).

(** [WHERE status = 'available' AND violations < 4
       AND current_task_id IS NULL
       AND last_heartbeat > NOW() - INTERVAL '5 minutes'] *)
Definition assignable (now : timestamp) (e : Employee) : bool :=
  EmployeeStatus_eqb (emp_status e) available
  && (emp_violations e <? 4)
  && is_null (emp_current_task_id e)
  && newer_than (emp_last_heartbeat e) (now - 5 * 60 * 1000).

(** [ORDER BY tasks_completed ASC, last_heartbeat DESC] *)
Definition by_load_then_heartbeat (a b : Employee) : bool :=
  (emp_tasks_completed a <? emp_tasks_completed b)
  || ((emp_tasks_completed a =? emp_tasks_completed b)
      && desc_nulls_first (emp_last_heartbeat a) (emp_last_heartbeat b)).

Definition available_employee_row (e : Employee) : AvailableEmployee :=
  {| ae_id := emp_id e;
     ae_name := emp_name e;
     ae_email := emp_email e;
     ae_tasks_completed := emp_tasks_completed e |}.

(** Query 2 of [assignNextTask]: the employee to assign to. *)
Definition next_available_employee (now : timestamp) (s : Store)
  : list AvailableEmployee :=
  map available_employee_row
      (limit 1 (order_by by_load_then_heartbeat
                         (select_where (assignable now) (employees s)))).

(** Step 3 of [assignNextTask]: the task row. *)
Definition assign_to (employeeId : uuid) (now dueAt : timestamp) (t : Task)
  : Task :=
  {| task_id := task_id t;
     task_candidate_id := task_candidate_id t;
     task_job_id := task_job_id t;
     task_ats_score := task_ats_score t;
     task_status := assigned;
     task_assigned_to := Some employeeId;
     task_assigned_at := Some now;
     task_due_at := Some dueAt;
     task_started_at := task_started_at t;
     task_completed_at := task_completed_at t;
     task_old_resume_url := task_old_resume_url t;
     task_new_resume_url := task_new_resume_url t;
     task_missing_keywords := task_missing_keywords t;
     task_suggestions := task_suggestions t;
     task_notes := task_notes t;
     task_retry_count := task_retry_count t;
     task_created_at := task_created_at t |}.

(** Step 4 of [assignNextTask]: the employee row. *)
Definition occupy (taskId : uuid) (e : Employee) : Employee :=
  {| emp_id := emp_id e;
     emp_email := emp_email e;
     emp_name := emp_name e;
     emp_role := emp_role e;
     emp_status := busy;
     emp_current_task_id := Some taskId;
     emp_tasks_completed := emp_tasks_completed e;
     emp_warnings := emp_warnings e;
     emp_violations := emp_violations e;
     emp_average_completion_time_seconds :=
       emp_average_completion_time_seconds e;
     emp_last_heartbeat := emp_last_heartbeat e |}.

Section TaskAssigner.
Variable fails : string -> bool.

Definition assignNextTask (now : timestamp) : Db unit :=
  try_catch (transaction (
    taskResult <- query fails "assignNextTask: SELECT ats_tasks"
                    next_queued_task ;;
    match taskResult with
    | [] => ret tt
    | task :: _ =>
        employeeResult <- query fails "assignNextTask: SELECT employees"
                            (next_available_employee now) ;;
        match employeeResult with
        | [] => ret tt
        | employee :: _ =>
            let dueAt := now + SLA_MINUTES * 60 * 1000 in
            execute fails "assignNextTask: UPDATE ats_tasks"
              (with_ats_tasks
                 (update_where
                    (fun t => String.eqb (task_id t) (qt_id task))
                    (assign_to (ae_id employee) now dueAt))) ;;
            execute fails "assignNextTask: UPDATE employees"
              (with_employees
                 (update_where
                    (fun e => String.eqb (emp_id e) (ae_id employee))
                    (occupy (qt_id task)))) ;;
            publish fails "assignNextTask: publish TASK_ASSIGNED"
              (TASK_ASSIGNED (ae_id employee) (qt_id task) dueAt)
        end
    end)).

(** [queueTask]: the id is drawn by the database ([uuid_generate_v4()]),
    [created_at] defaults to [NOW()], [retry_count] to 0.  The score is a
    finite number and goes into a [DECIMAL(5,2)] column.  The INSERT is
    rejected when the score does not fit the column, and when
    [candidate_id] or [job_id] references no row. *)
Definition queueTask (fresh : uuid) (now : timestamp)
  (candidateId jobId : uuid) (atsScore : Q)
  (missingKeywords suggestions : list string) : Db uuid :=
  candidateResult <- query fails "queueTask: SELECT candidates"
    (fun s => select_where (fun c => String.eqb (cand_id c) candidateId)
                           (candidates s)) ;;
  let resumeUrl :=
    match candidateResult with
    | c :: _ => cand_resume_url c
    | [] => None
    end in
  match decimal_5_2 atsScore with
  | Some ats_score =>
      execute_checked fails "queueTask: INSERT INTO ats_tasks"
        (fun s => existsb (fun c => String.eqb (cand_id c) candidateId)
                          (candidates s)
                  && existsb (fun j => String.eqb (job_id j) jobId) (jobs s))
        (with_ats_tasks
           (insert_into
              {| task_id := fresh;
                 task_candidate_id := candidateId;
                 task_job_id := jobId;
                 task_ats_score := ats_score;
                 task_status := queued;
                 task_assigned_to := None;
                 task_assigned_at := None;
                 task_due_at := None;
                 task_started_at := None;
                 task_completed_at := None;
                 task_old_resume_url := resumeUrl;
                 task_new_resume_url := None;
                 task_missing_keywords := missingKeywords;
                 task_suggestions := suggestions;
                 task_notes := None;
                 task_retry_count := 0;
                 task_created_at := now |}))
  | None => throw (Rejected "queueTask: INSERT INTO ats_tasks")
  end ;;
  ret fresh.

End TaskAssigner.

(** *** [middleware/auth.ts] *)

Record JwtPayload := mkJwtPayload {
  userId : uuid;
  email : string;
  role : Role
}.

Definition Role_eqb (a b : Role) : bool :=
  match a, b with
  | role_admin, role_admin | role_manager, role_manager
  | role_employee, role_employee => true
  | _, _ => false
  end.

(** [requireRole(...roles)], on the [req.user] that [authenticate] left. *)
Definition requireRole (roles : list Role) (user : option JwtPayload)
  : Db JwtPayload :=
  match user with
  | None => throw (AppError "Not authenticated" 401)
  | Some u =>
      if existsb (Role_eqb (role u)) roles then ret u
      else throw (AppError "Insufficient permissions" 403)
  end.

Definition beat (now : timestamp) (e : Employee) : Employee :=
  {| emp_id := emp_id e;
     emp_email := emp_email e;
     emp_name := emp_name e;
     emp_role := emp_role e;
     emp_status := emp_status e;
     emp_current_task_id := emp_current_task_id e;
     emp_tasks_completed := emp_tasks_completed e;
     emp_warnings := emp_warnings e;
     emp_violations := emp_violations e;
     emp_average_completion_time_seconds :=
       emp_average_completion_time_seconds e;
     emp_last_heartbeat := Some now |}.

(** [SET status = $1, last_heartbeat = NOW()] *)
Definition present (status : EmployeeStatus) (now : timestamp) (e : Employee)
  : Employee :=
  {| emp_id := emp_id e;
     emp_email := emp_email e;
     emp_name := emp_name e;
     emp_role := emp_role e;
     emp_status := status;
     emp_current_task_id := emp_current_task_id e;
     emp_tasks_completed := emp_tasks_completed e;
     emp_warnings := emp_warnings e;
     emp_violations := emp_violations e;
     emp_average_completion_time_seconds :=
       emp_average_completion_time_seconds e;
     emp_last_heartbeat := Some now |}.

(** [['available', 'busy', 'offline'].includes(status)], with the value
    it names. *)
Definition status_of_string (status : string) : option EmployeeStatus :=
  if String.eqb status "available" then Some available
  else if String.eqb status "busy" then Some busy
  else if String.eqb status "offline" then Some offline
  else None.

Section Presence.
Variable fails : string -> bool.

Definition updateHeartbeat (now : timestamp) (userId : uuid) : Db unit :=
  try_catch (
    execute fails "updateHeartbeat: UPDATE employees"
      (with_employees
         (update_where (fun e => String.eqb (emp_id e) userId) (beat now)))).

(** *** [routes/auth.routes.ts]: [PUT /api/auth/presence] *)

Definition put_presence (now : timestamp) (user : JwtPayload)
  (status : string) : Db EmployeeStatus :=
  match status_of_string status with
  | None =>
      throw (AppError "Invalid status. Must be: available, busy, or offline"
                      400)
  | Some st =>
      (if EmployeeStatus_eqb st available then
         taskCheck <- query fails "presence: SELECT employees"
           (fun s => select_where
                       (fun e => String.eqb (emp_id e) (userId user))
                       (employees s)) ;;
         match taskCheck with
         | e :: _ =>
             if is_null (emp_current_task_id e) then ret tt
             else throw (AppError
               "Cannot set status to available while task is assigned" 400)
         | [] => ret tt
         end
       else ret tt) ;;
      execute fails "presence: UPDATE employees"
        (with_employees
           (update_where (fun e => String.eqb (emp_id e) (userId user))
                         (present st now))) ;;
      external fails "presence: redis online_users" tt ;;
      publish fails "presence: publish presence_updates"
        (PRESENCE_UPDATE (userId user) st) ;;
      ret st
  end.

(** *** [websocket/server.ts] *)

(** [updatePresence]; the closing [broadcast] writes to the open sockets
    of this process and touches neither the database nor Redis. *)
Definition updatePresence (now : timestamp) (userId : uuid)
  (status : EmployeeStatus) : Db unit :=
  execute fails "updatePresence: UPDATE employees"
    (with_employees
       (update_where (fun e => String.eqb (emp_id e) userId)
                     (present status now))) ;;
  external fails "updatePresence: redis online_users" tt.

Record ClientMessage := mkClientMessage {
  msg_type : string;
  msg_status : option string;
  msg_taskId : option uuid
}.

Definition start_now (now : timestamp) (t : Task) : Task :=
  {| task_id := task_id t;
     task_candidate_id := task_candidate_id t;
     task_job_id := task_job_id t;
     task_ats_score := task_ats_score t;
     task_status := in_progress;
     task_assigned_to := task_assigned_to t;
     task_assigned_at := task_assigned_at t;
     task_due_at := task_due_at t;
     task_started_at := Some now;
     task_completed_at := task_completed_at t;
     task_old_resume_url := task_old_resume_url t;
     task_new_resume_url := task_new_resume_url t;
     task_missing_keywords := task_missing_keywords t;
     task_suggestions := task_suggestions t;
     task_notes := task_notes t;
     task_retry_count := task_retry_count t;
     task_created_at := task_created_at t |}.

(** [handleMessage]; [REQUEST_TASK_INFO] only reads, and answers on the
    socket. *)
Definition handleMessage (now : timestamp) (user : JwtPayload)
  (message : ClientMessage) : Db unit :=
  if String.eqb (msg_type message) "HEARTBEAT" then
    updateHeartbeat now (userId user)
  else if String.eqb (msg_type message) "PRESENCE_UPDATE" then
    match msg_status message with
    | Some status =>
        match status_of_string status with
        | Some st => updatePresence now (userId user) st
        | None => ret tt
        end
    | None => ret tt
    end
  else if String.eqb (msg_type message) "TASK_STARTED" then
    match msg_taskId message with
    | Some taskId =>
        execute fails "handleMessage: UPDATE ats_tasks"
          (with_ats_tasks
             (update_where
                (fun t => String.eqb (task_id t) taskId
                          && is_uuid (task_assigned_to t) (userId user))
                (start_now now)))
    | None => ret tt
    end
  else ret tt.

End Presence.

(** *** [routes/tasks.routes.ts]: [POST /api/tasks/:id/complete] *)

Record CompleteResponse := mkCompleteResponse {
  res_message : string;
  res_newResumeUrl : string;
  res_completionTimeSeconds : Z
}.

(** [SET status = 'completed', completed_at = NOW(),
         new_resume_url = $1, notes = $2] *)
Definition completed_with (newResumeUrl : string) (notes : option string)
  (now : timestamp) (t : Task) : Task :=
  {| task_id := task_id t;
     task_candidate_id := task_candidate_id t;
     task_job_id := task_job_id t;
     task_ats_score := task_ats_score t;
     task_status := completed;
     task_assigned_to := task_assigned_to t;
     task_assigned_at := task_assigned_at t;
     task_due_at := task_due_at t;
     task_started_at := task_started_at t;
     task_completed_at := Some now;
     task_old_resume_url := task_old_resume_url t;
     task_new_resume_url := Some newResumeUrl;
     task_missing_keywords := task_missing_keywords t;
     task_suggestions := task_suggestions t;
     task_notes := notes;
     task_retry_count := task_retry_count t;
     task_created_at := task_created_at t |}.

Definition with_resume (newResumeUrl : string) (c : Candidate) : Candidate :=
  {| cand_id := cand_id c;
     cand_name := cand_name c;
     cand_resume_url := Some newResumeUrl;
     cand_total_applications := cand_total_applications c |}.

(** [SET status = 'available', current_task_id = NULL,
         tasks_completed = tasks_completed + 1,
         average_completion_time_seconds = CASE ... END]; the right-hand
    sides read the row as it was, and [/] on integers truncates. *)
Definition credited (completionTimeSeconds : Z) (e : Employee) : Employee :=
  {| emp_id := emp_id e;
     emp_email := emp_email e;
     emp_name := emp_name e;
     emp_role := emp_role e;
     emp_status := available;
     emp_current_task_id := None;
     emp_tasks_completed := emp_tasks_completed e + 1;
     emp_warnings := emp_warnings e;
     emp_violations := emp_violations e;
     emp_average_completion_time_seconds :=
       if emp_tasks_completed e =? 0 then completionTimeSeconds
       else Z.quot (emp_average_completion_time_seconds e
                    * emp_tasks_completed e + completionTimeSeconds)
                   (emp_tasks_completed e + 1);
     emp_last_heartbeat := emp_last_heartbeat e |}.

Definition same_application (candidateId jobId : uuid) (a : Application)
  : bool :=
  String.eqb (app_candidate_id a) candidateId
  && String.eqb (app_job_id a) jobId.

Definition resubmitted (newResumeUrl : string) (now : timestamp)
  (a : Application) : Application :=
  {| app_candidate_id := app_candidate_id a;
     app_job_id := app_job_id a;
     app_task_id := app_task_id a;
     app_resume_used_url := Some newResumeUrl;
     app_ats_score_at_submission := app_ats_score_at_submission a;
     app_status := submitted;
     app_auto_submitted := app_auto_submitted a;
     app_submitted_at := Some now |}.

(** [INSERT INTO applications ... ON CONFLICT (candidate_id, job_id)
     DO UPDATE SET resume_used_url = $4, status = 'submitted',
                   submitted_at = NOW()] *)
Definition upsert_application (task : Task) (id : uuid)
  (newResumeUrl : string) (now : timestamp) (t : list Application)
  : list Application :=
  if existsb (same_application (task_candidate_id task) (task_job_id task)) t
  then update_where
         (same_application (task_candidate_id task) (task_job_id task))
         (resubmitted newResumeUrl now) t
  else insert_into
         {| app_candidate_id := task_candidate_id task;
            app_job_id := task_job_id task;
            app_task_id := Some id;
            app_resume_used_url := Some newResumeUrl;
            app_ats_score_at_submission := task_ats_score task;
            app_status := submitted;
            app_auto_submitted := false;
            app_submitted_at := Some now |} t.

(** [SELECT t.* FROM ats_tasks t JOIN candidates c ON t.candidate_id = c.id
     WHERE t.id = $1 AND t.assigned_to = $2
       AND t.status IN ('assigned', 'in_progress')] *)
Definition held_by (id userId : uuid) (s : Store) : list Task :=
  flat_map
    (fun t =>
       if String.eqb (task_id t) id && is_uuid (task_assigned_to t) userId
          && held (task_status t)
       then map (fun _ => t)
                (select_where
                   (fun c => String.eqb (task_candidate_id t) (cand_id c))
                   (candidates s))
       else [])
    (ats_tasks s).

(** The four writes of the handler, in the order in which it issues
    them. *)
Definition write_task (id : uuid) (newResumeUrl : string)
  (notes : option string) (now : timestamp) : Store -> Store :=
  with_ats_tasks
    (update_where (fun t => String.eqb (task_id t) id)
                  (completed_with newResumeUrl notes now)).

Definition write_candidate (task : Task) (newResumeUrl : string)
  : Store -> Store :=
  with_candidates
    (update_where (fun c => String.eqb (cand_id c) (task_candidate_id task))
                  (with_resume newResumeUrl)).

Definition write_employee (userId : uuid) (completionTimeSeconds : Z)
  : Store -> Store :=
  with_employees
    (update_where (fun e => String.eqb (emp_id e) userId)
                  (credited completionTimeSeconds)).

Definition write_application (task : Task) (id : uuid)
  (newResumeUrl : string) (now : timestamp) : Store -> Store :=
  with_applications (upsert_application task id newResumeUrl now).

(** [Math.floor((Date.now() - new Date(assignedAt).getTime()) / 1000)]
    with [assignedAt = task.assigned_at || task.created_at]. *)
Definition completion_seconds (now : timestamp) (task : Task) : Z :=
  let assignedAt :=
    match task_assigned_at task with
    | Some a => a
    | None => task_created_at task
    end in
  (now - assignedAt) / 1000.

Section Routes.
Variable fails : string -> bool.

(** [file] is the uploaded resume (its original name), [stored] the URL
    that [minio.upload] hands back for it; [Date.now()] and the
    database's [NOW()] are one [now].  The statements go to the pool one
    by one: there is no transaction around them. *)
Definition complete (now : timestamp) (user : JwtPayload) (id : uuid)
  (file : option string) (notes : option string) (stored : string)
  : Db CompleteResponse :=
  match file with
  | None => throw (AppError "Updated resume is required" 400)
  | Some _ =>
      taskResult <- query fails "complete: SELECT ats_tasks"
                      (held_by id (userId user)) ;;
      match taskResult with
      | [] => throw (AppError "Task not found or not assigned to you" 404)
      | task :: _ =>
          newResumeUrl <- external fails "complete: minio.upload" stored ;;
          let completionTimeSeconds := completion_seconds now task in
          execute fails "complete: UPDATE ats_tasks"
            (write_task id newResumeUrl notes now) ;;
          execute fails "complete: UPDATE candidates"
            (write_candidate task newResumeUrl) ;;
          execute fails "complete: UPDATE employees"
            (write_employee (userId user) completionTimeSeconds) ;;
          jobResult <- query fails "complete: SELECT jobs"
            (fun s => select_where
                        (fun j => String.eqb (job_id j) (task_job_id task))
                        (jobs s)) ;;
          match jobResult with
          | [] => ret tt
          | _ :: _ =>
              execute fails "complete: INSERT INTO applications"
                (write_application task id newResumeUrl now)
          end ;;
          publish fails "complete: publish TASK_COMPLETED"
            (TASK_COMPLETED id (userId user) completionTimeSeconds) ;;
          ret {| res_message := "Task completed successfully";
                 res_newResumeUrl := newResumeUrl;
                 res_completionTimeSeconds := completionTimeSeconds |}
      end
  end.

(** *** [routes/employees.routes.ts]: the admin resets

    [activity_log.actor_id] references [employees(id)]: the audit INSERT
    is rejected when the admin of the token has no row.  The two
    statements of a reset are not in a transaction. *)

Definition without_warnings (e : Employee) : Employee :=
  {| emp_id := emp_id e;
     emp_email := emp_email e;
     emp_name := emp_name e;
     emp_role := emp_role e;
     emp_status := emp_status e;
     emp_current_task_id := emp_current_task_id e;
     emp_tasks_completed := emp_tasks_completed e;
     emp_warnings := 0;
     emp_violations := emp_violations e;
     emp_average_completion_time_seconds :=
       emp_average_completion_time_seconds e;
     emp_last_heartbeat := emp_last_heartbeat e |}.

(** [SET violations = 0, status = 'available'] *)
Definition unlocked (e : Employee) : Employee :=
  {| emp_id := emp_id e;
     emp_email := emp_email e;
     emp_name := emp_name e;
     emp_role := emp_role e;
     emp_status := available;
     emp_current_task_id := emp_current_task_id e;
     emp_tasks_completed := emp_tasks_completed e;
     emp_warnings := emp_warnings e;
     emp_violations := 0;
     emp_average_completion_time_seconds :=
       emp_average_completion_time_seconds e;
     emp_last_heartbeat := emp_last_heartbeat e |}.

Definition reset_warnings (user : option JwtPayload) (id : uuid)
  : Db string :=
  admin <- requireRole [role_admin] user ;;
  existing <- query fails "reset-warnings: SELECT employees"
    (fun s => select_where (fun e => String.eqb (emp_id e) id)
                           (employees s)) ;;
  match existing with
  | [] => throw (AppError "Employee not found" 404)
  | e :: _ =>
      execute fails "reset-warnings: UPDATE employees"
        (with_employees
           (update_where (fun e => String.eqb (emp_id e) id)
                         without_warnings)) ;;
      execute_checked fails "reset-warnings: INSERT INTO activity_log"
        (fun s => existsb (fun a => String.eqb (emp_id a) (userId admin))
                          (employees s))
        (with_activity_log
           (insert_into
              {| act_actor_id := userId admin;
                 act_action := "reset_warnings";
                 act_entity_type := "employee";
                 act_entity_id := id;
                 act_details := [("previousWarnings", emp_warnings e)] |})) ;;
      ret "Warnings reset successfully"
  end.

Definition reset_violations (user : option JwtPayload) (id : uuid)
  : Db string :=
  admin <- requireRole [role_admin] user ;;
  existing <- query fails "reset-violations: SELECT employees"
    (fun s => select_where (fun e => String.eqb (emp_id e) id)
                           (employees s)) ;;
  match existing with
  | [] => throw (AppError "Employee not found" 404)
  | e :: _ =>
      execute fails "reset-violations: UPDATE employees"
        (with_employees
           (update_where (fun e => String.eqb (emp_id e) id) unlocked)) ;;
      execute_checked fails "reset-violations: INSERT INTO activity_log"
        (fun s => existsb (fun a => String.eqb (emp_id a) (userId admin))
                          (employees s))
        (with_activity_log
           (insert_into
              {| act_actor_id := userId admin;
                 act_action := "reset_violations";
                 act_entity_type := "employee";
                 act_entity_id := id;
                 act_details :=
                   [("previousViolations", emp_violations e)] |})) ;;
      ret "Violations reset and account unlocked"
  end.

End Routes.
(** *** [routes/tasks.routes.ts]: [POST /api/tasks/:id/start] and
    [POST /api/tasks/:id/fail] *)

(** The line feed of [E'\n'] *)
Definition line_feed : string := String (Ascii.ascii_of_nat 10) EmptyString.

(** [reason || 'No reason provided']: an absent or empty reason is
    falsy. *)
Definition reason_or_default (reason : option string) : string :=
  match reason with
  | Some r => if String.eqb r "" then "No reason provided" else r
  | None => "No reason provided"
  end.

(** [SET status = 'queued', assigned_to = NULL, assigned_at = NULL,
         due_at = NULL, started_at = NULL,
         notes = COALESCE(notes, '') || E'\n[FAILED] ' || $1,
         retry_count = retry_count + 1] *)
Definition failed_back (reason : string) (t : Task) : Task :=
  {| task_id := task_id t;
     task_candidate_id := task_candidate_id t;
     task_job_id := task_job_id t;
     task_ats_score := task_ats_score t;
     task_status := queued;
     task_assigned_to := None;
     task_assigned_at := None;
     task_due_at := None;
     task_started_at := None;
     task_completed_at := task_completed_at t;
     task_old_resume_url := task_old_resume_url t;
     task_new_resume_url := task_new_resume_url t;
     task_missing_keywords := task_missing_keywords t;
     task_suggestions := task_suggestions t;
     task_notes :=
       Some (match task_notes t with Some n => n | None => "" end
             ++ line_feed ++ "[FAILED] " ++ reason);
     task_retry_count := task_retry_count t + 1;
     task_created_at := task_created_at t |}.

(** [SET status = 'available', current_task_id = NULL] *)
Definition freed (e : Employee) : Employee :=
  {| emp_id := emp_id e;
     emp_email := emp_email e;
     emp_name := emp_name e;
     emp_role := emp_role e;
     emp_status := available;
     emp_current_task_id := None;
     emp_tasks_completed := emp_tasks_completed e;
     emp_warnings := emp_warnings e;
     emp_violations := emp_violations e;
     emp_average_completion_time_seconds :=
       emp_average_completion_time_seconds e;
     emp_last_heartbeat := emp_last_heartbeat e |}.

(** [SET status = 'offline'] *)
Definition gone_offline (e : Employee) : Employee :=
  {| emp_id := emp_id e;
     emp_email := emp_email e;
     emp_name := emp_name e;
     emp_role := emp_role e;
     emp_status := offline;
     emp_current_task_id := emp_current_task_id e;
     emp_tasks_completed := emp_tasks_completed e;
     emp_warnings := emp_warnings e;
     emp_violations := emp_violations e;
     emp_average_completion_time_seconds :=
       emp_average_completion_time_seconds e;
     emp_last_heartbeat := emp_last_heartbeat e |}.

(** [SET warnings = $1, violations = $2] *)
Definition with_counters (warnings violations : Z) (e : Employee)
  : Employee :=
  {| emp_id := emp_id e;
     emp_email := emp_email e;
     emp_name := emp_name e;
     emp_role := emp_role e;
     emp_status := emp_status e;
     emp_current_task_id := emp_current_task_id e;
     emp_tasks_completed := emp_tasks_completed e;
     emp_warnings := warnings;
     emp_violations := violations;
     emp_average_completion_time_seconds :=
       emp_average_completion_time_seconds e;
     emp_last_heartbeat := emp_last_heartbeat e |}.

(** [SET total_applications = total_applications + 1] *)
Definition one_more_application (c : Candidate) : Candidate :=
  {| cand_id := cand_id c;
     cand_name := cand_name c;
     cand_resume_url := cand_resume_url c;
     cand_total_applications := cand_total_applications c + 1 |}.

(** [SET application_count = application_count + 1] *)
Definition one_more_applicant (j : Job) : Job :=
  {| job_id := job_id j;
     job_title := job_title j;
     job_application_count := job_application_count j + 1 |}.

Definition with_jobs (f : list Job -> list Job) (s : Store) : Store :=
  {| employees := employees s; ats_tasks := ats_tasks s;
     candidates := candidates s; jobs := f (jobs s);
     applications := applications s;
     employee_incidents := employee_incidents s;
     activity_log := activity_log s |}.

(** [WHERE id = $1 AND assigned_to = $2 AND status = 'assigned'] *)
Definition assigned_to_caller (id userId : uuid) (t : Task) : bool :=
  String.eqb (task_id t) id && is_uuid (task_assigned_to t) userId
  && TaskStatus_eqb (task_status t) assigned.

(** [WHERE id = $1 AND assigned_to = $2
       AND status IN ('assigned', 'in_progress')] *)
Definition held_by_caller (id userId : uuid) (t : Task) : bool :=
  String.eqb (task_id t) id && is_uuid (task_assigned_to t) userId
  && held (task_status t).

Section MoreCalls.
Variable fails : string -> bool.

(** The handler publishes TASK_STARTED on [task_updates]; the call can
    reject, the message itself is not kept in [published]. *)
Definition start (now : timestamp) (user : JwtPayload) (id : uuid)
  : Db string :=
  task <- query fails "start: SELECT ats_tasks"
    (fun s => select_where (assigned_to_caller id (userId user))
                           (ats_tasks s)) ;;
  match task with
  | [] => throw (AppError "Task not found or not assigned to you" 404)
  | _ :: _ =>
      execute fails "start: UPDATE ats_tasks"
        (with_ats_tasks
           (update_where (fun t => String.eqb (task_id t) id)
                         (start_now now))) ;;
      external fails "start: publish TASK_STARTED" tt ;;
      ret "Task started"
  end.

Definition fail (user : JwtPayload) (id : uuid) (reason : option string)
  : Db string :=
  task <- query fails "fail: SELECT ats_tasks"
    (fun s => select_where (held_by_caller id (userId user))
                           (ats_tasks s)) ;;
  match task with
  | [] => throw (AppError "Task not found or not assigned to you" 404)
  | _ :: _ =>
      execute fails "fail: UPDATE ats_tasks"
        (with_ats_tasks
           (update_where (fun t => String.eqb (task_id t) id)
                         (failed_back (reason_or_default reason)))) ;;
      execute fails "fail: UPDATE employees"
        (with_employees
           (update_where (fun e => String.eqb (emp_id e) (userId user))
                         freed)) ;;
      ret "Task marked as failed and re-queued"
  end.

(** *** [websocket/server.ts]: [handleDisconnect]

    [clients.delete] and the closing [broadcast] act on the sockets of
    the process. *)
Definition handleDisconnect (userId : uuid) : Db unit :=
  execute fails "handleDisconnect: UPDATE employees"
    (with_employees
       (update_where (fun e => String.eqb (emp_id e) userId) gone_offline)) ;;
  external fails "handleDisconnect: redis.srem" tt ;;
  external fails "handleDisconnect: redis.del" tt.

(** *** [workers/taskAssigner.ts]: [autoSubmitApplication]

    The score is a finite number and goes into a [DECIMAL(5,2)] column;
    a score that does not fit it rejects the INSERT, with or without a
    conflict.  [INSERT ... ON CONFLICT (candidate_id, job_id) DO
    NOTHING]: with a row for the pair nothing is inserted; without one
    the row goes in, and the statement is rejected when the candidate or
    the job is missing. *)
Definition autoSubmitApplication (now : timestamp)
  (candidateId jobId : uuid) (atsScore : Q) : Db unit :=
  candidateResult <- query fails "autoSubmitApplication: SELECT candidates"
    (fun s => select_where (fun c => String.eqb (cand_id c) candidateId)
                           (candidates s)) ;;
  let resumeUrl :=
    match candidateResult with
    | c :: _ => cand_resume_url c
    | [] => None
    end in
  match decimal_5_2 atsScore with
  | Some ats_score_at_submission =>
      execute_checked fails "autoSubmitApplication: INSERT INTO applications"
        (fun s =>
           existsb (same_application candidateId jobId) (applications s)
           || (existsb (fun c => String.eqb (cand_id c) candidateId)
                       (candidates s)
               && existsb (fun j => String.eqb (job_id j) jobId) (jobs s)))
        (with_applications
           (fun t =>
              if existsb (same_application candidateId jobId) t then t
              else insert_into
                     {| app_candidate_id := candidateId;
                        app_job_id := jobId;
                        app_task_id := None;
                        app_resume_used_url := resumeUrl;
                        app_ats_score_at_submission :=
                          ats_score_at_submission;
                        app_status := submitted;
                        app_auto_submitted := true;
                        app_submitted_at := Some now |} t))
  | None => throw (Rejected "autoSubmitApplication: INSERT INTO applications")
  end ;;
  execute fails "autoSubmitApplication: UPDATE candidates"
    (with_candidates
       (update_where (fun c => String.eqb (cand_id c) candidateId)
                     one_more_application)) ;;
  execute fails "autoSubmitApplication: UPDATE jobs"
    (with_jobs
       (update_where (fun j => String.eqb (job_id j) jobId)
                     one_more_applicant)).

(** *** [workers/timeoutChecker.ts]: [addWarning]

    The function throws a plain [Error] for an unknown employee, which
    the error handler answers with status 500.  [taskId] is optional;
    [employee_incidents.task_id] references [ats_tasks(id)], so that the
    INSERT of the incident is rejected for a [taskId] that names no
    task.  The two writes are not in a transaction. *)
Definition names_task (taskId : option uuid) (s : Store) : bool :=
  match taskId with
  | Some id => existsb (fun t => String.eqb (task_id t) id) (ats_tasks s)
  | None => true
  end.

Definition addWarning (employeeId : uuid) (reason : string)
  (taskId : option uuid) : Db (Z * Z) :=
  result <- query fails "addWarning: SELECT employees"
    (fun s => select_where (fun e => String.eqb (emp_id e) employeeId)
                           (employees s)) ;;
  match result with
  | [] => throw (AppError "Employee not found" 500)
  | row :: _ =>
      let newWarnings := emp_warnings row + 1 in
      let newViolations := emp_violations row in
      let '(newWarnings, newViolations) :=
        if WARNINGS_PER_VIOLATION <=? newWarnings
        then (0, newViolations + 1)
        else (newWarnings, newViolations) in
      execute fails "addWarning: UPDATE employees"
        (with_employees
           (update_where (fun e => String.eqb (emp_id e) employeeId)
                         (with_counters newWarnings newViolations))) ;;
      execute_checked fails "addWarning: INSERT INTO employee_incidents"
        (names_task taskId)
        (with_employee_incidents
           (insert_into
              {| inc_employee_id := employeeId;
                 inc_type :=
                   if newWarnings =? 0 then violation else warning;
                 inc_reason := reason;
                 inc_task_id := taskId |})) ;;
      ret (newWarnings, newViolations)
  end.

End MoreCalls.

(** *** [workers/timeoutChecker.ts]: [checkWarnings]

    The pre-warnings read the database and write to Redis only: the
    keys [task_warning:<task>:<minute>], each with the time at which it
    expires, and the TASK_WARNING messages. *)

Definition WARNING_MINUTES : Z := 5.

Record TaskWarning := mkTaskWarning {
  tw_employeeId : option uuid;
  tw_taskId : uuid;
  tw_minutesRemaining : Z
}.

Record Alerts := mkAlerts {
  alerts_db : Store;
  warn_keys : list (string * timestamp);
  warnings_sent : list TaskWarning
}.

(** The rows of the query, each with the time that remains in
    milliseconds: [t.due_at > $1 AND t.due_at <= $2]. *)
Definition due_soon (now : timestamp) (s : Store) : list (Task * Z) :=
  flat_map
    (fun t =>
       match task_due_at t with
       | Some due =>
           if held (task_status t) && (now <? due)
              && (due <=? now + WARNING_MINUTES * 60 * 1000)
           then [(t, due - now)]
           else []
       | None => []
       end)
    (ats_tasks s).

(** [Math.round(task.minutes_remaining)], where [minutes_remaining] is
    the remaining time divided by one minute: the nearest integer, a
    half going up.  On a whole number of milliseconds the quotient is
    exact where it matters, at the halves. *)
Definition minutes_rounded (remaining : Z) : Z :=
  (2 * remaining + 60000) / 120000.

Definition warn_key (taskId : uuid) (minutesRemaining : Z) : string :=
  "task_warning:" ++ taskId ++ ":" ++ show_Z minutesRemaining.

(** [redis.exists(warnKey)] at time [now] *)
Definition key_exists (now : timestamp) (key : string)
  (keys : list (string * timestamp)) : bool :=
  existsb (fun k => String.eqb (fst k) key && (now <? snd k)) keys.

(** [redis.set(warnKey, '1', { EX: 120 })] at time [now] *)
Definition key_set (now : timestamp) (key : string)
  (keys : list (string * timestamp)) : list (string * timestamp) :=
  (key, now + 120 * 1000)
    :: filter (fun k => negb (String.eqb (fst k) key)) keys.

Section Warnings.
Variable fails : string -> bool.

(** The body of the [for] loop of [checkWarnings]. *)
Definition warn (now : timestamp) (row : Task * Z) : Steps.Db Alerts unit :=
  let '(task, remaining) := row in
  let minutesRemaining := minutes_rounded remaining in
  if (minutesRemaining =? 5) || (minutesRemaining =? 3)
     || (minutesRemaining =? 1)
  then
    let warnKey := warn_key (task_id task) minutesRemaining in
    alreadyWarned <- await fails "checkWarnings: redis.exists"
      (fun a => (a, key_exists now warnKey (warn_keys a))) ;;
    if alreadyWarned : bool then ret tt
    else
      await fails "checkWarnings: redis.set"
        (fun a => ({| alerts_db := alerts_db a;
                      warn_keys := key_set now warnKey (warn_keys a);
                      warnings_sent := warnings_sent a |}, tt)) ;;
      await fails "checkWarnings: redis.publish"
        (fun a => ({| alerts_db := alerts_db a;
                      warn_keys := warn_keys a;
                      warnings_sent :=
                        (warnings_sent a ++
                         [ {| tw_employeeId := task_assigned_to task;
                              tw_taskId := task_id task;
                              tw_minutesRemaining := minutesRemaining |} ]
                        )%list |}, tt))
  else ret tt.

Definition checkWarnings (now : timestamp) : Steps.Db Alerts unit :=
  try_catch (
    rows <- await fails "checkWarnings: SELECT"
      (fun a => (a, due_soon now (alerts_db a))) ;;
    for_of rows (warn now)).

End Warnings.

(** *** [routes/employees.routes.ts]: [PUT /api/employees/:id]

    The three body fields are strings or absent.  An empty string is
    falsy in the two validations and not NULL for COALESCE; a role or
    status that is not one of the column's values violates the CHECK of
    the column, which rejects the UPDATE. *)

Definition truthy (v : option string) : bool :=
  match v with
  | Some s => negb (String.eqb s "")
  | None => false
  end.

Definition role_of_string (r : string) : option Role :=
  if String.eqb r "admin" then Some role_admin
  else if String.eqb r "manager" then Some role_manager
  else if String.eqb r "employee" then Some role_employee
  else None.

(** [[...].includes(v)] *)
Definition includes {A} (parse : string -> option A) (v : option string)
  : bool :=
  match v with
  | Some s => match parse s with Some _ => true | None => false end
  | None => false
  end.

(** [CHECK (column IN (...))] on [COALESCE($n, column)] *)
Definition in_check {A} (parse : string -> option A) (v : option string)
  : bool :=
  match v with
  | Some s => match parse s with Some _ => true | None => false end
  | None => true
  end.

(** [COALESCE($n, column)] *)
Definition coalesce {A} (parse : string -> option A) (v : option string)
  (column : A) : A :=
  match v with
  | Some s => match parse s with Some a => a | None => column end
  | None => column
  end.

(** [SET name = COALESCE($1, name), role = COALESCE($2, role),
         status = COALESCE($3, status)] *)
Definition edited (name role status : option string) (e : Employee)
  : Employee :=
  {| emp_id := emp_id e;
     emp_email := emp_email e;
     emp_name := coalesce Some name (emp_name e);
     emp_role := coalesce role_of_string role (emp_role e);
     emp_status := coalesce status_of_string status (emp_status e);
     emp_current_task_id := emp_current_task_id e;
     emp_tasks_completed := emp_tasks_completed e;
     emp_warnings := emp_warnings e;
     emp_violations := emp_violations e;
     emp_average_completion_time_seconds :=
       emp_average_completion_time_seconds e;
     emp_last_heartbeat := emp_last_heartbeat e |}.

Section EmployeeRoutes.
Variable fails : string -> bool.

Definition put_employee (user : option JwtPayload) (id : uuid)
  (name role status : option string) : Db Employee :=
  admin <- requireRole [role_admin] user ;;
  existing <- query fails "put-employee: SELECT employees"
    (fun s => select_where (fun e => String.eqb (emp_id e) id)
                           (employees s)) ;;
  match existing with
  | [] => throw (AppError "Employee not found" 404)
  | _ :: _ =>
      if truthy role && negb (includes role_of_string role)
      then throw (AppError "Invalid role" 400)
      else if truthy status && negb (includes status_of_string status)
      then throw (AppError "Invalid status" 400)
      else
        execute_checked fails "put-employee: UPDATE employees"
          (fun s =>
             negb (existsb (fun e => String.eqb (emp_id e) id) (employees s))
             || (in_check role_of_string role
                 && in_check status_of_string status))
          (with_employees
             (update_where (fun e => String.eqb (emp_id e) id)
                           (edited name role status))) ;;
        result <- (fun w =>
                     (w, inr (select_where
                                (fun e => String.eqb (emp_id e) id)
                                (employees (db w))))) ;;
        (match status with
         | Some s =>
             match status_of_string s with
             | Some st =>
                 publish fails "put-employee: publish presence_updates"
                   (PRESENCE_UPDATE id st)
             | None => ret tt
             end
         | None => ret tt
         end) ;;
        match result with
        | e :: _ => ret e
        | [] => throw (Rejected "put-employee: result.rows[0]")
        end
  end.

End EmployeeRoutes.

(** *** [routes/tasks.routes.ts]: [GET /api/tasks]

    The query parameters are strings or absent, and [assignedTo], when
    given, is a well-formed uuid. *)

Definition TaskStatus_name (s : TaskStatus) : string :=
  match s with
  | pending => "pending"
  | queued => "queued"
  | assigned => "assigned"
  | in_progress => "in_progress"
  | completed => "completed"
  | failed => "failed"
  | timeout => "timeout"
  end.

(** The clause added for a caller of role employee who names no
    assignee: [(t.assigned_to = $n OR t.status = 'queued')]. *)
Definition own_or_queued (user : JwtPayload) (t : Task) : bool :=
  if Role_eqb (role user) role_employee
  then is_uuid (task_assigned_to t) (userId user)
       || TaskStatus_eqb (task_status t) queued
  else true.

(** [whereClause], as the handler builds it from the request. *)
Definition whereClause (user : JwtPayload) (status assignedTo : option string)
  (t : Task) : bool :=
  match status with
  | Some s =>
      if String.eqb s "" || String.eqb s "all" then true
      else String.eqb (TaskStatus_name (task_status t)) s
  | None => true
  end
  && match assignedTo with
     | Some a =>
         if String.eqb a "" then own_or_queued user t
         else is_uuid (task_assigned_to t) a
     | None => own_or_queued user t
     end.

(** [FROM ats_tasks t JOIN candidates c ... JOIN jobs j ...
     LEFT JOIN employees e ON t.assigned_to = e.id WHERE ...] *)
Definition listed_join (p : Task -> bool) (s : Store)
  : list (Task * Candidate * Job * option Employee) :=
  flat_map
    (fun t =>
       flat_map
         (fun c =>
            flat_map
              (fun j =>
                 match select_where
                         (fun e => is_uuid (task_assigned_to t) (emp_id e))
                         (employees s) with
                 | [] => [(t, c, j, None)]
                 | es => map (fun e => (t, c, j, Some e)) es
                 end)
              (select_where (fun j => String.eqb (task_job_id t) (job_id j))
                            (jobs s)))
         (select_where (fun c => String.eqb (task_candidate_id t) (cand_id c))
                       (candidates s)))
    (select_where p (ats_tasks s)).

(** [CASE t.status WHEN 'assigned' THEN 1 ... ELSE 5 END] *)
Definition status_rank (s : TaskStatus) : Z :=
  match s with
  | assigned => 1
  | in_progress => 2
  | queued => 3
  | pending => 4
  | _ => 5
  end.

(** [ORDER BY CASE ... END, t.created_at DESC] *)
Definition by_status_then_newest
  (a b : Task * Candidate * Job * option Employee) : bool :=
  let ta := fst (fst (fst a)) in
  let tb := fst (fst (fst b)) in
  (status_rank (task_status ta) <? status_rank (task_status tb))
  || ((status_rank (task_status ta) =? status_rank (task_status tb))
      && (task_created_at tb <=? task_created_at ta)).

Record TaskList := mkTaskList {
  tl_tasks : list (Task * Candidate * Job * option Employee);
  tl_page : Z;
  tl_limit : Z;
  tl_total : Z;
  tl_totalPages : Z
}.

Section TaskRoutes.
Variable fails : string -> bool.

(** [parseInt] on a query parameter; [None] is NaN, with which
    [Math.max] and [Math.min] give NaN again, and which PostgreSQL does
    not accept for LIMIT or OFFSET. *)
Variable parseInt : string -> option Z.

Definition list_tasks (user : JwtPayload)
  (page limit status assignedTo : option string) : Db TaskList :=
  let pageNum :=
    option_map (Z.max 1)
      (match page with Some s => parseInt s | None => Some 1 end) in
  let limitNum :=
    option_map (fun n => Z.min 100 (Z.max 1 n))
      (match limit with Some s => parseInt s | None => Some 20 end) in
  total <- query fails "list: SELECT COUNT"
    (fun s => Z.of_nat (List.length
                          (select_where (whereClause user status assignedTo)
                                        (ats_tasks s)))) ;;
  match pageNum, limitNum with
  | Some pageNum, Some limitNum =>
      let offset := (pageNum - 1) * limitNum in
      result <- query fails "list: SELECT ats_tasks"
        (fun s =>
           Sql.limit (Z.to_nat limitNum)
             (skipn (Z.to_nat offset)
                (order_by by_status_then_newest
                   (listed_join (whereClause user status assignedTo) s)))) ;;
      ret {| tl_tasks := result;
             tl_page := pageNum;
             tl_limit := limitNum;
             tl_total := total;
             tl_totalPages := - ((- total) / limitNum) |}
  | _, _ => throw (Rejected "list: SELECT ats_tasks")
  end.

End TaskRoutes.

(** *** [routes/auth.routes.ts]: [POST /api/auth/login]

    The body fields are strings or absent. *)

Record LoginResponse := mkLoginResponse {
  lr_token : string;
  lr_id : uuid;
  lr_email : string;
  lr_name : string;
  lr_role : Role;
  lr_status : EmployeeStatus;
  lr_tasksCompleted : Z;
  lr_warnings : Z;
  lr_violations : Z
}.

Section AuthRoutes.
Variable fails : string -> bool.

(** [String.prototype.toLowerCase]; [bcrypt.compare] of the password
    with the [password_hash] of the row; [generateToken]. *)
Variable toLowerCase : string -> string.
Variable compare : string -> Employee -> bool.
Variable generateToken : JwtPayload -> string.

Definition login (now : timestamp) (email password : option string)
  : Db LoginResponse :=
  if truthy email && truthy password then
    let email := match email with Some s => s | None => "" end in
    let password := match password with Some s => s | None => "" end in
    result <- query fails "login: SELECT employees"
      (fun s => select_where
                  (fun e => String.eqb (emp_email e) (toLowerCase email))
                  (employees s)) ;;
    match result with
    | [] => throw (AppError "Invalid credentials" 401)
    | employee :: _ =>
        isValidPassword <- external fails "login: bcrypt.compare"
                             (compare password employee) ;;
        if isValidPassword : bool then
          let token :=
            generateToken {| userId := emp_id employee;
                             email := emp_email employee;
                             role := emp_role employee |} in
          execute fails "login: UPDATE employees"
            (with_employees
               (update_where
                  (fun e => String.eqb (emp_id e) (emp_id employee))
                  (present available now))) ;;
          external fails "login: redis.setJSON" tt ;;
          external fails "login: redis.sadd" tt ;;
          ret {| lr_token := token;
                 lr_id := emp_id employee;
                 lr_email := emp_email employee;
                 lr_name := emp_name employee;
                 lr_role := emp_role employee;
                 lr_status := available;
                 lr_tasksCompleted := emp_tasks_completed employee;
                 lr_warnings := emp_warnings employee;
                 lr_violations := emp_violations employee |}
        else throw (AppError "Invalid credentials" 401)
    end
  else throw (AppError "Email and password are required" 400).

End AuthRoutes.

End Gateway.

(** ** The worker-service ([backend/worker-service/src/index.ts])

    The service works on its own columns; the rows below carry the
    columns its statements name.  A column that an INSERT does not list
    takes its default: a drawn [id], [NOW()] for the two timestamps,
    NULL elsewhere. *)

Module Worker.
Import Sql Steps Steps.Notations Model.

Record Employee := mkEmployee {
  emp_id : uuid;
  emp_name : string;
  emp_email : string;
  emp_status : EmployeeStatus;
  emp_is_active : bool;
  emp_tasks_completed : Z;
  emp_last_active : option timestamp;
  emp_warnings : Z;
  emp_violations : Z;
  emp_updated_at : timestamp
}.

Record Task := mkTask {
  task_id : uuid;
  task_job_id : uuid;
  task_candidate_id : uuid;
  task_original_ats_score : Q;
  task_status : TaskStatus;
  task_assigned_to : option uuid;
  task_assigned_at : option timestamp;
  task_deadline : option timestamp;
  task_created_at : timestamp;
  task_updated_at : timestamp
}.

Record Incident := mkIncident {
  inc_employee_id : uuid;
  inc_type : IncidentType;
  inc_reason : string;
  inc_task_id : uuid
}.

Inductive Details :=
| assigned_details (deadline : timestamp)
| strike_details (minutesOverdue warnings violations : Z) (suspended : bool).

Record Activity := mkActivity {
  act_employee_id : uuid;
  act_action : string;
  act_entity_type : string;
  act_entity_id : uuid;
  act_details : Details
}.

Record Store := mkStore {
  employees : list Employee;
  ats_tasks : list Task;
  employee_incidents : list Incident;
  activity_log : list Activity
}.

(** Messages on the channels [task:assigned] and [task:timeout]. *)
Inductive Message :=
| task_assigned (taskId employeeId : uuid) (employeeName : string)
    (deadline : timestamp) (slaMinutes : Z)
| task_timeout (taskId employeeId : uuid) (employeeName : string)
    (incidentType : IncidentType) (warnings violations : Z)
    (suspended : bool).

Record World := mkWorld {
  db : Store;
  published : list Message
}.

Definition Db (A : Type) : Type := Steps.Db World A.

Definition with_db (f : Store -> Store) (w : World) : World :=
  {| db := f (db w); published := published w |}.

Definition with_employees (f : list Employee -> list Employee) (s : Store)
  : Store :=
  {| employees := f (employees s); ats_tasks := ats_tasks s;
     employee_incidents := employee_incidents s;
     activity_log := activity_log s |}.

Definition with_ats_tasks (f : list Task -> list Task) (s : Store) : Store :=
  {| employees := employees s; ats_tasks := f (ats_tasks s);
     employee_incidents := employee_incidents s;
     activity_log := activity_log s |}.

Definition with_employee_incidents (f : list Incident -> list Incident)
  (s : Store) : Store :=
  {| employees := employees s; ats_tasks := ats_tasks s;
     employee_incidents := f (employee_incidents s);
     activity_log := activity_log s |}.

Definition with_activity_log (f : list Activity -> list Activity) (s : Store)
  : Store :=
  {| employees := employees s; ats_tasks := ats_tasks s;
     employee_incidents := employee_incidents s;
     activity_log := f (activity_log s) |}.

(** [config.sla]; [timeoutMinutes] is read from the environment and is a
    parameter of the workers below, its default is 20. *)
Definition warningsPerViolation : Z := 3.
Definition violationsForSuspension : Z := 4.
Definition default_timeoutMinutes : Z := 20.

(** date-fns: [addMinutes] and [differenceInMinutes] (which truncates). *)
Definition addMinutes (date : timestamp) (amount : Z) : timestamp :=
  date + amount * 60000.

Definition differenceInMinutes (later earlier : timestamp) : Z :=
  Z.quot (later - earlier) 60000.

(** *** [assignTasks] *)

(** [NOT EXISTS (SELECT 1 FROM ats_tasks t WHERE t.assigned_to = e.id
                 AND t.status IN ('assigned', 'in_progress'))] *)
Definition holds_no_task (s : Store) (e : Employee) : bool :=
  negb (existsb (fun t => is_uuid (task_assigned_to t) (emp_id e)
                          && held (task_status t))
                (ats_tasks s)).

Definition free (s : Store) (e : Employee) : bool :=
  EmployeeStatus_eqb (emp_status e) available
  && emp_is_active e
  && holds_no_task s e.

(** [ORDER BY e.tasks_completed ASC, e.last_active DESC] *)
Definition by_load_then_activity (a b : Employee) : bool :=
  (emp_tasks_completed a <? emp_tasks_completed b)
  || ((emp_tasks_completed a =? emp_tasks_completed b)
      && desc_nulls_first (emp_last_active a) (emp_last_active b)).

Definition available_employees (s : Store) : list Employee :=
  limit 10 (order_by by_load_then_activity
                     (select_where (free s) (employees s))).

Definition by_created_at (a b : Task) : bool :=
  asc (task_created_at a) (task_created_at b).

Definition queued_tasks (n : nat) (s : Store) : list Task :=
  limit n (order_by by_created_at
                    (select_where
                       (fun t => TaskStatus_eqb (task_status t) queued)
                       (ats_tasks s))).

Definition assign_to (employeeId : uuid) (now deadline : timestamp)
  (t : Task) : Task :=
  {| task_id := task_id t;
     task_job_id := task_job_id t;
     task_candidate_id := task_candidate_id t;
     task_original_ats_score := task_original_ats_score t;
     task_status := assigned;
     task_assigned_to := Some employeeId;
     task_assigned_at := Some now;
     task_deadline := Some deadline;
     task_created_at := task_created_at t;
     task_updated_at := now |}.

Definition occupy (now : timestamp) (e : Employee) : Employee :=
  {| emp_id := emp_id e;
     emp_name := emp_name e;
     emp_email := emp_email e;
     emp_status := busy;
     emp_is_active := emp_is_active e;
     emp_tasks_completed := emp_tasks_completed e;
     emp_last_active := emp_last_active e;
     emp_warnings := emp_warnings e;
     emp_violations := emp_violations e;
     emp_updated_at := now |}.

(** *** [checkTimeouts] *)

Record OverdueTask := mkOverdueTask {
  ot_id : uuid;
  ot_assigned_to : uuid;
  ot_deadline : timestamp;
  ot_job_id : uuid;
  ot_candidate_id : uuid;
  ot_employee_name : string;
  ot_warnings : Z;
  ot_violations : Z
}.

Definition overdue_row (t : Task) (e : Employee) (deadline : timestamp)
  : OverdueTask :=
  {| ot_id := task_id t;
     ot_assigned_to := emp_id e;
     ot_deadline := deadline;
     ot_job_id := task_job_id t;
     ot_candidate_id := task_candidate_id t;
     ot_employee_name := emp_name e;
     ot_warnings := emp_warnings e;
     ot_violations := emp_violations e |}.

Definition overdue_tasks (now : timestamp) (s : Store) : list OverdueTask :=
  flat_map
    (fun t =>
       match task_deadline t with
       | Some deadline =>
           if held (task_status t) && (deadline <? now) then
             map (fun e => overdue_row t e deadline)
                 (select_where (fun e => is_uuid (task_assigned_to t) (emp_id e))
                               (employees s))
           else []
       | None => []
       end)
    (ats_tasks s).

(** [SET status = 'timeout', updated_at = NOW()] *)
Definition timed_out (now : timestamp) (t : Task) : Task :=
  {| task_id := task_id t;
     task_job_id := task_job_id t;
     task_candidate_id := task_candidate_id t;
     task_original_ats_score := task_original_ats_score t;
     task_status := timeout;
     task_assigned_to := task_assigned_to t;
     task_assigned_at := task_assigned_at t;
     task_deadline := task_deadline t;
     task_created_at := task_created_at t;
     task_updated_at := now |}.

Record Strike := mkStrike {
  newWarnings : Z;
  newViolations : Z;
  incidentType : IncidentType;
  isActive : bool
}.

Definition strike (task : OverdueTask) : Strike :=
  let newWarnings := ot_warnings task + 1 in
  let newViolations := ot_violations task in
  let '(newWarnings, newViolations, incidentType) :=
    if warningsPerViolation <=? newWarnings
    then (0, newViolations + 1, violation)
    else (newWarnings, newViolations, warning) in
  {| newWarnings := newWarnings;
     newViolations := newViolations;
     incidentType := incidentType;
     isActive := negb (violationsForSuspension <=? newViolations) |}.

(** [SET warnings = $1, violations = $2, is_active = $3,
         status = 'available', updated_at = NOW()] *)
Definition struck (k : Strike) (now : timestamp) (e : Employee) : Employee :=
  {| emp_id := emp_id e;
     emp_name := emp_name e;
     emp_email := emp_email e;
     emp_status := available;
     emp_is_active := isActive k;
     emp_tasks_completed := emp_tasks_completed e;
     emp_last_active := emp_last_active e;
     emp_warnings := newWarnings k;
     emp_violations := newViolations k;
     emp_updated_at := now |}.

(** The row that [INSERT INTO ats_tasks (job_id, candidate_id,
    original_ats_score, status) SELECT ..., 'queued'] makes out of [t]. *)
Definition clone (drawn : uuid) (now : timestamp) (t : Task) : Task :=
  {| task_id := drawn;
     task_job_id := task_job_id t;
     task_candidate_id := task_candidate_id t;
     task_original_ats_score := task_original_ats_score t;
     task_status := queued;
     task_assigned_to := None;
     task_assigned_at := None;
     task_deadline := None;
     task_created_at := now;
     task_updated_at := now |}.

Section Workers.
Variable fails : string -> bool.
Variable timeoutMinutes : Z.

Definition query {A} (step : string) (q : Store -> A) : Db A :=
  await fails step (fun w => (w, q (db w))).

Definition execute (step : string) (u : Store -> Store) : Db unit :=
  await fails step (fun w => (with_db u w, tt)).

Definition publish (step : string) (m : Message) : Db unit :=
  await fails step
    (fun w => ({| db := db w; published := (published w ++ [m])%list |}, tt)).

(** [await client.query('BEGIN')] and the like: a statement that can
    reject and writes no row. *)
Definition statement (step : string) : Db unit :=
  await fails step (fun w => (w, tt)).

(** The frame of both workers:
    [const client = await pool.connect();
     try { BEGIN; ...; COMMIT } catch (error) { await ROLLBACK; log }
     finally { client.release() }].
    [pool.connect] is awaited before the [try]: its rejection is thrown.
    A rejection inside the [try], of BEGIN, of the body or of COMMIT, is
    caught and logged; ROLLBACK is awaited inside the [catch], and its
    rejection is thrown in turn.  The rows written by a transaction that
    has not committed are not in the database; what was published
    stays published. *)
Definition in_transaction (body : Db unit) : Db unit :=
  fun w =>
    match statement "pool.connect" w with
    | (_, inl e) => (w, inl e)
    | (_, inr _) =>
        match (statement "BEGIN" ;; body ;; statement "COMMIT") w with
        | (w', inr _) => (w', inr tt)
        | (w', inl _) =>
            match statement "ROLLBACK"
                    {| db := db w; published := published w' |} with
            | (back, inl e) => (back, inl e)
            | (back, inr _) => (back, inr tt)
            end
        end
    end.

(** The body of the [for] loop of [assignTasks]. *)
Definition assign_pair (now : timestamp) (pair : Task * Employee) : Db unit :=
  let '(task, employee) := pair in
  let deadline := addMinutes now timeoutMinutes in
  execute "assignTasks: UPDATE ats_tasks"
    (with_ats_tasks
       (update_where (fun t => String.eqb (task_id t) (task_id task))
                     (assign_to (emp_id employee) now deadline))) ;;
  execute "assignTasks: UPDATE employees"
    (with_employees
       (update_where (fun e => String.eqb (emp_id e) (emp_id employee))
                     (occupy now))) ;;
  execute "assignTasks: INSERT INTO activity_log"
    (with_activity_log
       (insert_into
          {| act_employee_id := emp_id employee;
             act_action := "task_assigned";
             act_entity_type := "ats_task";
             act_entity_id := task_id task;
             act_details := assigned_details deadline |})) ;;
  publish "assignTasks: publish task:assigned"
    (task_assigned (task_id task) (emp_id employee) (emp_name employee)
                   deadline timeoutMinutes).

(** [queuedTasks[i]] goes to [availableEmployees[i]], for [i] below the
    shorter length. *)
Definition assignTasks (now : timestamp) : Db unit :=
  in_transaction (
    availableEmployees <- query "assignTasks: SELECT employees"
                            available_employees ;;
    match availableEmployees with
    | [] => ret tt
    | _ :: _ =>
        queuedTasks <- query "assignTasks: SELECT ats_tasks"
                         (queued_tasks (List.length availableEmployees)) ;;
        match queuedTasks with
        | [] => ret tt
        | _ :: _ =>
            for_of (combine queuedTasks availableEmployees) (assign_pair now)
        end
    end).

(** The body of the [for] loop of [checkTimeouts]; [drawn] is the id
    that the database draws for the copy of the task. *)
Definition expire (drawn : uuid) (now : timestamp) (task : OverdueTask)
  : Db unit :=
  let minutesOverdue := differenceInMinutes now (ot_deadline task) in
  execute "checkTimeouts: UPDATE ats_tasks"
    (with_ats_tasks
       (update_where (fun t => String.eqb (task_id t) (ot_id task))
                     (timed_out now))) ;;
  let k := strike task in
  execute "checkTimeouts: UPDATE employees"
    (with_employees
       (update_where (fun e => String.eqb (emp_id e) (ot_assigned_to task))
                     (struck k now))) ;;
  execute "checkTimeouts: INSERT INTO employee_incidents"
    (with_employee_incidents
       (insert_into
          {| inc_employee_id := ot_assigned_to task;
             inc_type := incidentType k;
             inc_reason :=
               "SLA timeout - Task exceeded " ++ show_Z timeoutMinutes
               ++ " minute deadline by " ++ show_Z minutesOverdue
               ++ " minutes";
             inc_task_id := ot_id task |})) ;;
  execute "checkTimeouts: INSERT INTO activity_log"
    (with_activity_log
       (insert_into
          {| act_employee_id := ot_assigned_to task;
             act_action :=
               match incidentType k with
               | violation => "violation_received"
               | warning => "warning_received"
               end;
             act_entity_type := "ats_task";
             act_entity_id := ot_id task;
             act_details :=
               strike_details minutesOverdue (newWarnings k)
                              (newViolations k) (negb (isActive k)) |})) ;;
  execute "checkTimeouts: INSERT INTO ats_tasks"
    (with_ats_tasks
       (fun tasks =>
          (tasks ++
           map (clone drawn now)
               (select_where (fun t => String.eqb (task_id t) (ot_id task))
                             tasks))%list)) ;;
  publish "checkTimeouts: publish task:timeout"
    (task_timeout (ot_id task) (ot_assigned_to task) (ot_employee_name task)
                  (incidentType k) (newWarnings k) (newViolations k)
                  (negb (isActive k))).

Definition checkTimeouts (drawn : uuid -> uuid) (now : timestamp) : Db unit :=
  in_transaction (
    overdueTasks <- query "checkTimeouts: SELECT" (overdue_tasks now) ;;
    for_of overdueTasks (fun task => expire (drawn (ot_id task)) now task)).

End Workers.
End Worker.

(** ** Sample data

    One candidate, one job and a few reviewers, in the shape of the seed
    rows of [backend/init.sql]. *)

Module Samples.
Import Model.

Definition reviewer (id : uuid) (status : EmployeeStatus)
  (current_task_id : option uuid) (tasks_completed warnings violations : Z)
  (last_heartbeat : option Sql.timestamp) : Gateway.Employee :=
  {| Gateway.emp_id := id;
     Gateway.emp_email := id ++ "@company.com";
     Gateway.emp_name := id;
     Gateway.emp_role := role_employee;
     Gateway.emp_status := status;
     Gateway.emp_current_task_id := current_task_id;
     Gateway.emp_tasks_completed := tasks_completed;
     Gateway.emp_warnings := warnings;
     Gateway.emp_violations := violations;
     Gateway.emp_average_completion_time_seconds := 480;
     Gateway.emp_last_heartbeat := last_heartbeat |}.

(** A task for candidate [cand] and job [job], created at [created_at]
    with score 0.82. *)
Definition review_task (id : uuid) (status : TaskStatus)
  (assigned_to : option uuid) (assigned_at due_at : option Sql.timestamp)
  (retry_count : Z) (created_at : Sql.timestamp) : Gateway.Task :=
  {| Gateway.task_id := id;
     Gateway.task_candidate_id := "cand";
     Gateway.task_job_id := "job";
     Gateway.task_ats_score := 82 # 100;
     Gateway.task_status := status;
     Gateway.task_assigned_to := assigned_to;
     Gateway.task_assigned_at := assigned_at;
     Gateway.task_due_at := due_at;
     Gateway.task_started_at := None;
     Gateway.task_completed_at := None;
     Gateway.task_old_resume_url := Some "u1";
     Gateway.task_new_resume_url := None;
     Gateway.task_missing_keywords := [];
     Gateway.task_suggestions := [];
     Gateway.task_notes := None;
     Gateway.task_retry_count := retry_count;
     Gateway.task_created_at := created_at |}.

Definition store (employees : list Gateway.Employee)
  (ats_tasks : list Gateway.Task) : Gateway.Store :=
  {| Gateway.employees := employees;
     Gateway.ats_tasks := ats_tasks;
     Gateway.candidates :=
       [ {| Gateway.cand_id := "cand"; Gateway.cand_name := "Alex Rivera";
            Gateway.cand_resume_url := Some "u1";
            Gateway.cand_total_applications := 0 |} ];
     Gateway.jobs :=
       [ {| Gateway.job_id := "job"; Gateway.job_title := "Data Analyst";
            Gateway.job_application_count := 0 |} ];
     Gateway.applications := [];
     Gateway.employee_incidents := [];
     Gateway.activity_log := [] |}.

Definition world (s : Gateway.Store) : Gateway.World :=
  {| Gateway.db := s; Gateway.published := [] |}.

(** Twenty minutes, and one minute past the deadline of a task assigned
    at time 0. *)
Definition sla : Sql.timestamp := 20 * 60 * 1000.
Definition late : Sql.timestamp := 21 * 60 * 1000.

(** Reviewer [R] with the given counters holds task [T], assigned at
    time 0 and so overdue at [late]. *)
Definition holder (warnings violations : Z) : Gateway.Employee :=
  reviewer "R" busy (Some "T") 5 warnings violations (Some 0).

Definition held_task : Gateway.Task :=
  review_task "T" assigned (Some "R") (Some 0) (Some sla) 0 0.

Definition holding (warnings violations : Z) : Gateway.Store :=
  store [holder warnings violations] [held_task].

Definition worker_reviewer (id : uuid) (status : EmployeeStatus)
  (is_active : bool) (tasks_completed warnings violations : Z)
  : Worker.Employee :=
  {| Worker.emp_id := id;
     Worker.emp_name := id;
     Worker.emp_email := id ++ "@company.com";
     Worker.emp_status := status;
     Worker.emp_is_active := is_active;
     Worker.emp_tasks_completed := tasks_completed;
     Worker.emp_last_active := Some 0;
     Worker.emp_warnings := warnings;
     Worker.emp_violations := violations;
     Worker.emp_updated_at := 0 |}.

Definition worker_task (id : uuid) (status : TaskStatus)
  (assigned_to : option uuid) (assigned_at deadline : option Sql.timestamp)
  (created_at : Sql.timestamp) : Worker.Task :=
  {| Worker.task_id := id;
     Worker.task_job_id := "job";
     Worker.task_candidate_id := "cand";
     Worker.task_original_ats_score := 82 # 100;
     Worker.task_status := status;
     Worker.task_assigned_to := assigned_to;
     Worker.task_assigned_at := assigned_at;
     Worker.task_deadline := deadline;
     Worker.task_created_at := created_at;
     Worker.task_updated_at := created_at |}.

Definition worker_world (employees : list Worker.Employee)
  (ats_tasks : list Worker.Task) : Worker.World :=
  {| Worker.db :=
       {| Worker.employees := employees;
          Worker.ats_tasks := ats_tasks;
          Worker.employee_incidents := [];
          Worker.activity_log := [] |};
     Worker.published := [] |}.

Definition worker_holder (warnings violations : Z) : Worker.Employee :=
  worker_reviewer "R" busy true 5 warnings violations.

Definition worker_held_task : Worker.Task :=
  worker_task "T" assigned (Some "R") (Some 0) (Some sla) 0.

Definition worker_holding (warnings violations : Z) : Worker.World :=
  worker_world [worker_holder warnings violations] [worker_held_task].

(** The id drawn for the copy of a task. *)
Definition drawn (id : uuid) : uuid := id ++ "'".

(** A queue of one task [T], created at time 0 and never assigned. *)
Definition waiting (retry_count : Z) : Gateway.Task :=
  review_task "T" queued None None None retry_count 0.

(** The time of the ticks below: 250 seconds. *)
Definition tick : Sql.timestamp := 250000.

(** Two free reviewers with equal load; [A] was last heard 50 seconds
    before [tick], [B] 10 seconds before. *)
Definition tied : Gateway.Store :=
  store [reviewer "A" available None 3 0 0 (Some 200000);
         reviewer "B" available None 3 0 0 (Some 240000)]
        [waiting 0].

(** A free reviewer with three violations, last heard 200 seconds before
    [tick]. *)
Definition stale : Gateway.Store :=
  store [reviewer "A" available None 5 0 3 (Some 50000)] [waiting 0].

(** The only queued task has been requeued four times. *)
Definition retried : Gateway.Store :=
  store [reviewer "A" available None 5 0 0 (Some 240000)] [waiting 4].

(** An admin with a row of its own. *)
Definition boss : Gateway.Employee :=
  {| Gateway.emp_id := "boss";
     Gateway.emp_email := "boss@company.com";
     Gateway.emp_name := "boss";
     Gateway.emp_role := role_admin;
     Gateway.emp_status := offline;
     Gateway.emp_current_task_id := None;
     Gateway.emp_tasks_completed := 0;
     Gateway.emp_warnings := 0;
     Gateway.emp_violations := 0;
     Gateway.emp_average_completion_time_seconds := 0;
     Gateway.emp_last_heartbeat := None |}.

(** The token payload of a user. *)
Definition jwt (id : uuid) (role : Role) : Gateway.JwtPayload :=
  {| Gateway.userId := id;
     Gateway.email := id ++ "@company.com";
     Gateway.role := role |}.

(** Reviewer [R] after the expiry that brings the fourth violation: the
    account is locked. *)
Definition locked : Gateway.World :=
  fst (Gateway.checkTimeouts Steps.no_fault late (world (holding 2 3))).

Definition presence_update (status : string) : Gateway.ClientMessage :=
  {| Gateway.msg_type := "PRESENCE_UPDATE";
     Gateway.msg_status := Some status;
     Gateway.msg_taskId := None |}.

(** Ten minutes after the assignment of [T], its holder [R] submits a
    resume; the object store files it under [u2]. *)
Definition submission (fails : string -> bool)
  : Gateway.World * (Steps.Error + Gateway.CompleteResponse) :=
  Gateway.complete fails (10 * 60 * 1000) (jwt "R" role_employee) "T"
    (Some "resume.pdf") None "u2" (world (holding 0 0)).

(** Reviewer [R] comes to hold two tasks.  [R] holds [T], assigned at
    time 0, and [T2] waits in the queue.  After ten minutes [R] completes
    [T] (the request passes [updateHeartbeat] first) and is free again;
    at 700 seconds [R]'s client sends TASK_STARTED for [T], which puts
    [T] back to [in_progress] with its old deadline; the assigner's tick
    of that moment gives [T2] to [R], due at 1900 seconds. *)
Definition two_held (warnings violations : Z) : Gateway.World :=
  let user := jwt "R" role_employee in
  let w0 :=
    world (store [holder warnings violations]
                 [held_task; review_task "T2" queued None None None 0 0]) in
  let w1 := fst (Gateway.updateHeartbeat Steps.no_fault 600000 "R" w0) in
  let w2 := fst (Gateway.complete Steps.no_fault 600000 user "T"
                   (Some "resume.pdf") None "u2" w1) in
  let w3 := fst (Gateway.handleMessage Steps.no_fault 700000 user
                   {| Gateway.msg_type := "TASK_STARTED";
                      Gateway.msg_status := None;
                      Gateway.msg_taskId := Some "T" |} w2) in
  fst (Gateway.assignNextTask Steps.no_fault 700000 w3).

(** The time of the timeout tick that finds both tasks overdue. *)
Definition both_late : Sql.timestamp := 2000000.

(** What a tick leaves of the counters and of the incidents. *)
Definition counters (w : Gateway.World) : list (uuid * Z * Z) :=
  map (fun e => (Gateway.emp_id e, Gateway.emp_warnings e,
                 Gateway.emp_violations e))
      (Gateway.employees (Gateway.db w)).

Definition incidents (w : Gateway.World)
  : list (IncidentType * option uuid) :=
  map (fun i => (Gateway.inc_type i, Gateway.inc_task_id i))
      (Gateway.employee_incidents (Gateway.db w)).

End Samples.

(** * Properties *)

(** ** Ordered selections *)

Section OrderBy.
Context {Row : Type}.
Variable leb : Row -> Row -> bool.

Lemma place_perm r l : Permutation (r :: l) (Sql.place leb r l).
Proof.
  induction l as [|x l IH]; simpl.
  - apply Permutation_refl.
  - destruct (leb r x).
    + apply Permutation_refl.
    + eapply Permutation_trans; [apply perm_swap|].
      now apply perm_skip.
Qed.

Lemma order_by_perm t : Permutation t (Sql.order_by leb t).
Proof.
  induction t as [|r t IH]; simpl.
  - apply perm_nil.
  - eapply Permutation_trans; [|apply place_perm].
    now apply perm_skip.
Qed.

Lemma order_by_In r t : In r (Sql.order_by leb t) <-> In r t.
Proof.
  split; intro H.
  - eapply Permutation_in; [apply Permutation_sym, order_by_perm | exact H].
  - eapply Permutation_in; [apply order_by_perm | exact H].
Qed.

Lemma order_by_nil t : Sql.order_by leb t = [] -> t = [].
Proof.
  intro E. pose proof (order_by_perm t) as P. rewrite E in P.
  now apply Permutation_sym, Permutation_nil in P.
Qed.

Hypothesis leb_total : forall a b, leb a b = true \/ leb b a = true.
Hypothesis leb_trans :
  forall a b c, leb a b = true -> leb b c = true -> leb a c = true.

Lemma place_sorted r l :
  StronglySorted (fun a b => leb a b = true) l ->
  StronglySorted (fun a b => leb a b = true) (Sql.place leb r l).
Proof.
  induction 1 as [|x l Hs IH Hx]; simpl.
  - constructor; [constructor | constructor].
  - destruct (leb r x) eqn:E.
    + constructor.
      * now constructor.
      * constructor; [exact E|].
        rewrite Forall_forall in *. intros y Hy.
        eapply leb_trans; [exact E | now apply Hx].
    + constructor; [exact IH|].
      rewrite Forall_forall in *. intros y Hy.
      apply (Permutation_in _ (Permutation_sym (place_perm r l))) in Hy.
      destruct Hy as [<- | Hy].
      * destruct (leb_total r x) as [C | C]; [congruence | exact C].
      * now apply Hx.
Qed.

Lemma order_by_sorted t :
  StronglySorted (fun a b => leb a b = true) (Sql.order_by leb t).
Proof.
  induction t as [|r t IH]; simpl.
  - constructor.
  - now apply place_sorted.
Qed.

(** The first row of an ordered selection comes no later than any row of
    the table. *)
Lemma order_by_head r rest t :
  Sql.order_by leb t = r :: rest ->
  In r t /\ forall y, In y t -> leb r y = true.
Proof.
  intro E. split.
  - apply order_by_In. rewrite E. now left.
  - intros y Hy. apply order_by_In in Hy. rewrite E in Hy.
    pose proof (order_by_sorted t) as S. rewrite E in S.
    inversion S as [|? ? _ Hall]; subst.
    destruct Hy as [<- | Hy].
    + destruct (leb_total r r); assumption.
    + rewrite Forall_forall in Hall. now apply Hall.
Qed.

End OrderBy.

Lemma update_where_In {Row} (p : Row -> bool) f t r' :
  In r' (Sql.update_where p f t) <->
  exists r, In r t /\ r' = (if p r then f r else r).
Proof.
  unfold Sql.update_where. rewrite in_map_iff. split.
  - intros (r & E & H). exists r. now split.
  - intros (r & H & E). exists r. now split.
Qed.

(** An UPDATE relates the table before and after row by row, in place. *)
Lemma update_where_Forall2 {Row} (p : Row -> bool) f t :
  Forall2 (fun old new => new = if p old then f old else old)
          t (Sql.update_where p f t).
Proof.
  induction t as [|r t IH]; simpl; constructor; auto.
Qed.

Lemma Forall2_weaken {A B} (P Q : A -> B -> Prop) l l' :
  (forall a b, In a l -> P a b -> Q a b) ->
  Forall2 P l l' -> Forall2 Q l l'.
Proof.
  intros H F. induction F as [|a b l l' Hab F IH]; constructor.
  - apply H; [now left | exact Hab].
  - apply IH. intros a' b' Hin. apply H. now right.
Qed.

Lemma Forall2_compose {A} (P Q R : A -> A -> Prop) l1 l2 l3 :
  (forall a b c, P a b -> Q b c -> R a c) ->
  Forall2 P l1 l2 -> Forall2 Q l2 l3 -> Forall2 R l1 l3.
Proof.
  intros H F. revert l3.
  induction F as [|a b l l' Hab F IH]; intros l3 G; inversion G; subst;
    constructor; eauto.
Qed.

Lemma Forall2_same {A} (P : A -> A -> Prop) l :
  (forall a, P a a) -> Forall2 P l l.
Proof. intro H. induction l; constructor; auto. Qed.

(** ** Deadline expiry *)

Section Expiry.
Import Model Steps.

Lemma gateway_overdue_In now s ot :
  In ot (Gateway.overdue_tasks now s) <->
  exists t e due,
    In t (Gateway.ats_tasks s) /\ In e (Gateway.employees s) /\
    Gateway.task_due_at t = Some due /\
    held (Gateway.task_status t) = true /\ due < now /\
    Gateway.task_assigned_to t = Some (Gateway.emp_id e) /\
    ot = Gateway.overdue_row t e due.
Proof.
  unfold Gateway.overdue_tasks. rewrite in_flat_map. split.
  - intros (t & Ht & H).
    destruct (Gateway.task_due_at t) as [due|] eqn:Ed; [|contradiction].
    destruct (held (Gateway.task_status t) && (due <? now)) eqn:Eh;
      [|contradiction].
    apply andb_true_iff in Eh. destruct Eh as [Eh El].
    apply in_map_iff in H. destruct H as (e & <- & He).
    apply filter_In in He. destruct He as [He Ea].
    unfold is_uuid in Ea.
    destruct (Gateway.task_assigned_to t) as [a|] eqn:Et; [|discriminate].
    apply String.eqb_eq in Ea. subst a.
    exists t, e, due. repeat split; auto. now apply Z.ltb_lt.
  - intros (t & e & due & Ht & He & Ed & Eh & El & Ea & ->).
    exists t. split; [exact Ht|].
    rewrite Ed, Eh. apply Z.ltb_lt in El. rewrite El. simpl.
    apply in_map_iff. exists e. split; [reflexivity|].
    apply filter_In. split; [exact He|].
    rewrite Ea. simpl. apply String.eqb_refl.
Qed.

Lemma worker_overdue_In now s ot :
  In ot (Worker.overdue_tasks now s) <->
  exists t e due,
    In t (Worker.ats_tasks s) /\ In e (Worker.employees s) /\
    Worker.task_deadline t = Some due /\
    held (Worker.task_status t) = true /\ due < now /\
    Worker.task_assigned_to t = Some (Worker.emp_id e) /\
    ot = Worker.overdue_row t e due.
Proof.
  unfold Worker.overdue_tasks. rewrite in_flat_map. split.
  - intros (t & Ht & H).
    destruct (Worker.task_deadline t) as [due|] eqn:Ed; [|contradiction].
    destruct (held (Worker.task_status t) && (due <? now)) eqn:Eh;
      [|contradiction].
    apply andb_true_iff in Eh. destruct Eh as [Eh El].
    apply in_map_iff in H. destruct H as (e & <- & He).
    apply filter_In in He. destruct He as [He Ea].
    unfold is_uuid in Ea.
    destruct (Worker.task_assigned_to t) as [a|] eqn:Et; [|discriminate].
    apply String.eqb_eq in Ea. subst a.
    exists t, e, due. repeat split; auto. now apply Z.ltb_lt.
  - intros (t & e & due & Ht & He & Ed & Eh & El & Ea & ->).
    exists t. split; [exact Ht|].
    rewrite Ed, Eh. apply Z.ltb_lt in El. rewrite El. simpl.
    apply in_map_iff. exists e. split; [reflexivity|].
    apply filter_In. split; [exact He|].
    rewrite Ea. simpl. apply String.eqb_refl.
Qed.

(** What a run of [handleTimeout] in which no call rejects leaves in the
    database. *)
Lemma handleTimeout_db ot w :
  Gateway.db (fst (Gateway.handleTimeout no_fault ot w)) =
  Gateway.with_employee_incidents
    (Sql.insert_into
       {| Gateway.inc_employee_id := Gateway.ot_assigned_to ot;
          Gateway.inc_type := Gateway.incidentType (Gateway.strike ot);
          Gateway.inc_reason := "Task timeout - exceeded 20 minute SLA";
          Gateway.inc_task_id := Some (Gateway.ot_id ot) |})
    (Gateway.with_employees
       (Sql.update_where
          (fun e => String.eqb (Gateway.emp_id e) (Gateway.ot_assigned_to ot))
          (Gateway.struck (Gateway.strike ot)))
       (Gateway.with_ats_tasks
          (Sql.update_where
             (fun t => String.eqb (Gateway.task_id t) (Gateway.ot_id ot))
             Gateway.requeue)
          (Gateway.db w))).
Proof.
  unfold Gateway.handleTimeout, try_catch, Gateway.transaction, bind,
    Gateway.execute, Gateway.publish, await, no_fault.
  simpl. destruct (Gateway.incidentType (Gateway.strike ot)); reflexivity.
Qed.

Lemma expire_db tm drawn now ot w :
  Worker.expire no_fault tm drawn now ot w =
  ({| Worker.db :=
        Worker.with_ats_tasks
          (fun tasks =>
             (tasks ++
              map (Worker.clone drawn now)
                  (Sql.select_where
                     (fun t => String.eqb (Worker.task_id t) (Worker.ot_id ot))
                     tasks))%list)
          (Worker.with_activity_log
             (Sql.insert_into
                {| Worker.act_employee_id := Worker.ot_assigned_to ot;
                   Worker.act_action :=
                     match Worker.incidentType (Worker.strike ot) with
                     | violation => "violation_received"
                     | warning => "warning_received"
                     end;
                   Worker.act_entity_type := "ats_task";
                   Worker.act_entity_id := Worker.ot_id ot;
                   Worker.act_details :=
                     Worker.strike_details
                       (Worker.differenceInMinutes now (Worker.ot_deadline ot))
                       (Worker.newWarnings (Worker.strike ot))
                       (Worker.newViolations (Worker.strike ot))
                       (negb (Worker.isActive (Worker.strike ot))) |})
             (Worker.with_employee_incidents
                (Sql.insert_into
                   {| Worker.inc_employee_id := Worker.ot_assigned_to ot;
                      Worker.inc_type :=
                        Worker.incidentType (Worker.strike ot);
                      Worker.inc_reason :=
                        "SLA timeout - Task exceeded " ++ show_Z tm
                        ++ " minute deadline by "
                        ++ show_Z (Worker.differenceInMinutes
                                     now (Worker.ot_deadline ot))
                        ++ " minutes";
                      Worker.inc_task_id := Worker.ot_id ot |})
                (Worker.with_employees
                   (Sql.update_where
                      (fun e => String.eqb (Worker.emp_id e)
                                           (Worker.ot_assigned_to ot))
                      (Worker.struck (Worker.strike ot) now))
                   (Worker.with_ats_tasks
                      (Sql.update_where
                         (fun t => String.eqb (Worker.task_id t)
                                              (Worker.ot_id ot))
                         (Worker.timed_out now))
                      (Worker.db w)))));
      Worker.published :=
        (Worker.published w ++
         [Worker.task_timeout
            (Worker.ot_id ot) (Worker.ot_assigned_to ot)
            (Worker.ot_employee_name ot)
            (Worker.incidentType (Worker.strike ot))
            (Worker.newWarnings (Worker.strike ot))
            (Worker.newViolations (Worker.strike ot))
            (negb (Worker.isActive (Worker.strike ot)))])%list |},
   inr tt).
Proof. reflexivity. Qed.

End Expiry.

Section Strikes.
Import Model Steps.

Lemma gateway_strike_cases ot :
  let w0 := Gateway.employee_warnings ot in
  let v0 := Gateway.employee_violations ot in
  let k := Gateway.strike ot in
  (w0 < 2 ->
   Gateway.newWarnings k = w0 + 1 /\ Gateway.newViolations k = v0 /\
   Gateway.incidentType k = warning /\ Gateway.newStatus k = available) /\
  (2 <= w0 ->
   Gateway.newWarnings k = 0 /\ Gateway.newViolations k = v0 + 1 /\
   Gateway.incidentType k = violation /\
   (v0 + 1 < 4 -> Gateway.newStatus k = available) /\
   (4 <= v0 + 1 -> Gateway.newStatus k = offline)).
Proof.
  unfold Gateway.strike, Gateway.WARNINGS_PER_VIOLATION,
    Gateway.MAX_VIOLATIONS.
  cbv zeta. split; intro H.
  - destruct (Z.leb_spec 3 (Gateway.employee_warnings ot + 1)); [lia|].
    simpl. auto.
  - destruct (Z.leb_spec 3 (Gateway.employee_warnings ot + 1)); [|lia].
    simpl. repeat split; intro G.
    + destruct (Z.leb_spec 4 (Gateway.employee_violations ot + 1));
        [lia | reflexivity].
    + destruct (Z.leb_spec 4 (Gateway.employee_violations ot + 1));
        [reflexivity | lia].
Qed.

Lemma worker_strike_cases ot :
  let w0 := Worker.ot_warnings ot in
  let v0 := Worker.ot_violations ot in
  let k := Worker.strike ot in
  (w0 < 2 ->
   Worker.newWarnings k = w0 + 1 /\ Worker.newViolations k = v0 /\
   Worker.incidentType k = warning /\
   Worker.isActive k = negb (4 <=? v0)) /\
  (2 <= w0 ->
   Worker.newWarnings k = 0 /\ Worker.newViolations k = v0 + 1 /\
   Worker.incidentType k = violation /\
   Worker.isActive k = negb (4 <=? v0 + 1)).
Proof.
  unfold Worker.strike, Worker.warningsPerViolation,
    Worker.violationsForSuspension.
  cbv zeta. split; intro H.
  - destruct (Z.leb_spec 3 (Worker.ot_warnings ot + 1)); [lia|].
    simpl. auto.
  - destruct (Z.leb_spec 3 (Worker.ot_warnings ot + 1)); [|lia].
    simpl. auto.
Qed.

(** The rows of the holder after [handleTimeout]. *)
Lemma gateway_struck_rows ot w e' :
  In e' (Gateway.employees
           (Gateway.db (fst (Gateway.handleTimeout no_fault ot w)))) ->
  Gateway.emp_id e' = Gateway.ot_assigned_to ot ->
  exists e0, In e0 (Gateway.employees (Gateway.db w)) /\
             e' = Gateway.struck (Gateway.strike ot) e0.
Proof.
  rewrite handleTimeout_db. simpl. intros H Hid.
  apply update_where_In in H. destruct H as (e0 & H0 & ->).
  exists e0. split; [exact H0|].
  destruct (String.eqb_spec (Gateway.emp_id e0) (Gateway.ot_assigned_to ot));
    [reflexivity | contradiction].
Qed.

Lemma worker_struck_rows tm drawn now ot w e' :
  In e' (Worker.employees
           (Worker.db (fst (Worker.expire no_fault tm drawn now ot w)))) ->
  Worker.emp_id e' = Worker.ot_assigned_to ot ->
  exists e0, In e0 (Worker.employees (Worker.db w)) /\
             e' = Worker.struck (Worker.strike ot) now e0.
Proof.
  rewrite expire_db. simpl. intros H Hid.
  apply update_where_In in H. destruct H as (e0 & H0 & ->).
  exists e0. split; [exact H0|].
  destruct (String.eqb_spec (Worker.emp_id e0) (Worker.ot_assigned_to ot));
    [reflexivity | contradiction].
Qed.

(** The holder is still a row afterwards. *)
Lemma gateway_struck_holder ot w e :
  In e (Gateway.employees (Gateway.db w)) ->
  Gateway.emp_id e = Gateway.ot_assigned_to ot ->
  In (Gateway.struck (Gateway.strike ot) e)
     (Gateway.employees
        (Gateway.db (fst (Gateway.handleTimeout no_fault ot w)))).
Proof.
  intros H Hid. rewrite handleTimeout_db. simpl.
  apply update_where_In. exists e. split; [exact H|].
  rewrite Hid, String.eqb_refl. reflexivity.
Qed.

Lemma worker_struck_holder tm drawn now ot w e :
  In e (Worker.employees (Worker.db w)) ->
  Worker.emp_id e = Worker.ot_assigned_to ot ->
  In (Worker.struck (Worker.strike ot) now e)
     (Worker.employees
        (Worker.db (fst (Worker.expire no_fault tm drawn now ot w)))).
Proof.
  intros H Hid. rewrite expire_db. simpl.
  apply update_where_In. exists e. split; [exact H|].
  rewrite Hid, String.eqb_refl. reflexivity.
Qed.

End Strikes.

(** ** The strike step (claims C2 and C1) *)

Section StrikeClaims.
Import Model Steps.

(** A strike that runs on the store its row was read from, as the first
    strike of a tick does.  Let [now] be the time of the query and [e]
    the row of the reviewer joined to the overdue task [t], with
    warnings [w] and violations [v].  The strike step, in the gateway's
    [handleTimeout] as in the loop body of the worker-service's
    [checkTimeouts], leaves the reviewer's row in the table, and on every
    row of that reviewer: if [w < 2] then warnings are [w + 1] and
    violations stay [v]; if [w = 2] then warnings are 0 and violations
    [v + 1]; whenever [0 <= w], warnings end within [0, 2].  It appends
    exactly one incident, for that reviewer and that task, of kind
    warning if [w < 2] and of kind violation if [w = 2].  The later
    strikes of a tick start from the counters read before the first. *)
Theorem strike_step_counters :
  (forall now s p t e due,
     In (Gateway.overdue_row t e due) (Gateway.overdue_tasks now s) ->
     let w := Gateway.emp_warnings e in
     let v := Gateway.emp_violations e in
     let after :=
       Gateway.db
         (fst (Gateway.handleTimeout no_fault (Gateway.overdue_row t e due)
                 {| Gateway.db := s; Gateway.published := p |})) in
     (exists e', In e' (Gateway.employees after) /\
                 Gateway.emp_id e' = Gateway.emp_id e) /\
     (forall e', In e' (Gateway.employees after) ->
                 Gateway.emp_id e' = Gateway.emp_id e ->
        (w < 2 -> Gateway.emp_warnings e' = w + 1 /\
                  Gateway.emp_violations e' = v) /\
        (w = 2 -> Gateway.emp_warnings e' = 0 /\
                  Gateway.emp_violations e' = v + 1) /\
        (0 <= w -> 0 <= Gateway.emp_warnings e' <= 2)) /\
     (exists i,
        Gateway.employee_incidents after
        = (Gateway.employee_incidents s ++ [i])%list /\
        Gateway.inc_employee_id i = Gateway.emp_id e /\
        Gateway.inc_task_id i = Some (Gateway.task_id t) /\
        (w < 2 -> Gateway.inc_type i = warning) /\
        (w = 2 -> Gateway.inc_type i = violation)))
  /\
  (forall tm drawn now s p t e due,
     In (Worker.overdue_row t e due) (Worker.overdue_tasks now s) ->
     let w := Worker.emp_warnings e in
     let v := Worker.emp_violations e in
     let after :=
       Worker.db
         (fst (Worker.expire no_fault tm drawn now (Worker.overdue_row t e due)
                 {| Worker.db := s; Worker.published := p |})) in
     (exists e', In e' (Worker.employees after) /\
                 Worker.emp_id e' = Worker.emp_id e) /\
     (forall e', In e' (Worker.employees after) ->
                 Worker.emp_id e' = Worker.emp_id e ->
        (w < 2 -> Worker.emp_warnings e' = w + 1 /\
                  Worker.emp_violations e' = v) /\
        (w = 2 -> Worker.emp_warnings e' = 0 /\
                  Worker.emp_violations e' = v + 1) /\
        (0 <= w -> 0 <= Worker.emp_warnings e' <= 2)) /\
     (exists i,
        Worker.employee_incidents after
        = (Worker.employee_incidents s ++ [i])%list /\
        Worker.inc_employee_id i = Worker.emp_id e /\
        Worker.inc_task_id i = Worker.task_id t /\
        (w < 2 -> Worker.inc_type i = warning) /\
        (w = 2 -> Worker.inc_type i = violation))).
Proof.
  split.
  - intros now s p t e due Hin w v after.
    apply gateway_overdue_In in Hin.
    destruct Hin as (t0 & e0 & due0 & _ & He0 & _ & _ & _ & _ & Erow).
    assert (Eid : Gateway.emp_id e0 = Gateway.emp_id e)
      by (now injection Erow).
    pose proof (gateway_strike_cases (Gateway.overdue_row t e due)) as K.
    simpl in K. destruct K as [Klt Kge].
    split; [|split].
    + eexists. split.
      * apply (gateway_struck_holder (Gateway.overdue_row t e due)
                 {| Gateway.db := s; Gateway.published := p |} e0 He0).
        exact Eid.
      * simpl. exact Eid.
    + intros e' He' Hid.
      apply gateway_struck_rows in He'; [|exact Hid].
      destruct He' as (e1 & _ & ->). simpl.
      split; [|split]; intro G; subst w v.
      * now destruct (Klt G) as (-> & -> & _).
      * now destruct (Kge ltac:(lia)) as (-> & -> & _).
      * destruct (Z.lt_ge_cases (Gateway.emp_warnings e) 2) as [L | L].
        -- destruct (Klt L) as (-> & _). lia.
        -- destruct (Kge L) as (-> & _). lia.
    + subst after. rewrite handleTimeout_db. simpl.
      eexists. split; [reflexivity|]. simpl.
      split; [reflexivity|]. split; [reflexivity|].
      split; intro G; subst w v.
      * now destruct (Klt G) as (_ & _ & -> & _).
      * now destruct (Kge ltac:(lia)) as (_ & _ & -> & _).
  - intros tm drawn now s p t e due Hin w v after.
    apply worker_overdue_In in Hin.
    destruct Hin as (t0 & e0 & due0 & _ & He0 & _ & _ & _ & _ & Erow).
    assert (Eid : Worker.emp_id e0 = Worker.emp_id e)
      by (now injection Erow).
    pose proof (worker_strike_cases (Worker.overdue_row t e due)) as K.
    simpl in K. destruct K as [Klt Kge].
    split; [|split].
    + eexists. split.
      * apply (worker_struck_holder tm drawn now (Worker.overdue_row t e due)
                 {| Worker.db := s; Worker.published := p |} e0 He0).
        exact Eid.
      * simpl. exact Eid.
    + intros e' He' Hid.
      apply worker_struck_rows in He'; [|exact Hid].
      destruct He' as (e1 & _ & ->). simpl.
      split; [|split]; intro G; subst w v.
      * now destruct (Klt G) as (-> & -> & _).
      * now destruct (Kge ltac:(lia)) as (-> & -> & _).
      * destruct (Z.lt_ge_cases (Worker.emp_warnings e) 2) as [L | L].
        -- destruct (Klt L) as (-> & _). lia.
        -- destruct (Kge L) as (-> & _). lia.
    + subst after. rewrite expire_db. simpl.
      eexists. split; [reflexivity|]. simpl.
      split; [reflexivity|]. split; [reflexivity|].
      split; intro G; subst w v.
      * now destruct (Klt G) as (_ & _ & -> & _).
      * now destruct (Kge ltac:(lia)) as (_ & _ & -> & _).
Qed.

End StrikeClaims.

Section StrikeWitnesses.
Import Model Steps Samples.

Lemma strike_step_counters_witness :
  In (Gateway.overdue_row held_task (holder 1 0) sla)
     (Gateway.overdue_tasks late (holding 1 0)) /\
  (forall e',
     In e' (Gateway.employees
              (Gateway.db
                 (fst (Gateway.handleTimeout no_fault
                         (Gateway.overdue_row held_task (holder 1 0) sla)
                         (world (holding 1 0)))))) ->
     Gateway.emp_id e' = "R" ->
     Gateway.emp_warnings e' = 2 /\ Gateway.emp_violations e' = 0) /\
  In (Worker.overdue_row worker_held_task (worker_holder 2 1) sla)
     (Worker.overdue_tasks late (Worker.db (worker_holding 2 1))) /\
  (forall e',
     In e' (Worker.employees
              (Worker.db
                 (fst (Worker.expire no_fault 20 "T'" late
                         (Worker.overdue_row worker_held_task
                                             (worker_holder 2 1) sla)
                         (worker_holding 2 1))))) ->
     Worker.emp_id e' = "R" ->
     Worker.emp_warnings e' = 0 /\ Worker.emp_violations e' = 2).
Proof.
  assert (G : In (Gateway.overdue_row held_task (holder 1 0) sla)
                 (Gateway.overdue_tasks late (holding 1 0)))
    by (simpl; left; reflexivity).
  assert (W : In (Worker.overdue_row worker_held_task (worker_holder 2 1) sla)
                 (Worker.overdue_tasks late (Worker.db (worker_holding 2 1))))
    by (simpl; left; reflexivity).
  split; [exact G|]. split; [|split; [exact W|]].
  - intros e' He' Hid.
    destruct (proj1 strike_step_counters late (holding 1 0) []
                held_task (holder 1 0) sla G) as (_ & K & _).
    destruct (K e' He' Hid) as (L & _). apply L. simpl. lia.
  - intros e' He' Hid.
    destruct (proj2 strike_step_counters 20 "T'" late
                (Worker.db (worker_holding 2 1)) []
                worker_held_task (worker_holder 2 1) sla W) as (_ & K & _).
    destruct (K e' He' Hid) as (_ & L & _). apply L. reflexivity.
Defined.

End StrikeWitnesses.

Section StaleStrikes.
Import Model Steps Samples.

(** [checkTimeouts] hands each row of its one query to [handleTimeout],
    so the counters a strike starts from are those read before the
    first strike of the tick. *)
Lemma tick_strikes_from_read_rows now w :
  Gateway.checkTimeouts no_fault now w
  = try_catch
      (for_of (Gateway.overdue_tasks now (Gateway.db w))
              (Gateway.handleTimeout no_fault)) w.
Proof. reflexivity. Qed.

(** Claim C2, on a reviewer that holds two overdue tasks.  In the world
    [two_held 1 0] reviewer [R], with one warning and no violation,
    holds [T] and [T2], both overdue at [both_late].  The query of the
    tick joins both tasks with the counters (1, 0).  The strike for [T]
    stores two warnings, so at the strike for [T2] the reviewer has
    [w = 2] and [v = 0]: by the claim that strike sets warnings to 0 and
    violations to 1 and records a violation.  The code starts from the
    counters of the query instead: it stores warnings 2 and violations 0
    again and records a second warning, so after three warnings the
    reviewer has no violation.  Starting from (0, 0) the two strikes
    leave one warning, not two; starting from (2, 0) they leave one
    violation and no warning and record two violations. *)
Theorem later_strike_counts_from_read_counters :
  let rows := Gateway.overdue_tasks both_late (Gateway.db (two_held 1 0)) in
  let tick w v :=
    fst (Gateway.checkTimeouts no_fault both_late (two_held w v)) in
  counters (two_held 1 0) = [("R", 1, 0)] /\
  map (fun r => (Gateway.ot_id r, Gateway.ot_assigned_to r,
                 Gateway.employee_warnings r, Gateway.employee_violations r))
      rows
  = [("T", "R", 1, 0); ("T2", "R", 1, 0)] /\
  (forall first, nth_error rows 0 = Some first ->
     counters (fst (Gateway.handleTimeout no_fault first (two_held 1 0)))
     = [("R", 2, 0)]) /\
  counters (tick 1 0) = [("R", 2, 0)] /\
  incidents (tick 1 0) = [(warning, Some "T"); (warning, Some "T2")] /\
  counters (tick 0 0) = [("R", 1, 0)] /\
  incidents (tick 0 0) = [(warning, Some "T"); (warning, Some "T2")] /\
  counters (tick 2 0) = [("R", 0, 1)] /\
  incidents (tick 2 0) = [(violation, Some "T"); (violation, Some "T2")].
Proof.
  cbv zeta. split; [vm_compute; reflexivity|].
  split; [vm_compute; reflexivity|].
  split.
  - intros first E. vm_compute in E. injection E as <-.
    vm_compute. reflexivity.
  - repeat split; vm_compute; reflexivity.
Qed.

End StaleStrikes.

Section Suspension.
Import Model Steps Samples.

(** Claim C1, as stated, fails: a reviewer with two warnings and two
    violations whose task expires ends with three violations, and is
    neither set offline by the gateway nor deactivated by the
    worker-service. *)
Lemma three_violations_not_suspended :
  (exists e',
     In e' (Gateway.employees
              (Gateway.db
                 (fst (Gateway.checkTimeouts no_fault late
                         (world (holding 2 2)))))) /\
     Gateway.emp_id e' = "R" /\
     Gateway.emp_violations e' = 3 /\
     Gateway.emp_status e' = available) /\
  (exists e',
     In e' (Worker.employees
              (Worker.db
                 (fst (Worker.checkTimeouts no_fault 20 drawn late
                         (worker_holding 2 2))))) /\
     Worker.emp_id e' = "R" /\
     Worker.emp_violations e' = 3 /\
     Worker.emp_is_active e' = true /\
     Worker.emp_status e' = available).
Proof.
  split.
  - exists (reviewer "R" available None 5 0 3 (Some 0)).
    split; [left; reflexivity | repeat split].
  - exists {| Worker.emp_id := "R"; Worker.emp_name := "R";
              Worker.emp_email := "R@company.com";
              Worker.emp_status := available;
              Worker.emp_is_active := true;
              Worker.emp_tasks_completed := 5;
              Worker.emp_last_active := Some 0;
              Worker.emp_warnings := 0;
              Worker.emp_violations := 3;
              Worker.emp_updated_at := late |}.
    split; [left; reflexivity | repeat split].
Qed.

(** Claim C1, amended.  Let reviewer [e] hold task [t], overdue at [now],
    with at least two warnings, so that the expiry promotes a warning
    into a violation and the violations counter becomes [v + 1].  The
    reviewer's row stays in the table, and on every row of that reviewer:
    the gateway's [handleTimeout] sets the status to offline when
    [v + 1 >= 4] and to available when [v + 1 < 4]; the loop body of the
    worker-service's [checkTimeouts] sets [is_active] to false when
    [v + 1 >= 4] and to true when [v + 1 < 4]. *)
Theorem promotion_suspends_at_four :
  (forall now s p t e due,
     In (Gateway.overdue_row t e due) (Gateway.overdue_tasks now s) ->
     2 <= Gateway.emp_warnings e ->
     let v := Gateway.emp_violations e in
     let after :=
       Gateway.db
         (fst (Gateway.handleTimeout no_fault (Gateway.overdue_row t e due)
                 {| Gateway.db := s; Gateway.published := p |})) in
     (exists e', In e' (Gateway.employees after) /\
                 Gateway.emp_id e' = Gateway.emp_id e) /\
     (forall e', In e' (Gateway.employees after) ->
                 Gateway.emp_id e' = Gateway.emp_id e ->
        Gateway.emp_violations e' = v + 1 /\
        (4 <= v + 1 -> Gateway.emp_status e' = offline) /\
        (v + 1 < 4 -> Gateway.emp_status e' = available)))
  /\
  (forall tm drawn now s p t e due,
     In (Worker.overdue_row t e due) (Worker.overdue_tasks now s) ->
     2 <= Worker.emp_warnings e ->
     let v := Worker.emp_violations e in
     let after :=
       Worker.db
         (fst (Worker.expire no_fault tm drawn now (Worker.overdue_row t e due)
                 {| Worker.db := s; Worker.published := p |})) in
     (exists e', In e' (Worker.employees after) /\
                 Worker.emp_id e' = Worker.emp_id e) /\
     (forall e', In e' (Worker.employees after) ->
                 Worker.emp_id e' = Worker.emp_id e ->
        Worker.emp_violations e' = v + 1 /\
        (4 <= v + 1 -> Worker.emp_is_active e' = false) /\
        (v + 1 < 4 -> Worker.emp_is_active e' = true))).
Proof.
  split.
  - intros now s p t e due Hin Hw v after.
    apply gateway_overdue_In in Hin.
    destruct Hin as (t0 & e0 & due0 & _ & He0 & _ & _ & _ & _ & Erow).
    assert (Eid : Gateway.emp_id e0 = Gateway.emp_id e)
      by (now injection Erow).
    pose proof (gateway_strike_cases (Gateway.overdue_row t e due)) as K.
    simpl in K. destruct K as [_ K].
    destruct (K Hw) as (_ & Kv & _ & Kav & Koff).
    split.
    + eexists. split.
      * apply (gateway_struck_holder (Gateway.overdue_row t e due)
                 {| Gateway.db := s; Gateway.published := p |} e0 He0).
        exact Eid.
      * simpl. exact Eid.
    + intros e' He' Hid.
      apply gateway_struck_rows in He'; [|exact Hid].
      destruct He' as (e1 & _ & ->). simpl.
      split; [exact Kv | split; assumption].
  - intros tm drawn now s p t e due Hin Hw v after.
    apply worker_overdue_In in Hin.
    destruct Hin as (t0 & e0 & due0 & _ & He0 & _ & _ & _ & _ & Erow).
    assert (Eid : Worker.emp_id e0 = Worker.emp_id e)
      by (now injection Erow).
    pose proof (worker_strike_cases (Worker.overdue_row t e due)) as K.
    simpl in K. destruct K as [_ K].
    destruct (K Hw) as (_ & Kv & _ & Kact).
    split.
    + eexists. split.
      * apply (worker_struck_holder tm drawn now (Worker.overdue_row t e due)
                 {| Worker.db := s; Worker.published := p |} e0 He0).
        exact Eid.
      * simpl. exact Eid.
    + intros e' He' Hid.
      apply worker_struck_rows in He'; [|exact Hid].
      destruct He' as (e1 & _ & ->). simpl.
      split; [exact Kv|]. rewrite Kact. subst v.
      split; intro G.
      * destruct (Z.leb_spec 4 (Worker.emp_violations e + 1));
          [reflexivity | lia].
      * destruct (Z.leb_spec 4 (Worker.emp_violations e + 1));
          [lia | reflexivity].
Qed.

Lemma promotion_suspends_at_four_witness :
  In (Gateway.overdue_row held_task (holder 2 3) sla)
     (Gateway.overdue_tasks late (holding 2 3)) /\
  2 <= Gateway.emp_warnings (holder 2 3) /\
  (forall e',
     In e' (Gateway.employees
              (Gateway.db
                 (fst (Gateway.handleTimeout no_fault
                         (Gateway.overdue_row held_task (holder 2 3) sla)
                         (world (holding 2 3)))))) ->
     Gateway.emp_id e' = "R" ->
     Gateway.emp_violations e' = 4 /\ Gateway.emp_status e' = offline) /\
  In (Worker.overdue_row worker_held_task (worker_holder 2 3) sla)
     (Worker.overdue_tasks late (Worker.db (worker_holding 2 3))) /\
  2 <= Worker.emp_warnings (worker_holder 2 3) /\
  (forall e',
     In e' (Worker.employees
              (Worker.db
                 (fst (Worker.expire no_fault 20 "T'" late
                         (Worker.overdue_row worker_held_task
                                             (worker_holder 2 3) sla)
                         (worker_holding 2 3))))) ->
     Worker.emp_id e' = "R" ->
     Worker.emp_violations e' = 4 /\ Worker.emp_is_active e' = false).
Proof.
  assert (G : In (Gateway.overdue_row held_task (holder 2 3) sla)
                 (Gateway.overdue_tasks late (holding 2 3)))
    by (simpl; left; reflexivity).
  assert (W : In (Worker.overdue_row worker_held_task (worker_holder 2 3) sla)
                 (Worker.overdue_tasks late (Worker.db (worker_holding 2 3))))
    by (simpl; left; reflexivity).
  assert (Gw : 2 <= Gateway.emp_warnings (holder 2 3)) by (simpl; lia).
  assert (Ww : 2 <= Worker.emp_warnings (worker_holder 2 3)) by (simpl; lia).
  split; [exact G|]. split; [exact Gw|].
  split; [|split; [exact W|split; [exact Ww|]]].
  - intros e' He' Hid.
    destruct (proj1 promotion_suspends_at_four late (holding 2 3) []
                held_task (holder 2 3) sla G Gw) as (_ & K).
    destruct (K e' He' Hid) as (Kv & Koff & _).
    split; [exact Kv | apply Koff; simpl; lia].
  - intros e' He' Hid.
    destruct (proj2 promotion_suspends_at_four 20 "T'" late
                (Worker.db (worker_holding 2 3)) []
                worker_held_task (worker_holder 2 3) sla W Ww) as (_ & K).
    destruct (K e' He' Hid) as (Kv & Koff & _).
    split; [exact Kv | apply Koff; simpl; lia].
Defined.

End Suspension.

(** ** Requeueing on expiry (claim C3) *)

Section Requeue.
Import Model Steps Samples.

Lemma select_none {Row} (p : Row -> bool) (t : list Row) :
  (forall y, In y t -> p y = false) -> Sql.select_where p t = [].
Proof.
  unfold Sql.select_where. induction t as [|x t IH]; simpl; intro H.
  - reflexivity.
  - rewrite (H x (or_introl eq_refl)). apply IH. intros y Hy.
    apply H. now right.
Qed.

(** Under a primary key, selecting by the key of a row gives that row. *)
Lemma select_by_key {Row} (key : Row -> string) (t : list Row) (r : Row) :
  NoDup (map key t) -> In r t ->
  Sql.select_where (fun x => String.eqb (key x) (key r)) t = [r].
Proof.
  induction t as [|x t IH]; simpl; intros N H; [contradiction|].
  inversion N as [|? ? Nx Nt]; subst.
  destruct H as [-> | H].
  - rewrite String.eqb_refl. f_equal.
    apply select_none. intros y Hy.
    destruct (String.eqb_spec (key y) (key r)) as [E|]; [|reflexivity].
    exfalso. apply Nx. rewrite <- E. now apply in_map.
  - destruct (String.eqb_spec (key x) (key r)) as [E|].
    + exfalso. apply Nx. rewrite E. now apply in_map.
    + now apply IH.
Qed.

Lemma select_updated {Row} (key : Row -> string) (f : Row -> Row)
  (k : string) (t : list Row) :
  (forall x, key (f x) = key x) ->
  Sql.select_where (fun x => String.eqb (key x) k)
    (Sql.update_where (fun x => String.eqb (key x) k) f t)
  = map f (Sql.select_where (fun x => String.eqb (key x) k) t).
Proof.
  intro Hk. unfold Sql.select_where, Sql.update_where.
  induction t as [|x t IH]; simpl; [reflexivity|].
  destruct (String.eqb (key x) k) eqn:E.
  - rewrite Hk, E. simpl. now rewrite IH.
  - rewrite E. exact IH.
Qed.

(** Claim C3, as stated, fails on the worker-service: its expiry marks
    the task row [timeout], keeps its assignment, and adds a second,
    queued row under a new id. *)
Lemma worker_expiry_adds_a_row :
  let after :=
    Worker.ats_tasks
      (Worker.db (fst (Worker.checkTimeouts no_fault 20 drawn late
                         (worker_holding 0 0)))) in
  List.length (Worker.ats_tasks (Worker.db (worker_holding 0 0))) = 1%nat /\
  List.length after = 2%nat /\
  (exists t', In t' after /\ Worker.task_id t' = "T" /\
              Worker.task_status t' = timeout /\
              Worker.task_assigned_to t' = Some "R") /\
  (exists c, In c after /\ Worker.task_id c = "T'" /\
             Worker.task_status c = queued).
Proof.
  split; [reflexivity|]. split; [reflexivity|]. split.
  - exists (Worker.timed_out late worker_held_task).
    split; [left; reflexivity | repeat split].
  - exists (Worker.clone "T'" late worker_held_task).
    split; [right; left; reflexivity | repeat split].
Qed.

(** Claim C3, amended.  Let task [t], held by reviewer [e], be overdue
    at [now].

    The gateway's [handleTimeout] rewrites the task table in place: no
    row is added or removed, the rows other than those with the id of
    [t] are untouched, and a row with that id keeps its id, has status
    queued, has [assigned_to], [assigned_at], [due_at] and [started_at]
    cleared, and has [retry_count] one higher than before.

    The loop body of the worker-service's [checkTimeouts], over a task
    table with a primary key, instead leaves the table followed by one
    new row: in the table, the row of [t] has status [timeout] and is
    otherwise as before but for [updated_at], the other rows are
    untouched; the new row has the drawn id, status queued, no
    assignment, and the job, candidate and score of [t]. *)
Theorem expiry_requeues :
  (forall now s p t e due,
     In t (Gateway.ats_tasks s) -> In e (Gateway.employees s) ->
     held (Gateway.task_status t) = true ->
     Gateway.task_due_at t = Some due -> due < now ->
     Gateway.task_assigned_to t = Some (Gateway.emp_id e) ->
     let after :=
       Gateway.db
         (fst (Gateway.handleTimeout no_fault (Gateway.overdue_row t e due)
                 {| Gateway.db := s; Gateway.published := p |})) in
     In (Gateway.overdue_row t e due) (Gateway.overdue_tasks now s) /\
     Forall2
       (fun old new =>
          if String.eqb (Gateway.task_id old) (Gateway.task_id t)
          then Gateway.task_id new = Gateway.task_id old /\
               Gateway.task_status new = queued /\
               Gateway.task_assigned_to new = None /\
               Gateway.task_assigned_at new = None /\
               Gateway.task_due_at new = None /\
               Gateway.task_started_at new = None /\
               Gateway.task_retry_count new
               = Gateway.task_retry_count old + 1
          else new = old)
       (Gateway.ats_tasks s) (Gateway.ats_tasks after))
  /\
  (forall tm drawn now s p t e due,
     In t (Worker.ats_tasks s) -> In e (Worker.employees s) ->
     held (Worker.task_status t) = true ->
     Worker.task_deadline t = Some due -> due < now ->
     Worker.task_assigned_to t = Some (Worker.emp_id e) ->
     NoDup (map Worker.task_id (Worker.ats_tasks s)) ->
     let after :=
       Worker.db
         (fst (Worker.expire no_fault tm drawn now (Worker.overdue_row t e due)
                 {| Worker.db := s; Worker.published := p |})) in
     In (Worker.overdue_row t e due) (Worker.overdue_tasks now s) /\
     exists marked copy,
       Worker.ats_tasks after = (marked ++ [copy])%list /\
       Forall2
         (fun old new =>
            if String.eqb (Worker.task_id old) (Worker.task_id t)
            then Worker.task_id new = Worker.task_id old /\
                 Worker.task_status new = timeout /\
                 Worker.task_assigned_to new = Worker.task_assigned_to old /\
                 Worker.task_assigned_at new = Worker.task_assigned_at old /\
                 Worker.task_deadline new = Worker.task_deadline old
            else new = old)
         (Worker.ats_tasks s) marked /\
       Worker.task_id copy = drawn /\
       Worker.task_status copy = queued /\
       Worker.task_assigned_to copy = None /\
       Worker.task_job_id copy = Worker.task_job_id t /\
       Worker.task_candidate_id copy = Worker.task_candidate_id t /\
       Worker.task_original_ats_score copy = Worker.task_original_ats_score t).
Proof.
  split.
  - intros now s p t e due Ht He Hh Hd Hl Ha after. split.
    + apply gateway_overdue_In. exists t, e, due. repeat split; assumption.
    + subst after. rewrite handleTimeout_db. simpl.
      eapply Forall2_weaken; [|apply update_where_Forall2].
      intros old new _ ->. simpl.
      destruct (String.eqb (Gateway.task_id old) (Gateway.task_id t));
        [|reflexivity].
      simpl. repeat split.
  - intros tm drawn now s p t e due Ht He Hh Hd Hl Ha Hkey after. split.
    + apply worker_overdue_In. exists t, e, due. repeat split; assumption.
    + subst after. rewrite expire_db. simpl.
      rewrite (select_updated Worker.task_id (Worker.timed_out now)
                 (Worker.task_id t) (Worker.ats_tasks s))
        by reflexivity.
      rewrite (select_by_key Worker.task_id _ t Hkey Ht). simpl.
      eexists. eexists. split; [reflexivity|]. split.
      * eapply Forall2_weaken; [|apply update_where_Forall2].
        intros old new _ ->. simpl.
        destruct (String.eqb (Worker.task_id old) (Worker.task_id t));
          [|reflexivity].
        simpl. repeat split.
      * simpl. repeat split.
Qed.

Lemma expiry_requeues_witness :
  (In held_task (Gateway.ats_tasks (holding 0 0)) /\
   In (holder 0 0) (Gateway.employees (holding 0 0)) /\
   held (Gateway.task_status held_task) = true /\
   Gateway.task_due_at held_task = Some sla /\ sla < late /\
   Gateway.task_assigned_to held_task
   = Some (Gateway.emp_id (holder 0 0))) /\
  Forall2
    (fun old new =>
       Gateway.task_id new = Gateway.task_id old /\
       Gateway.task_status new = queued /\
       Gateway.task_retry_count new = Gateway.task_retry_count old + 1)
    [held_task]
    (Gateway.ats_tasks
       (Gateway.db
          (fst (Gateway.handleTimeout no_fault
                  (Gateway.overdue_row held_task (holder 0 0) sla)
                  (world (holding 0 0)))))) /\
  (In worker_held_task (Worker.ats_tasks (Worker.db (worker_holding 0 0))) /\
   In (worker_holder 0 0)
      (Worker.employees (Worker.db (worker_holding 0 0))) /\
   held (Worker.task_status worker_held_task) = true /\
   Worker.task_deadline worker_held_task = Some sla /\ sla < late /\
   Worker.task_assigned_to worker_held_task
   = Some (Worker.emp_id (worker_holder 0 0)) /\
   NoDup (map Worker.task_id
              (Worker.ats_tasks (Worker.db (worker_holding 0 0))))) /\
  exists marked copy,
    Worker.ats_tasks
      (Worker.db
         (fst (Worker.expire no_fault 20 "T'" late
                 (Worker.overdue_row worker_held_task (worker_holder 0 0) sla)
                 (worker_holding 0 0))))
    = (marked ++ [copy])%list /\
    Worker.task_id copy = "T'" /\ Worker.task_status copy = queued.
Proof.
  assert (G1 : In held_task (Gateway.ats_tasks (holding 0 0)))
    by (left; reflexivity).
  assert (G2 : In (holder 0 0) (Gateway.employees (holding 0 0)))
    by (left; reflexivity).
  assert (L : sla < late) by (unfold sla, late; lia).
  assert (W1 : In worker_held_task
                  (Worker.ats_tasks (Worker.db (worker_holding 0 0))))
    by (left; reflexivity).
  assert (W2 : In (worker_holder 0 0)
                  (Worker.employees (Worker.db (worker_holding 0 0))))
    by (left; reflexivity).
  assert (N : NoDup (map Worker.task_id
                         (Worker.ats_tasks (Worker.db (worker_holding 0 0)))))
    by (simpl; constructor; [intros [] | constructor]).
  split; [repeat split; assumption|]. split; [|split].
  - destruct (proj1 expiry_requeues late (holding 0 0) [] held_task
                (holder 0 0) sla G1 G2 eq_refl eq_refl L eq_refl)
      as (_ & F).
    eapply Forall2_weaken; [|exact F].
    intros old new [<- | []]. simpl. tauto.
  - repeat split; assumption.
  - destruct (proj2 expiry_requeues 20 "T'" late
                (Worker.db (worker_holding 0 0)) [] worker_held_task
                (worker_holder 0 0) sla W1 W2 eq_refl eq_refl L eq_refl N)
      as (_ & marked & copy & E & _ & Hid & Hst & _).
    exists marked, copy. repeat split; assumption.
Defined.

End Requeue.

(** ** Enqueueing (claim C4) *)

Section Enqueue.
Import Model Steps Samples.

(** Claim C4, as stated, fails: an enqueue with score 0.95 succeeds and
    leaves a task with that score in the store. *)
Lemma enqueue_above_threshold :
  let run :=
    Gateway.queueTask no_fault "T2" 0 "cand" "job" (95 # 100) [] []
      (world (store [] [])) in
  snd run = inr "T2" /\
  exists t,
    Gateway.ats_tasks (Gateway.db (fst run)) = [t] /\
    Gateway.task_status t = queued /\
    Gateway.task_ats_score t = 95 # 100 /\
    Qle_bool (90 # 100) (Gateway.task_ats_score t) = true.
Proof.
  split; [reflexivity|]. eexists. split; [reflexivity|].
  repeat split.
Qed.

(** Rounding to two decimals does not take a score below 0.90. *)
Lemma hundredths_above_threshold q :
  Qle (90 # 100) q -> 90 <= Sql.hundredths q.
Proof.
  destruct q as [a b]. unfold Qle, Sql.hundredths. cbn [Qnum Qden].
  intro H.
  assert (Ha : 0 < a) by lia.
  rewrite (Z.sgn_pos a Ha), (Z.abs_eq a) by lia. rewrite Z.mul_1_l.
  apply Z.div_le_lower_bound; lia.
Qed.

(** Claim C4, amended.  [queueTask] never compares the score with a
    threshold.  An enqueue for an existing candidate and an existing
    job, with a score that fits the column [DECIMAL(5,2)] and in which no
    call rejects, succeeds, a score of 0.90 or more included.  Every
    successful enqueue returns the drawn id and appends exactly one task,
    with that id, status queued, no assignment, retry count 0, the
    candidate and job of the request and its score rounded to two
    decimals, which is 0.90 or more when the score of the request is; it
    changes nothing else.  An enqueue that fails leaves the world as it
    was. *)
Theorem enqueue_inserts_one_queued_task :
  (forall fresh now candidateId jobId atsScore missingKeywords suggestions w,
     (exists c, In c (Gateway.candidates (Gateway.db w)) /\
                Gateway.cand_id c = candidateId) ->
     (exists j, In j (Gateway.jobs (Gateway.db w)) /\
                Gateway.job_id j = jobId) ->
     Z.abs (Sql.hundredths atsScore) < 100000 ->
     snd (Gateway.queueTask no_fault fresh now candidateId jobId atsScore
            missingKeywords suggestions w) = inr fresh)
  /\
  (forall fails fresh now candidateId jobId atsScore missingKeywords
          suggestions w,
     let run := Gateway.queueTask fails fresh now candidateId jobId atsScore
                  missingKeywords suggestions w in
     match snd run with
     | inr id =>
         id = fresh /\
         Gateway.published (fst run) = Gateway.published w /\
         Gateway.employees (Gateway.db (fst run))
         = Gateway.employees (Gateway.db w) /\
         Gateway.candidates (Gateway.db (fst run))
         = Gateway.candidates (Gateway.db w) /\
         Gateway.jobs (Gateway.db (fst run)) = Gateway.jobs (Gateway.db w) /\
         Gateway.applications (Gateway.db (fst run))
         = Gateway.applications (Gateway.db w) /\
         Gateway.employee_incidents (Gateway.db (fst run))
         = Gateway.employee_incidents (Gateway.db w) /\
         Gateway.activity_log (Gateway.db (fst run))
         = Gateway.activity_log (Gateway.db w) /\
         exists t,
           Gateway.ats_tasks (Gateway.db (fst run))
           = (Gateway.ats_tasks (Gateway.db w) ++ [t])%list /\
           Gateway.task_id t = fresh /\
           Gateway.task_status t = queued /\
           Gateway.task_ats_score t = Sql.hundredths atsScore # 100 /\
           Z.abs (Sql.hundredths atsScore) < 100000 /\
           (Qle (90 # 100) atsScore ->
            Qle (90 # 100) (Gateway.task_ats_score t)) /\
           Gateway.task_candidate_id t = candidateId /\
           Gateway.task_job_id t = jobId /\
           Gateway.task_assigned_to t = None /\
           Gateway.task_retry_count t = 0
     | inl _ => fst run = w
     end).
Proof.
  split.
  - intros fresh now candidateId jobId atsScore mk sg w
           (c & Hc & Ec) (j & Hj & Ej) Hfits.
    unfold Gateway.queueTask, bind, Gateway.query, Gateway.execute_checked,
      await, no_fault, ret, Sql.decimal_5_2.
    apply Z.ltb_lt in Hfits. rewrite Hfits. simpl.
    assert (R : existsb (fun c => String.eqb (Gateway.cand_id c) candidateId)
                        (Gateway.candidates (Gateway.db w))
                && existsb (fun j => String.eqb (Gateway.job_id j) jobId)
                           (Gateway.jobs (Gateway.db w)) = true).
    { apply andb_true_iff. split; apply existsb_exists.
      - exists c. split; [exact Hc|]. rewrite Ec. apply String.eqb_refl.
      - exists j. split; [exact Hj|]. rewrite Ej. apply String.eqb_refl. }
    rewrite R. reflexivity.
  - intros fails fresh now candidateId jobId atsScore mk sg w.
    unfold Gateway.queueTask, bind, Gateway.query, Gateway.execute_checked,
      await, ret, throw, Sql.decimal_5_2.
    destruct (fails "queueTask: SELECT candidates"); simpl; [reflexivity|].
    destruct (Z.ltb_spec (Z.abs (Sql.hundredths atsScore)) 100000)
      as [Hfits | Hover]; simpl; [|reflexivity].
    destruct (fails "queueTask: INSERT INTO ats_tasks"); simpl;
      [reflexivity|].
    destruct (existsb _ (Gateway.candidates (Gateway.db w)) && _); simpl;
      [|reflexivity].
    repeat (split; [reflexivity|]).
    eexists. split; [reflexivity|]. simpl.
    split; [reflexivity|]. split; [reflexivity|]. split; [reflexivity|].
    split; [exact Hfits|]. split; [|repeat split].
    intro Habove. apply hundredths_above_threshold in Habove.
    unfold Qle. simpl. lia.
Qed.

Lemma enqueue_inserts_one_queued_task_witness :
  (exists c, In c (Gateway.candidates (store [] [])) /\
             Gateway.cand_id c = "cand") /\
  (exists j, In j (Gateway.jobs (store [] [])) /\ Gateway.job_id j = "job") /\
  Z.abs (Sql.hundredths (825 # 1000)) < 100000 /\
  snd (Gateway.queueTask no_fault "T1" 0 "cand" "job" (825 # 1000) [] []
         (world (store [] []))) = inr "T1".
Proof.
  assert (C : exists c, In c (Gateway.candidates (store [] [])) /\
                        Gateway.cand_id c = "cand")
    by (eexists; split; [left; reflexivity | reflexivity]).
  assert (J : exists j, In j (Gateway.jobs (store [] [])) /\
                        Gateway.job_id j = "job")
    by (eexists; split; [left; reflexivity | reflexivity]).
  assert (F : Z.abs (Sql.hundredths (825 # 1000)) < 100000) by reflexivity.
  split; [exact C|]. split; [exact J|]. split; [exact F|].
  exact (proj1 enqueue_inserts_one_queued_task "T1" 0 "cand" "job"
           (825 # 1000) [] [] (world (store [] [])) C J F).
Defined.

End Enqueue.

(** ** The assigners *)

Section Orders.
Import Model.

Lemma desc_nulls_first_total a b :
  Sql.desc_nulls_first a b = true \/ Sql.desc_nulls_first b a = true.
Proof.
  destruct a as [x|], b as [y|]; simpl; auto.
  destruct (Z.leb_spec y x); auto.
  right. apply Z.leb_le. lia.
Qed.

Lemma desc_nulls_first_trans a b c :
  Sql.desc_nulls_first a b = true -> Sql.desc_nulls_first b c = true ->
  Sql.desc_nulls_first a c = true.
Proof.
  destruct a as [x|], b as [y|], c as [z|]; simpl; try congruence.
  rewrite !Z.leb_le. lia.
Qed.

(** Ordering by an integer key ascending, then a nullable timestamp
    descending, is total and transitive. *)
Lemma load_then_recent_total (k1 k2 : Z) (h1 h2 : option Sql.timestamp) :
  (k1 <? k2) || ((k1 =? k2) && Sql.desc_nulls_first h1 h2) = true \/
  (k2 <? k1) || ((k2 =? k1) && Sql.desc_nulls_first h2 h1) = true.
Proof.
  destruct (Z.ltb_spec k1 k2); [now left|].
  destruct (Z.ltb_spec k2 k1); [now right|].
  assert (k1 = k2) by lia. subst. rewrite Z.eqb_refl. simpl.
  apply desc_nulls_first_total.
Qed.

Lemma load_then_recent_trans (k1 k2 k3 : Z)
  (h1 h2 h3 : option Sql.timestamp) :
  (k1 <? k2) || ((k1 =? k2) && Sql.desc_nulls_first h1 h2) = true ->
  (k2 <? k3) || ((k2 =? k3) && Sql.desc_nulls_first h2 h3) = true ->
  (k1 <? k3) || ((k1 =? k3) && Sql.desc_nulls_first h1 h3) = true.
Proof.
  rewrite !orb_true_iff, !andb_true_iff, !Z.ltb_lt, !Z.eqb_eq.
  intros [L1 | [E1 D1]] [L2 | [E2 D2]].
  - left. lia.
  - left. lia.
  - left. lia.
  - right. split; [lia|]. eapply desc_nulls_first_trans; eassumption.
Qed.

Lemma limit_In {Row} n (l : list Row) x : In x (Sql.limit n l) -> In x l.
Proof.
  unfold Sql.limit. revert l.
  induction n as [|n IH]; intros [|y l]; simpl; try contradiction.
  intros [-> | H]; [now left | right; now apply IH].
Qed.

Lemma limit_one {Row} (l : list Row) :
  Sql.limit 1 l = match l with [] => [] | x :: _ => [x] end.
Proof. destruct l; reflexivity. Qed.

Lemma gateway_queued_join_In s t c j :
  In (t, c, j) (Gateway.queued_join s) <->
  In t (Gateway.ats_tasks s) /\ Gateway.task_status t = queued /\
  In c (Gateway.candidates s) /\
  Gateway.cand_id c = Gateway.task_candidate_id t /\
  In j (Gateway.jobs s) /\ Gateway.job_id j = Gateway.task_job_id t.
Proof.
  unfold Gateway.queued_join. rewrite in_flat_map. split.
  - intros (t0 & Ht0 & H).
    destruct (TaskStatus_eqb (Gateway.task_status t0) queued) eqn:Eq;
      [|contradiction].
    apply in_flat_map in H. destruct H as (c0 & Hc0 & H).
    apply in_map_iff in H. destruct H as (j0 & E & Hj0).
    injection E as -> -> ->.
    apply filter_In in Hc0. destruct Hc0 as [Hc Ec].
    apply filter_In in Hj0. destruct Hj0 as [Hj Ej].
    apply String.eqb_eq in Ec, Ej.
    repeat split; auto.
    destruct (Gateway.task_status t); simpl in Eq; congruence.
  - intros (Ht & Es & Hc & Ec & Hj & Ej).
    exists t. split; [exact Ht|]. rewrite Es. simpl.
    apply in_flat_map. exists c. split.
    + apply filter_In. split; [exact Hc|]. rewrite Ec.
      apply String.eqb_refl.
    + apply in_map_iff. exists j. split; [reflexivity|].
      apply filter_In. split; [exact Hj|]. rewrite Ej.
      apply String.eqb_refl.
Qed.

(** The first query of [assignNextTask] returns the oldest queued task,
    if there is one. *)
Lemma next_queued_task_spec s :
  (Gateway.queued_join s = [] /\ Gateway.next_queued_task s = []) \/
  (exists t c j,
     Gateway.next_queued_task s = [Gateway.queued_task_row (t, c, j)] /\
     In (t, c, j) (Gateway.queued_join s) /\
     forall r, In r (Gateway.queued_join s) ->
               Gateway.task_created_at t
               <= Gateway.task_created_at (fst (fst r))).
Proof.
  unfold Gateway.next_queued_task. rewrite limit_one.
  destruct (Sql.order_by Gateway.by_created_at (Gateway.queued_join s))
    as [|[[t c] j] rest] eqn:E.
  - left. split; [|reflexivity]. eapply order_by_nil. exact E.
  - right. exists t, c, j. split; [reflexivity|].
    apply order_by_head in E.
    + destruct E as [Hin Hmin]. split; [exact Hin|].
      intros r Hr. apply Hmin in Hr.
      unfold Gateway.by_created_at, Sql.asc in Hr. simpl in Hr.
      now apply Z.leb_le.
    + intros a b. unfold Gateway.by_created_at, Sql.asc.
      rewrite !Z.leb_le. lia.
    + intros a b d. unfold Gateway.by_created_at, Sql.asc.
      rewrite !Z.leb_le. lia.
Qed.

(** The second query returns, among the assignable employees, one that
    the ordering puts first, if there is one. *)
Lemma next_available_employee_spec now s :
  ((forall e, In e (Gateway.employees s) ->
              Gateway.assignable now e = false) /\
   Gateway.next_available_employee now s = []) \/
  (exists e,
     Gateway.next_available_employee now s
     = [Gateway.available_employee_row e] /\
     In e (Gateway.employees s) /\ Gateway.assignable now e = true /\
     forall e', In e' (Gateway.employees s) ->
                Gateway.assignable now e' = true ->
                Gateway.by_load_then_heartbeat e e' = true).
Proof.
  unfold Gateway.next_available_employee. rewrite limit_one.
  destruct (Sql.order_by Gateway.by_load_then_heartbeat
              (Sql.select_where (Gateway.assignable now)
                                (Gateway.employees s)))
    as [|e rest] eqn:E.
  - left. split; [|reflexivity].
    apply order_by_nil in E. intros e He.
    destruct (Gateway.assignable now e) eqn:A; [|reflexivity].
    assert (In e (Sql.select_where (Gateway.assignable now)
                                   (Gateway.employees s)))
      by (apply filter_In; now split).
    rewrite E in H. contradiction.
  - right. exists e. split; [reflexivity|].
    apply order_by_head in E.
    + destruct E as [Hin Hmin]. apply filter_In in Hin.
      destruct Hin as [Hin A]. split; [exact Hin|]. split; [exact A|].
      intros e' He' A'. apply Hmin. apply filter_In. now split.
    + intros a b. apply load_then_recent_total.
    + intros a b d. apply load_then_recent_trans.
Qed.

End Orders.

Section Ticks.
Import Model Steps.

(** A tick of the gateway's assigner either leaves the database as it
    was, or binds the oldest queued task to the first assignable
    employee of the ordering. *)
Lemma assignNextTask_cases fails now w :
  let w' := fst (Gateway.assignNextTask fails now w) in
  Gateway.db w' = Gateway.db w \/
  exists t c j e,
    In (t, c, j) (Gateway.queued_join (Gateway.db w)) /\
    (forall r, In r (Gateway.queued_join (Gateway.db w)) ->
               Gateway.task_created_at t
               <= Gateway.task_created_at (fst (fst r))) /\
    In e (Gateway.employees (Gateway.db w)) /\
    Gateway.assignable now e = true /\
    (forall e', In e' (Gateway.employees (Gateway.db w)) ->
                Gateway.assignable now e' = true ->
                Gateway.by_load_then_heartbeat e e' = true) /\
    Gateway.db w' =
    Gateway.with_employees
      (Sql.update_where
         (fun x => String.eqb (Gateway.emp_id x) (Gateway.emp_id e))
         (Gateway.occupy (Gateway.task_id t)))
      (Gateway.with_ats_tasks
         (Sql.update_where
            (fun x => String.eqb (Gateway.task_id x) (Gateway.task_id t))
            (Gateway.assign_to (Gateway.emp_id e) now
                               (now + 20 * 60 * 1000)))
         (Gateway.db w)).
Proof.
  unfold Gateway.assignNextTask, try_catch, Gateway.transaction, bind,
    Gateway.query, Gateway.execute, Gateway.publish, await, ret.
  destruct (fails "assignNextTask: SELECT ats_tasks"); [now left|].
  destruct (next_queued_task_spec (Gateway.db w))
    as [[_ ->] | (t & c & j & -> & Hin & Hmin)]; [now left|].
  destruct (fails "assignNextTask: SELECT employees"); [now left|].
  destruct (next_available_employee_spec now (Gateway.db w))
    as [[_ ->] | (e & -> & He & Ha & Hfirst)]; [now left|].
  destruct (fails "assignNextTask: UPDATE ats_tasks"); [now left|].
  destruct (fails "assignNextTask: UPDATE employees"); [now left|].
  destruct (fails "assignNextTask: publish TASK_ASSIGNED"); [now left|].
  right. exists t, c, j, e. repeat (split; [assumption|]). reflexivity.
Qed.

Lemma for_of_invariant {World A} (P : World -> Prop) (Q : A -> Prop)
  (body : A -> Db World unit) xs :
  (forall x w w', Q x -> P w -> body x w = (w', inr tt) -> P w') ->
  Forall Q xs ->
  forall w w', P w -> for_of xs body w = (w', inr tt) -> P w'.
Proof.
  intros Hstep HQ. induction HQ as [|x xs Hx HQ IH]; simpl; intros w w' Hw E.
  - unfold ret in E. now injection E as <-.
  - unfold bind in E. destruct (body x w) as [w1 [err | []]] eqn:Eb.
    + discriminate.
    + eapply IH; [|exact E]. eapply Hstep; eassumption.
Qed.

Lemma assign_pair_tasks fails tm now task e w w' :
  Worker.assign_pair fails tm now (task, e) w = (w', inr tt) ->
  Worker.ats_tasks (Worker.db w') =
  Sql.update_where
    (fun t => String.eqb (Worker.task_id t) (Worker.task_id task))
    (Worker.assign_to (Worker.emp_id e) now (Worker.addMinutes now tm))
    (Worker.ats_tasks (Worker.db w)).
Proof.
  unfold Worker.assign_pair, bind, Worker.execute, Worker.publish, await.
  destruct (fails "assignTasks: UPDATE ats_tasks"); [discriminate|].
  destruct (fails "assignTasks: UPDATE employees"); [discriminate|].
  destruct (fails "assignTasks: INSERT INTO activity_log"); [discriminate|].
  destruct (fails "assignTasks: publish task:assigned"); [discriminate|].
  intro E. injection E as <-. reflexivity.
Qed.

Lemma worker_available_free s e :
  In e (Worker.available_employees s) ->
  In e (Worker.employees s) /\ Worker.free s e = true.
Proof.
  unfold Worker.available_employees. intro H.
  apply limit_In in H. apply order_by_In in H. now apply filter_In in H.
Qed.

(** A transaction of the worker-service either commits what its body
    did, or leaves the database as it was. *)
Lemma in_transaction_cases fails body w :
  (exists w', body w = (w', inr tt) /\
              Worker.in_transaction fails body w = (w', inr tt)) \/
  Worker.db (fst (Worker.in_transaction fails body w)) = Worker.db w.
Proof.
  unfold Worker.in_transaction, Worker.statement, bind, await.
  destruct (fails "pool.connect"); [right; reflexivity|].
  destruct (fails "BEGIN");
    [right; destruct (fails "ROLLBACK"); reflexivity|].
  destruct (body w) as [w' [e | []]];
    [right; destruct (fails "ROLLBACK"); reflexivity|].
  destruct (fails "COMMIT");
    [right; destruct (fails "ROLLBACK"); reflexivity|].
  left. exists w'. split; reflexivity.
Qed.

Lemma worker_assignTasks_rows fails tm now w :
  Forall2
    (fun old new =>
       new = old \/
       (Worker.task_id new = Worker.task_id old /\
        Worker.task_status new = assigned /\
        exists e, In e (Worker.employees (Worker.db w)) /\
                  Worker.free (Worker.db w) e = true /\
                  Worker.task_assigned_to new = Some (Worker.emp_id e)))
    (Worker.ats_tasks (Worker.db w))
    (Worker.ats_tasks (Worker.db (fst (Worker.assignTasks fails tm now w)))).
Proof.
  set (R := fun old new : Worker.Task => new = old \/ _).
  assert (Same : Forall2 R (Worker.ats_tasks (Worker.db w))
                           (Worker.ats_tasks (Worker.db w)))
    by (apply Forall2_same; intro; now left).
  unfold Worker.assignTasks.
  match goal with
  | |- context [Worker.in_transaction fails ?b w] =>
      destruct (in_transaction_cases fails b w) as [(w1 & E & ->) | ->]
  end; [|exact Same].
  cbn [fst]. revert E. unfold bind, Worker.query, await, ret.
  destruct (fails "assignTasks: SELECT employees"); [discriminate|].
  destruct (Worker.available_employees (Worker.db w)) as [|e0 es] eqn:Ea.
  { intro E. now injection E as <-. }
  destruct (fails "assignTasks: SELECT ats_tasks"); [discriminate|].
  destruct (Worker.queued_tasks _ (Worker.db w)) as [|t0 ts] eqn:Eq.
  { intro E. now injection E as <-. }
  intro E.
  eapply (for_of_invariant
            (fun w' => Forall2 R (Worker.ats_tasks (Worker.db w))
                               (Worker.ats_tasks (Worker.db w')))
            (fun pair => In (snd pair) (Worker.employees (Worker.db w)) /\
                         Worker.free (Worker.db w) (snd pair) = true));
    [| |exact Same|exact E].
  - intros [task e] w2 w3 [He Hf] Inv Estep. simpl in He, Hf.
    rewrite (assign_pair_tasks _ _ _ _ _ _ _ Estep).
    eapply Forall2_compose; [|exact Inv|apply update_where_Forall2].
    intros a b c Rab ->. simpl.
    destruct (String.eqb (Worker.task_id b) (Worker.task_id task));
      [|exact Rab].
    right. simpl. split; [|split; [reflexivity|]].
    + destruct Rab as [-> | [Eid _]]; [reflexivity | exact Eid].
    + exists e. auto.
  - apply Forall_forall. intros [task e] Hin. simpl.
    apply in_combine_r in Hin. apply worker_available_free.
    rewrite Ea. exact Hin.
Qed.

End Ticks.

(** ** Who is assigned a task (claim C5) *)

Section Eligibility.
Import Model Steps Samples.

Lemma assignable_iff now e :
  Gateway.assignable now e = true <->
  Gateway.emp_status e = available /\
  Gateway.emp_violations e < 4 /\
  Gateway.emp_current_task_id e = None /\
  exists hb, Gateway.emp_last_heartbeat e = Some hb /\ now - 300000 < hb.
Proof.
  unfold Gateway.assignable, is_null, Sql.newer_than.
  rewrite !andb_true_iff, Z.ltb_lt. split.
  - intros (((Hs & Hv) & Hc) & Hh). repeat split.
    + destruct (Gateway.emp_status e); simpl in Hs; congruence.
    + exact Hv.
    + destruct (Gateway.emp_current_task_id e); congruence.
    + destruct (Gateway.emp_last_heartbeat e) as [hb|]; [|discriminate].
      exists hb. split; [reflexivity|]. apply Z.ltb_lt in Hh. lia.
  - intros (Hs & Hv & Hc & hb & Hh & Hlt).
    rewrite Hs, Hc, Hh. repeat split; auto. apply Z.ltb_lt. lia.
Qed.

Lemma free_iff s e :
  Worker.free s e = true <->
  Worker.emp_status e = available /\
  Worker.emp_is_active e = true /\
  forall t, In t (Worker.ats_tasks s) ->
            Worker.task_assigned_to t = Some (Worker.emp_id e) ->
            held (Worker.task_status t) = false.
Proof.
  unfold Worker.free, Worker.holds_no_task.
  rewrite !andb_true_iff, negb_true_iff. split.
  - intros ((Hs & Ha) & Hn). repeat split.
    + destruct (Worker.emp_status e); simpl in Hs; congruence.
    + exact Ha.
    + intros t Ht Et.
      destruct (held (Worker.task_status t)) eqn:Eh; [|reflexivity].
      assert (X : existsb
                    (fun t => is_uuid (Worker.task_assigned_to t)
                                      (Worker.emp_id e)
                              && held (Worker.task_status t))
                    (Worker.ats_tasks s) = true).
      { apply existsb_exists. exists t. split; [exact Ht|].
        rewrite Et, Eh. simpl. now rewrite String.eqb_refl. }
      congruence.
  - intros (Hs & Ha & Hn). rewrite Hs, Ha. repeat split.
    destruct (existsb _ (Worker.ats_tasks s)) eqn:X; [|reflexivity].
    apply existsb_exists in X. destruct X as (t & Ht & X).
    apply andb_true_iff in X. destruct X as [Xa Xh].
    unfold is_uuid in Xa.
    destruct (Worker.task_assigned_to t) as [a|] eqn:Et; [|discriminate].
    apply String.eqb_eq in Xa. subst a.
    rewrite (Hn t Ht Et) in Xh. discriminate.
Qed.

(** Claim C5, as stated, fails: a reviewer with three violations whose
    last heartbeat is 200 seconds old is assigned the queued task. *)
Lemma stale_reviewer_is_assigned :
  let after := Gateway.db (fst (Gateway.assignNextTask no_fault tick
                                  (world stale))) in
  (exists e, Gateway.employees stale = [e] /\
             Gateway.emp_id e = "A" /\
             Gateway.emp_violations e = 3 /\
             Gateway.emp_last_heartbeat e = Some (tick - 200 * 1000)) /\
  (exists t, Gateway.ats_tasks after = [t] /\
             Gateway.task_status t = assigned /\
             Gateway.task_assigned_to t = Some "A") /\
  (exists e, Gateway.employees after = [e] /\
             Gateway.emp_id e = "A" /\
             Gateway.emp_current_task_id e = Some "T").
Proof.
  repeat split; eexists; (split; [reflexivity|]); repeat split.
Qed.

(** Claim C5, amended.

    In the gateway's [assignNextTask] a reviewer is considered if and
    only if the status is available, violations are below 4, there is no
    current task and the last heartbeat is newer than [now] minus five
    minutes; there is no active flag.  In the worker-service's
    [assignTasks] a reviewer is considered if and only if the status is
    available, [is_active] holds and no task in status assigned or
    in_progress is assigned to the reviewer; neither heartbeat nor
    violations are looked at.

    Whatever calls reject, a tick of either assigner changes a task row
    only by assigning it to a reviewer that was considered; and the
    gateway's tick changes an employee row only by marking busy a row
    with the id of a reviewer that was considered. *)
Theorem assigned_only_if_considered :
  (forall now e,
     Gateway.assignable now e = true <->
     Gateway.emp_status e = available /\
     Gateway.emp_violations e < 4 /\
     Gateway.emp_current_task_id e = None /\
     exists hb, Gateway.emp_last_heartbeat e = Some hb /\
                now - 300000 < hb)
  /\
  (forall fails now w,
     let after := Gateway.db (fst (Gateway.assignNextTask fails now w)) in
     Forall2
       (fun old new =>
          new = old \/
          (Gateway.task_id new = Gateway.task_id old /\
           Gateway.task_status new = assigned /\
           exists e, In e (Gateway.employees (Gateway.db w)) /\
                     Gateway.assignable now e = true /\
                     Gateway.task_assigned_to new
                     = Some (Gateway.emp_id e)))
       (Gateway.ats_tasks (Gateway.db w)) (Gateway.ats_tasks after) /\
     Forall2
       (fun old new =>
          new = old \/
          (Gateway.emp_id new = Gateway.emp_id old /\
           Gateway.emp_status new = busy /\
           exists e, In e (Gateway.employees (Gateway.db w)) /\
                     Gateway.assignable now e = true /\
                     Gateway.emp_id old = Gateway.emp_id e))
       (Gateway.employees (Gateway.db w)) (Gateway.employees after))
  /\
  (forall s e,
     Worker.free s e = true <->
     Worker.emp_status e = available /\
     Worker.emp_is_active e = true /\
     forall t, In t (Worker.ats_tasks s) ->
               Worker.task_assigned_to t = Some (Worker.emp_id e) ->
               held (Worker.task_status t) = false)
  /\
  (forall fails timeoutMinutes now w,
     Forall2
       (fun old new =>
          new = old \/
          (Worker.task_id new = Worker.task_id old /\
           Worker.task_status new = assigned /\
           exists e, In e (Worker.employees (Worker.db w)) /\
                     Worker.free (Worker.db w) e = true /\
                     Worker.task_assigned_to new = Some (Worker.emp_id e)))
       (Worker.ats_tasks (Worker.db w))
       (Worker.ats_tasks
          (Worker.db (fst (Worker.assignTasks fails timeoutMinutes now w))))).
Proof.
  split; [exact assignable_iff|].
  split; [|split; [exact free_iff | exact worker_assignTasks_rows]].
  intros fails now w after. subst after.
  destruct (assignNextTask_cases fails now w)
    as [-> | (t & c & j & e & _ & _ & He & Ha & _ & ->)].
  - split; apply Forall2_same; intro; now left.
  - simpl. split.
    + eapply Forall2_weaken; [|apply update_where_Forall2].
      intros old new _ ->. simpl.
      destruct (String.eqb (Gateway.task_id old) (Gateway.task_id t));
        [|now left].
      right. simpl. repeat split. exists e. auto.
    + eapply Forall2_weaken; [|apply update_where_Forall2].
      intros old new _ ->. simpl.
      destruct (String.eqb_spec (Gateway.emp_id old) (Gateway.emp_id e));
        [|now left].
      right. simpl. repeat split. exists e. auto.
Qed.

Lemma assigned_only_if_considered_witness :
  Gateway.assignable tick (reviewer "A" available None 5 0 3 (Some 50000))
  = true /\
  Gateway.emp_violations (reviewer "A" available None 5 0 3 (Some 50000)) < 4
  /\
  exists hb, Gateway.emp_last_heartbeat
               (reviewer "A" available None 5 0 3 (Some 50000)) = Some hb /\
             tick - 300000 < hb.
Proof.
  assert (A : Gateway.assignable tick
                (reviewer "A" available None 5 0 3 (Some 50000)) = true)
    by reflexivity.
  split; [exact A|].
  destruct (proj1 (proj1 assigned_only_if_considered tick _) A)
    as (_ & Hv & _ & Hh).
  split; assumption.
Defined.

End Eligibility.

(** ** Which task and which reviewer (claims C6 and C7) *)

Section Choice.
Import Model Steps Samples.

(** A tick in which no call rejects, over a non-empty queue and with an
    assignable employee, does bind. *)
Lemma assignNextTask_binds now w :
  Gateway.queued_join (Gateway.db w) <> [] ->
  (exists e, In e (Gateway.employees (Gateway.db w)) /\
             Gateway.assignable now e = true) ->
  exists t c j e,
    In (t, c, j) (Gateway.queued_join (Gateway.db w)) /\
    (forall r, In r (Gateway.queued_join (Gateway.db w)) ->
               Gateway.task_created_at t
               <= Gateway.task_created_at (fst (fst r))) /\
    In e (Gateway.employees (Gateway.db w)) /\
    Gateway.assignable now e = true /\
    (forall e', In e' (Gateway.employees (Gateway.db w)) ->
                Gateway.assignable now e' = true ->
                Gateway.by_load_then_heartbeat e e' = true) /\
    Gateway.db (fst (Gateway.assignNextTask no_fault now w)) =
    Gateway.with_employees
      (Sql.update_where
         (fun x => String.eqb (Gateway.emp_id x) (Gateway.emp_id e))
         (Gateway.occupy (Gateway.task_id t)))
      (Gateway.with_ats_tasks
         (Sql.update_where
            (fun x => String.eqb (Gateway.task_id x) (Gateway.task_id t))
            (Gateway.assign_to (Gateway.emp_id e) now
                               (now + 20 * 60 * 1000)))
         (Gateway.db w)).
Proof.
  intros Hq (e0 & He0 & Ha0).
  unfold Gateway.assignNextTask, try_catch, Gateway.transaction, bind,
    Gateway.query, Gateway.execute, Gateway.publish, await, ret, no_fault.
  destruct (next_queued_task_spec (Gateway.db w))
    as [[E _] | (t & c & j & -> & Hin & Hmin)]; [contradiction|].
  destruct (next_available_employee_spec now (Gateway.db w))
    as [[N _] | (e & -> & He & Ha & Hfirst)].
  - rewrite (N e0 He0) in Ha0. discriminate.
  - exists t, c, j, e. repeat (split; [assumption|]). reflexivity.
Qed.

(** Claim C6, as stated, fails on the tie-break: of two eligible
    reviewers with equal load, the task goes to the one heard from last
    ([B]), not to the one with the oldest heartbeat ([A]). *)
Lemma tie_goes_to_newest_heartbeat :
  let after := Gateway.db (fst (Gateway.assignNextTask no_fault tick
                                  (world tied))) in
  (exists a b,
     Gateway.employees tied = [a; b] /\
     Gateway.emp_id a = "A" /\ Gateway.emp_id b = "B" /\
     Gateway.emp_status a = available /\ Gateway.emp_status b = available /\
     Gateway.emp_current_task_id a = None /\
     Gateway.emp_current_task_id b = None /\
     Gateway.emp_violations a = 0 /\ Gateway.emp_violations b = 0 /\
     Gateway.emp_tasks_completed a = Gateway.emp_tasks_completed b /\
     Gateway.emp_last_heartbeat a = Some (tick - 50 * 1000) /\
     Gateway.emp_last_heartbeat b = Some (tick - 10 * 1000)) /\
  (exists t, Gateway.ats_tasks after = [t] /\
             Gateway.task_status t = assigned /\
             Gateway.task_assigned_to t = Some "B").
Proof.
  split.
  - do 2 eexists. split; [reflexivity|]. repeat split.
  - eexists. split; [reflexivity|]. repeat split.
Qed.

(** Claim C6, amended.  For every tick of [assignNextTask] in which no
    call rejects, over a non-empty queue and a non-empty set of
    assignable reviewers: the task chosen is a queued task with the
    oldest [created_at] (FIFO), the reviewer chosen is an assignable
    reviewer with the fewest [tasks_completed] and, among those, with the
    newest [last_heartbeat]; the task's row is assigned to that reviewer
    with a deadline 20 minutes after [now], and the reviewer's row is
    marked busy with that task. *)
Theorem tick_takes_oldest_task_and_least_loaded_reviewer :
  forall now w,
    Gateway.queued_join (Gateway.db w) <> [] ->
    (exists e, In e (Gateway.employees (Gateway.db w)) /\
               Gateway.assignable now e = true) ->
    let after := Gateway.db (fst (Gateway.assignNextTask no_fault now w)) in
    exists t e,
      In t (Gateway.ats_tasks (Gateway.db w)) /\
      Gateway.task_status t = queued /\
      (forall t', In t' (Gateway.ats_tasks (Gateway.db w)) ->
                  Gateway.task_status t' = queued ->
                  (exists c j, In (t', c, j)
                                  (Gateway.queued_join (Gateway.db w))) ->
                  Gateway.task_created_at t <= Gateway.task_created_at t') /\
      In e (Gateway.employees (Gateway.db w)) /\
      Gateway.assignable now e = true /\
      (forall e', In e' (Gateway.employees (Gateway.db w)) ->
                  Gateway.assignable now e' = true ->
                  Gateway.emp_tasks_completed e
                  < Gateway.emp_tasks_completed e' \/
                  (Gateway.emp_tasks_completed e
                   = Gateway.emp_tasks_completed e' /\
                   forall hb hb',
                     Gateway.emp_last_heartbeat e = Some hb ->
                     Gateway.emp_last_heartbeat e' = Some hb' ->
                     hb' <= hb)) /\
      In (Gateway.assign_to (Gateway.emp_id e) now (now + 20 * 60 * 1000) t)
         (Gateway.ats_tasks after) /\
      In (Gateway.occupy (Gateway.task_id t) e) (Gateway.employees after).
Proof.
  intros now w Hq Ha after.
  destruct (assignNextTask_binds now w Hq Ha)
    as (t & c & j & e & Hin & Hmin & He & Hae & Hfirst & Hdb).
  subst after. rewrite Hdb. simpl.
  pose proof (proj1 (gateway_queued_join_In _ _ _ _) Hin)
    as (Ht & Hs & _).
  exists t, e. repeat split; try assumption.
  - intros t' _ _ (c' & j' & Hin'). apply (Hmin _ Hin').
  - intros e' He' Ha'. specialize (Hfirst e' He' Ha').
    unfold Gateway.by_load_then_heartbeat in Hfirst.
    apply orb_true_iff in Hfirst. destruct Hfirst as [L | E].
    + left. now apply Z.ltb_lt.
    + right. apply andb_true_iff in E. destruct E as [E D].
      apply Z.eqb_eq in E. split; [exact E|].
      intros hb hb' Hhb Hhb'. rewrite Hhb, Hhb' in D. simpl in D.
      now apply Z.leb_le.
  - apply update_where_In. exists t. split; [exact Ht|].
    now rewrite String.eqb_refl.
  - apply update_where_In. exists e. split; [exact He|].
    now rewrite String.eqb_refl.
Qed.

Lemma tick_takes_oldest_task_and_least_loaded_reviewer_witness :
  Gateway.queued_join (Gateway.db (world tied)) <> [] /\
  (exists e, In e (Gateway.employees (Gateway.db (world tied))) /\
             Gateway.assignable tick e = true) /\
  exists t e,
    In (Gateway.assign_to (Gateway.emp_id e) tick (tick + 20 * 60 * 1000) t)
       (Gateway.ats_tasks
          (Gateway.db (fst (Gateway.assignNextTask no_fault tick
                              (world tied))))).
Proof.
  assert (Q : Gateway.queued_join (Gateway.db (world tied)) <> [])
    by (simpl; discriminate).
  assert (A : exists e, In e (Gateway.employees (Gateway.db (world tied))) /\
                        Gateway.assignable tick e = true)
    by (eexists; split; [left; reflexivity | reflexivity]).
  split; [exact Q|]. split; [exact A|].
  destruct (tick_takes_oldest_task_and_least_loaded_reviewer
              tick (world tied) Q A)
    as (t & e & _ & _ & _ & _ & _ & _ & H & _).
  exists t, e. exact H.
Defined.

End Choice.

Section Retries.
Import Model Steps Samples.

(** Claim C7, as stated, fails: a queued task whose retry count is 4 is
    assigned to a reviewer, and not marked [timeout]. *)
Lemma retried_task_is_assigned :
  let after := Gateway.db (fst (Gateway.assignNextTask no_fault tick
                                  (world retried))) in
  (exists t, Gateway.ats_tasks retried = [t] /\
             Gateway.task_status t = queued /\
             Gateway.task_retry_count t = 4) /\
  (exists t, Gateway.ats_tasks after = [t] /\
             Gateway.task_id t = "T" /\
             Gateway.task_retry_count t = 4 /\
             Gateway.task_status t = assigned /\
             Gateway.task_assigned_to t = Some "A").
Proof.
  split; eexists; (split; [reflexivity|]); repeat split.
Qed.

(** Claim C7, amended.  The assigners do not read [retry_count] and know
    no retry cap.  Whatever calls reject, a tick of [assignNextTask]
    leaves every task's [retry_count] as it was and changes a task's
    status only to [assigned] (never to [timeout]); so does a tick of
    the worker-service's [assignTasks] for the status.  When no call
    rejects and an assignable reviewer exists, the only queued task is
    assigned to a reviewer whatever its [retry_count]. *)
Theorem assigner_ignores_retry_count :
  (forall fails now w,
     Forall2
       (fun old new =>
          Gateway.task_retry_count new = Gateway.task_retry_count old /\
          (Gateway.task_status new = Gateway.task_status old \/
           Gateway.task_status new = assigned))
       (Gateway.ats_tasks (Gateway.db w))
       (Gateway.ats_tasks
          (Gateway.db (fst (Gateway.assignNextTask fails now w)))))
  /\
  (forall now w t c j,
     Gateway.queued_join (Gateway.db w) = [(t, c, j)] ->
     (exists e, In e (Gateway.employees (Gateway.db w)) /\
                Gateway.assignable now e = true) ->
     (exists t', In t' (Gateway.ats_tasks
                          (Gateway.db (fst (Gateway.assignNextTask
                                              no_fault now w)))) /\
                 Gateway.task_id t' = Gateway.task_id t) /\
     forall t', In t' (Gateway.ats_tasks
                         (Gateway.db (fst (Gateway.assignNextTask
                                             no_fault now w)))) ->
                Gateway.task_id t' = Gateway.task_id t ->
                Gateway.task_status t' = assigned /\
                exists e, In e (Gateway.employees (Gateway.db w)) /\
                          Gateway.task_assigned_to t'
                          = Some (Gateway.emp_id e))
  /\
  (forall fails timeoutMinutes now w,
     Forall2
       (fun old new =>
          Worker.task_status new = Worker.task_status old \/
          Worker.task_status new = assigned)
       (Worker.ats_tasks (Worker.db w))
       (Worker.ats_tasks
          (Worker.db (fst (Worker.assignTasks fails timeoutMinutes now w))))).
Proof.
  split; [|split].
  - intros fails now w.
    destruct (assignNextTask_cases fails now w)
      as [-> | (t & c & j & e & _ & _ & _ & _ & _ & ->)].
    + apply Forall2_same. intro. split; [reflexivity | now left].
    + simpl. eapply Forall2_weaken; [|apply update_where_Forall2].
      intros old new _ ->.
      destruct (String.eqb (Gateway.task_id old) (Gateway.task_id t));
        simpl; split; auto.
  - intros now w t c j Hq Ha.
    assert (Hne : Gateway.queued_join (Gateway.db w) <> [])
      by (rewrite Hq; discriminate).
    destruct (assignNextTask_binds now w Hne Ha)
      as (t0 & c0 & j0 & e & Hin & _ & He & _ & _ & ->).
    rewrite Hq in Hin. destruct Hin as [E | []].
    injection E as <- <- <-.
    assert (Ht : In t (Gateway.ats_tasks (Gateway.db w))).
    { apply (gateway_queued_join_In (Gateway.db w) t c j).
      rewrite Hq. now left. }
    simpl. split.
    + eexists. split.
      * apply update_where_In. exists t. split; [exact Ht|].
        rewrite String.eqb_refl. reflexivity.
      * reflexivity.
    + intros t' Ht' Hid. apply update_where_In in Ht'.
      destruct Ht' as (old & _ & ->).
      destruct (String.eqb_spec (Gateway.task_id old) (Gateway.task_id t));
        [|contradiction].
      simpl. split; [reflexivity|]. exists e. auto.
  - intros fails tm now w.
    eapply Forall2_weaken; [|apply worker_assignTasks_rows].
    intros old new _ [-> | (_ & -> & _)]; auto.
Qed.

Lemma assigner_ignores_retry_count_witness :
  Gateway.queued_join (Gateway.db (world retried))
  = [(waiting 4,
      {| Gateway.cand_id := "cand"; Gateway.cand_name := "Alex Rivera";
         Gateway.cand_resume_url := Some "u1";
         Gateway.cand_total_applications := 0 |},
      {| Gateway.job_id := "job"; Gateway.job_title := "Data Analyst";
         Gateway.job_application_count := 0 |})] /\
  (exists e, In e (Gateway.employees (Gateway.db (world retried))) /\
             Gateway.assignable tick e = true) /\
  forall t', In t' (Gateway.ats_tasks
                      (Gateway.db (fst (Gateway.assignNextTask
                                          no_fault tick (world retried))))) ->
             Gateway.task_id t' = "T" ->
             Gateway.task_status t' = assigned.
Proof.
  assert (A : exists e, In e (Gateway.employees (Gateway.db (world retried)))
                        /\ Gateway.assignable tick e = true)
    by (eexists; split; [left; reflexivity | reflexivity]).
  split; [reflexivity|]. split; [exact A|].
  intros t' Ht' Hid.
  destruct (proj1 (proj2 assigner_ignores_retry_count) tick (world retried)
              _ _ _ eq_refl A) as (_ & K).
  destruct (K t' Ht' Hid) as (Hs & _). exact Hs.
Defined.

End Retries.

(** ** Presence changes (claim C8) *)

Section PresenceClaims.
Import Model Steps Samples.

(** What a presence change does to the employee table when it is
    applied: the rows of the user get the status and a fresh heartbeat,
    nothing else moves. *)
Lemma present_rows st now uid t :
  Forall2
    (fun old new =>
       if String.eqb (Gateway.emp_id old) uid
       then Gateway.emp_id new = Gateway.emp_id old /\
            Gateway.emp_status new = st /\
            Gateway.emp_last_heartbeat new = Some now /\
            Gateway.emp_current_task_id new
            = Gateway.emp_current_task_id old /\
            Gateway.emp_warnings new = Gateway.emp_warnings old /\
            Gateway.emp_violations new = Gateway.emp_violations old /\
            Gateway.emp_tasks_completed new
            = Gateway.emp_tasks_completed old
       else new = old)
    t
    (Sql.update_where (fun e => String.eqb (Gateway.emp_id e) uid)
                      (Gateway.present st now) t).
Proof.
  eapply Forall2_weaken; [|apply update_where_Forall2].
  intros old new _ ->.
  destruct (String.eqb (Gateway.emp_id old) uid); [|reflexivity].
  simpl. repeat split.
Qed.

(** Claim C8, as stated, fails: the reviewer locked by the fourth
    violation asks for [available], over HTTP or over the socket, and
    gets it. *)
Lemma locked_reviewer_sets_presence :
  (exists e, Gateway.employees (Gateway.db locked) = [e] /\
             Gateway.emp_id e = "R" /\
             Gateway.emp_violations e = 4 /\
             Gateway.emp_status e = offline) /\
  (let run := Gateway.put_presence no_fault (late + 1000)
                (jwt "R" role_employee) "available" locked in
   snd run = inr available /\
   exists e, Gateway.employees (Gateway.db (fst run)) = [e] /\
             Gateway.emp_id e = "R" /\
             Gateway.emp_violations e = 4 /\
             Gateway.emp_status e = available) /\
  (let run := Gateway.handleMessage no_fault (late + 1000)
                (jwt "R" role_employee) (presence_update "available")
                locked in
   snd run = inr tt /\
   exists e, Gateway.employees (Gateway.db (fst run)) = [e] /\
             Gateway.emp_id e = "R" /\
             Gateway.emp_violations e = 4 /\
             Gateway.emp_status e = available).
Proof.
  split; [|split].
  - eexists. split; [reflexivity|]. repeat split.
  - split; [reflexivity|]. eexists. split; [reflexivity|]. repeat split.
  - split; [reflexivity|]. eexists. split; [reflexivity|]. repeat split.
Qed.

(** The socket's setter has no guard for a current task either, unlike
    the HTTP route: a reviewer who holds task [T] asks for [available]
    over the socket and gets it. *)
Lemma socket_presence_while_holding :
  let run := Gateway.handleMessage no_fault 1000 (jwt "R" role_employee)
               (presence_update "available") (world (holding 0 0)) in
  snd run = inr tt /\
  exists e, Gateway.employees (Gateway.db (fst run)) = [e] /\
            Gateway.emp_current_task_id e = Some "T" /\
            Gateway.emp_status e = available.
Proof.
  split; [reflexivity|]. eexists. split; [reflexivity|]. repeat split.
Qed.

Lemma first_row_of_user uid t :
  (exists e, In e t /\ Gateway.emp_id e = uid) ->
  exists e rest,
    Sql.select_where (fun e => String.eqb (Gateway.emp_id e) uid) t
    = e :: rest /\ In e t /\ Gateway.emp_id e = uid.
Proof.
  intros (e0 & He0 & Eid0).
  destruct (Sql.select_where (fun e => String.eqb (Gateway.emp_id e) uid) t)
    as [|e rest] eqn:E.
  - exfalso.
    assert (X : In e0 (Sql.select_where
                 (fun e => String.eqb (Gateway.emp_id e) uid) t)).
    { apply filter_In. split; [exact He0|]. rewrite Eid0.
      apply String.eqb_refl. }
    rewrite E in X. contradiction.
  - exists e, rest. split; [reflexivity|].
    assert (X : In e (Sql.select_where
                 (fun e => String.eqb (Gateway.emp_id e) uid) t))
      by (rewrite E; now left).
    apply filter_In in X. destruct X as [Hin Hid].
    apply String.eqb_eq in Hid. now split.
Qed.

(** A presence change that passes the guard of the HTTP route is applied
    by the route and by the socket alike. *)
Lemma presence_applied now user status st w :
  Gateway.status_of_string status = Some st ->
  (st = available ->
   forall e, In e (Gateway.employees (Gateway.db w)) ->
             Gateway.emp_id e = Gateway.userId user ->
             Gateway.emp_current_task_id e = None) ->
  let http := Gateway.put_presence no_fault now user status w in
  let socket :=
    Gateway.handleMessage no_fault now user
      {| Gateway.msg_type := "PRESENCE_UPDATE";
         Gateway.msg_status := Some status;
         Gateway.msg_taskId := None |} w in
  snd http = inr st /\ snd socket = inr tt /\
  Gateway.employees (Gateway.db (fst http))
  = Gateway.employees (Gateway.db (fst socket)) /\
  Gateway.employees (Gateway.db (fst http))
  = Sql.update_where
      (fun e => String.eqb (Gateway.emp_id e) (Gateway.userId user))
      (Gateway.present st now) (Gateway.employees (Gateway.db w)).
Proof.
  intros Hst Hfree http socket. subst http socket.
  unfold Gateway.put_presence, Gateway.handleMessage. simpl.
  rewrite Hst.
  unfold Gateway.updatePresence, bind, Gateway.query, Gateway.execute,
    Gateway.external, Gateway.publish, await, throw, ret, no_fault.
  destruct (EmployeeStatus_eqb st available) eqn:Eav.
  - assert (Est : st = available)
      by (destruct st; simpl in Eav; congruence).
    destruct (Sql.select_where _ (Gateway.employees (Gateway.db w)))
      as [|e rest] eqn:E.
    + simpl. auto.
    + assert (X : In e (Sql.select_where
                   (fun e => String.eqb (Gateway.emp_id e)
                                        (Gateway.userId user))
                   (Gateway.employees (Gateway.db w))))
        by (rewrite E; now left).
      apply filter_In in X. destruct X as [Hin Hid].
      apply String.eqb_eq in Hid.
      rewrite (Hfree Est e Hin Hid). simpl. auto.
  - simpl. auto.
Qed.

(** Claim C8, amended.

    A request to set the presence to available through
    [PUT /api/auth/presence] is rejected while the reviewer's
    [current_task_id] is non-null, whatever calls reject, and leaves the
    world unchanged; when no call rejects, the error is the 400 "Cannot
    set status to available while task is assigned".

    No presence setter looks at violations, and a [Suspended] error does
    not exist: when no call rejects, a request for a valid presence other
    than available, or for available by a reviewer without a current
    task, is applied by the HTTP route and by the socket's
    PRESENCE_UPDATE alike: the reviewer's rows get the requested status
    and [now] as last heartbeat, and nothing else changes in the employee
    table. *)
Theorem presence_setters :
  (forall fails now user w,
     (exists e, In e (Gateway.employees (Gateway.db w)) /\
                Gateway.emp_id e = Gateway.userId user) ->
     (forall e, In e (Gateway.employees (Gateway.db w)) ->
                Gateway.emp_id e = Gateway.userId user ->
                Gateway.emp_current_task_id e <> None) ->
     fst (Gateway.put_presence fails now user "available" w) = w /\
     (exists err,
        snd (Gateway.put_presence fails now user "available" w) = inl err) /\
     snd (Gateway.put_presence no_fault now user "available" w)
     = inl (AppError "Cannot set status to available while task is assigned"
                     400))
  /\
  (forall now user status st w,
     Gateway.status_of_string status = Some st ->
     (st = available ->
      forall e, In e (Gateway.employees (Gateway.db w)) ->
                Gateway.emp_id e = Gateway.userId user ->
                Gateway.emp_current_task_id e = None) ->
     let http := Gateway.put_presence no_fault now user status w in
     let socket :=
       Gateway.handleMessage no_fault now user
         {| Gateway.msg_type := "PRESENCE_UPDATE";
            Gateway.msg_status := Some status;
            Gateway.msg_taskId := None |} w in
     snd http = inr st /\ snd socket = inr tt /\
     Gateway.employees (Gateway.db (fst http))
     = Gateway.employees (Gateway.db (fst socket)) /\
     Forall2
       (fun old new =>
          if String.eqb (Gateway.emp_id old) (Gateway.userId user)
          then Gateway.emp_id new = Gateway.emp_id old /\
               Gateway.emp_status new = st /\
               Gateway.emp_last_heartbeat new = Some now /\
               Gateway.emp_current_task_id new
               = Gateway.emp_current_task_id old /\
               Gateway.emp_warnings new = Gateway.emp_warnings old /\
               Gateway.emp_violations new = Gateway.emp_violations old /\
               Gateway.emp_tasks_completed new
               = Gateway.emp_tasks_completed old
          else new = old)
       (Gateway.employees (Gateway.db w))
       (Gateway.employees (Gateway.db (fst http)))).
Proof.
  split.
  - intros fails now user w Hex Hheld.
    destruct (first_row_of_user _ _ Hex) as (e & rest & Esel & Hin & Hid).
    assert (Enull : is_null (Gateway.emp_current_task_id e) = false).
    { specialize (Hheld e Hin Hid).
      destruct (Gateway.emp_current_task_id e); [reflexivity|congruence]. }
    unfold Gateway.put_presence. simpl.
    unfold bind, Gateway.query, await, throw, no_fault.
    rewrite Esel.
    destruct (fails "presence: SELECT employees"); simpl;
      rewrite ?Enull; simpl; eauto.
  - intros now user status st w Hst Hfree http socket.
    destruct (presence_applied now user status st w Hst Hfree)
      as (Hh & Hs & Esame & Erows).
    subst http socket.
    split; [exact Hh|]. split; [exact Hs|]. split; [exact Esame|].
    rewrite Erows. apply present_rows.
Qed.

Lemma presence_setters_witness :
  (exists e, In e (Gateway.employees (Gateway.db (world (holding 0 0)))) /\
             Gateway.emp_id e = Gateway.userId (jwt "R" role_employee)) /\
  (forall e, In e (Gateway.employees (Gateway.db (world (holding 0 0)))) ->
             Gateway.emp_id e = Gateway.userId (jwt "R" role_employee) ->
             Gateway.emp_current_task_id e <> None) /\
  fst (Gateway.put_presence no_fault 1000 (jwt "R" role_employee)
         "available" (world (holding 0 0)))
  = world (holding 0 0) /\
  Gateway.status_of_string "offline" = Some offline /\
  snd (Gateway.put_presence no_fault 1000 (jwt "R" role_employee)
         "offline" (world (holding 0 0))) = inr offline.
Proof.
  assert (X : exists e,
            In e (Gateway.employees (Gateway.db (world (holding 0 0)))) /\
            Gateway.emp_id e = Gateway.userId (jwt "R" role_employee))
    by (eexists; split; [left; reflexivity | reflexivity]).
  assert (H : forall e,
            In e (Gateway.employees (Gateway.db (world (holding 0 0)))) ->
            Gateway.emp_id e = Gateway.userId (jwt "R" role_employee) ->
            Gateway.emp_current_task_id e <> None)
    by (intros e [<- | []] _; discriminate).
  split; [exact X|]. split; [exact H|]. split; [|split; [reflexivity|]].
  - exact (proj1 (proj1 presence_setters no_fault 1000 _ _ X H)).
  - refine (proj1 (proj2 presence_setters 1000 (jwt "R" role_employee)
                     "offline" offline (world (holding 0 0)) eq_refl _)).
    intro E. discriminate E.
Defined.

End PresenceClaims.

(** ** Completion (claim C9) *)

Section Completion.
Import Model Steps Samples.

Lemma upsert_application_has task id url now t :
  exists a,
    In a (Gateway.upsert_application task id url now t) /\
    Gateway.app_candidate_id a = Gateway.task_candidate_id task /\
    Gateway.app_job_id a = Gateway.task_job_id task /\
    Gateway.app_resume_used_url a = Some url /\
    Gateway.app_status a = Gateway.submitted /\
    Gateway.app_submitted_at a = Some now.
Proof.
  unfold Gateway.upsert_application.
  destruct (existsb _ t) eqn:E.
  - apply existsb_exists in E. destruct E as (a0 & Ha0 & Hsame).
    exists (Gateway.resubmitted url now a0). split.
    + apply update_where_In. exists a0. split; [exact Ha0|].
      now rewrite Hsame.
    + unfold Gateway.same_application in Hsame.
      apply andb_true_iff in Hsame. destruct Hsame as [Ec Ej].
      apply String.eqb_eq in Ec, Ej. simpl. auto.
  - eexists. split.
    + unfold Sql.insert_into. apply in_or_app. right. left. reflexivity.
    + simpl. auto.
Qed.

(** The run of [complete] in which no call rejects. *)
Lemma complete_all_writes now user id file notes stored w task rest :
  Gateway.held_by id (Gateway.userId user) (Gateway.db w) = task :: rest ->
  Gateway.complete no_fault now user id (Some file) notes stored w =
  ({| Gateway.db :=
        (match Sql.select_where
                 (fun j => String.eqb (Gateway.job_id j)
                                      (Gateway.task_job_id task))
                 (Gateway.jobs (Gateway.db w)) with
         | [] => fun s => s
         | _ :: _ => Gateway.write_application task id stored now
         end)
          (Gateway.write_employee (Gateway.userId user)
             (Gateway.completion_seconds now task)
             (Gateway.write_candidate task stored
                (Gateway.write_task id stored notes now (Gateway.db w))));
      Gateway.published :=
        (Gateway.published w ++
         [Gateway.TASK_COMPLETED id (Gateway.userId user)
            (Gateway.completion_seconds now task)])%list |},
   inr {| Gateway.res_message := "Task completed successfully";
          Gateway.res_newResumeUrl := stored;
          Gateway.res_completionTimeSeconds :=
            Gateway.completion_seconds now task |}).
Proof.
  intro H.
  unfold Gateway.complete, bind, Gateway.query, Gateway.execute,
    Gateway.external, Gateway.publish, await, ret, no_fault.
  rewrite H. simpl.
  destruct (Sql.select_where _ (Gateway.jobs (Gateway.db w))); reflexivity.
Qed.

Lemma complete_prefix fails now user id file notes stored w task rest :
  Gateway.held_by id (Gateway.userId user) (Gateway.db w) = task :: rest ->
  let s1 := Gateway.write_task id stored notes now (Gateway.db w) in
  let s2 := Gateway.write_candidate task stored s1 in
  let s3 := Gateway.write_employee (Gateway.userId user)
              (Gateway.completion_seconds now task) s2 in
  let s4 := Gateway.write_application task id stored now s3 in
  let after :=
    Gateway.db (fst (Gateway.complete fails now user id (Some file) notes
                       stored w)) in
  after = Gateway.db w \/ after = s1 \/ after = s2 \/ after = s3 \/
  after = s4.
Proof.
  intros H s1 s2 s3 s4 after. subst after s4 s3 s2 s1.
  unfold Gateway.complete, bind, Gateway.query, Gateway.execute,
    Gateway.external, Gateway.publish, await, ret.
  destruct (fails "complete: SELECT ats_tasks"); [now left|].
  rewrite H.
  destruct (fails "complete: minio.upload"); [now left|].
  destruct (fails "complete: UPDATE ats_tasks"); [now left|].
  destruct (fails "complete: UPDATE candidates"); [simpl; auto|].
  destruct (fails "complete: UPDATE employees"); [simpl; auto|].
  destruct (fails "complete: SELECT jobs"); [simpl; auto|].
  simpl.
  destruct (Sql.select_where _ (Gateway.jobs (Gateway.db w))).
  - destruct (fails "complete: publish TASK_COMPLETED"); simpl; auto.
  - destruct (fails "complete: INSERT INTO applications"); [simpl; auto 6|].
    destruct (fails "complete: publish TASK_COMPLETED"); simpl; auto 6.
Qed.

Lemma complete_rejected_early fails now user id file notes stored w :
  file = None \/
  Gateway.held_by id (Gateway.userId user) (Gateway.db w) = [] \/
  fails "complete: SELECT ats_tasks" = true \/
  fails "complete: minio.upload" = true ->
  fst (Gateway.complete fails now user id file notes stored w) = w /\
  exists err,
    snd (Gateway.complete fails now user id file notes stored w) = inl err.
Proof.
  unfold Gateway.complete, bind, Gateway.query, Gateway.execute,
    Gateway.external, Gateway.publish, await, ret, throw.
  intros [-> | [H | [H | H]]].
  - simpl. eauto.
  - destruct file; [|simpl; eauto].
    destruct (fails "complete: SELECT ats_tasks"); [simpl; eauto|].
    rewrite H. simpl. eauto.
  - destruct file; [|simpl; eauto]. rewrite H. simpl. eauto.
  - destruct file; [|simpl; eauto].
    destruct (fails "complete: SELECT ats_tasks"); [simpl; eauto|].
    destruct (Gateway.held_by _ _ _); [simpl; eauto|].
    rewrite H. simpl. eauto.
Qed.

(** The world and the reply of [complete] by the first call that
    rejects. *)
Lemma complete_first_rejection fails now user id file notes stored w task
  rest :
  Gateway.held_by id (Gateway.userId user) (Gateway.db w) = task :: rest ->
  let s1 := Gateway.write_task id stored notes now (Gateway.db w) in
  let s2 := Gateway.write_candidate task stored s1 in
  let s3 := Gateway.write_employee (Gateway.userId user)
              (Gateway.completion_seconds now task) s2 in
  let s4 := Gateway.write_application task id stored now s3 in
  let answer :=
    {| Gateway.res_message := "Task completed successfully";
       Gateway.res_newResumeUrl := stored;
       Gateway.res_completionTimeSeconds :=
         Gateway.completion_seconds now task |} in
  let run := Gateway.complete fails now user id (Some file) notes stored w in
  (Gateway.db (fst run), snd run) =
  if fails "complete: SELECT ats_tasks"
  then (Gateway.db w, inl (Rejected "complete: SELECT ats_tasks"))
  else if fails "complete: minio.upload"
  then (Gateway.db w, inl (Rejected "complete: minio.upload"))
  else if fails "complete: UPDATE ats_tasks"
  then (Gateway.db w, inl (Rejected "complete: UPDATE ats_tasks"))
  else if fails "complete: UPDATE candidates"
  then (s1, inl (Rejected "complete: UPDATE candidates"))
  else if fails "complete: UPDATE employees"
  then (s2, inl (Rejected "complete: UPDATE employees"))
  else if fails "complete: SELECT jobs"
  then (s3, inl (Rejected "complete: SELECT jobs"))
  else
    match Sql.select_where
            (fun j => String.eqb (Gateway.job_id j)
                                 (Gateway.task_job_id task))
            (Gateway.jobs (Gateway.db w)) with
    | [] =>
        if fails "complete: publish TASK_COMPLETED"
        then (s3, inl (Rejected "complete: publish TASK_COMPLETED"))
        else (s3, inr answer)
    | _ :: _ =>
        if fails "complete: INSERT INTO applications"
        then (s3, inl (Rejected "complete: INSERT INTO applications"))
        else if fails "complete: publish TASK_COMPLETED"
        then (s4, inl (Rejected "complete: publish TASK_COMPLETED"))
        else (s4, inr answer)
    end.
Proof.
  intros H s1 s2 s3 s4 answer run. subst run answer s4 s3 s2 s1.
  unfold Gateway.complete, bind, Gateway.query, Gateway.execute,
    Gateway.external, Gateway.publish, await, ret.
  destruct (fails "complete: SELECT ats_tasks"); [reflexivity|].
  rewrite H.
  destruct (fails "complete: minio.upload"); [reflexivity|].
  destruct (fails "complete: UPDATE ats_tasks"); [reflexivity|].
  destruct (fails "complete: UPDATE candidates"); [reflexivity|].
  destruct (fails "complete: UPDATE employees"); [reflexivity|].
  destruct (fails "complete: SELECT jobs"); [reflexivity|].
  simpl.
  destruct (Sql.select_where _ (Gateway.jobs (Gateway.db w))).
  - destruct (fails "complete: publish TASK_COMPLETED"); reflexivity.
  - destruct (fails "complete: INSERT INTO applications"); [reflexivity|].
    destruct (fails "complete: publish TASK_COMPLETED"); reflexivity.
Qed.

(** The rows of the handler's first query are rows of the task table
    that the caller holds. *)
Lemma held_by_In id uid s task :
  In task (Gateway.held_by id uid s) ->
  In task (Gateway.ats_tasks s) /\ Gateway.task_id task = id /\
  held (Gateway.task_status task) = true.
Proof.
  unfold Gateway.held_by. rewrite in_flat_map. intros (t & Ht & Hin).
  destruct (String.eqb (Gateway.task_id t) id
            && is_uuid (Gateway.task_assigned_to t) uid
            && held (Gateway.task_status t)) eqn:C; [|contradiction].
  apply in_map_iff in Hin. destruct Hin as (c & <- & _).
  apply andb_true_iff in C. destruct C as [C Hh].
  apply andb_true_iff in C. destruct C as [Hid _].
  apply String.eqb_eq in Hid. auto.
Qed.

(** The first write of [complete] changes the task table, and the later
    ones leave that table alone: once the task is written the store is
    not the one before. *)
Lemma complete_writes_differ now user id notes stored w task rest :
  Gateway.held_by id (Gateway.userId user) (Gateway.db w) = task :: rest ->
  let s1 := Gateway.write_task id stored notes now (Gateway.db w) in
  let s2 := Gateway.write_candidate task stored s1 in
  let s3 := Gateway.write_employee (Gateway.userId user)
              (Gateway.completion_seconds now task) s2 in
  let s4 := Gateway.write_application task id stored now s3 in
  s1 <> Gateway.db w /\ s2 <> Gateway.db w /\ s3 <> Gateway.db w /\
  s4 <> Gateway.db w.
Proof.
  intros H s1 s2 s3 s4.
  assert (Hin : In task (Gateway.held_by id (Gateway.userId user)
                           (Gateway.db w)))
    by (rewrite H; now left).
  apply held_by_In in Hin. destruct Hin as (Hin & Hid & Hh).
  assert (T : Gateway.ats_tasks s1 <> Gateway.ats_tasks (Gateway.db w)).
  { intro E. subst s1. unfold Gateway.write_task in E. simpl in E.
    unfold Sql.update_where in E.
    rewrite <- (map_id (Gateway.ats_tasks (Gateway.db w))) in E at 2.
    pose proof (proj1 map_ext_in_iff E task Hin) as X.
    simpl in X. rewrite Hid, String.eqb_refl in X.
    apply (f_equal Gateway.task_status) in X. simpl in X.
    rewrite <- X in Hh. discriminate Hh. }
  repeat split; intro E; apply T;
    apply (f_equal Gateway.ats_tasks) in E; exact E.
Qed.

(** Under the primary key of [ats_tasks], the handler's first query
    finds the task that the caller holds. *)
Lemma held_by_owned s uid task :
  In task (Gateway.ats_tasks s) ->
  NoDup (map Gateway.task_id (Gateway.ats_tasks s)) ->
  Gateway.task_assigned_to task = Some uid ->
  held (Gateway.task_status task) = true ->
  (exists c, In c (Gateway.candidates s) /\
             Gateway.cand_id c = Gateway.task_candidate_id task) ->
  exists rest,
    Gateway.held_by (Gateway.task_id task) uid s = task :: rest.
Proof.
  intros Hin Hkey Ha Hh (c & Hc & Ec). unfold Gateway.held_by.
  induction (Gateway.ats_tasks s) as [|x l IH]; simpl; [contradiction|].
  inversion Hkey as [|? ? Nx Nl]; subst.
  destruct Hin as [-> | Hin].
  - rewrite String.eqb_refl, Ha, Hh. simpl. rewrite String.eqb_refl. simpl.
    destruct (Sql.select_where _ (Gateway.candidates s)) as [|c0 cs] eqn:E.
    + exfalso.
      assert (X : In c (Sql.select_where
                   (fun c => String.eqb (Gateway.task_candidate_id task)
                                        (Gateway.cand_id c))
                   (Gateway.candidates s))).
      { apply filter_In. split; [exact Hc|]. rewrite Ec.
        apply String.eqb_refl. }
      rewrite E in X. contradiction.
    + simpl. eauto.
  - destruct (String.eqb_spec (Gateway.task_id x) (Gateway.task_id task))
      as [E|_].
    + exfalso. apply Nx. rewrite E. now apply in_map.
    + simpl. now apply IH.
Qed.

(** Claim C9, as stated, fails: when the UPDATE of the reviewer's row
    is rejected the handler ends in an error, but the task is already
    completed and the candidate's resume already replaced, while the
    reviewer is still busy with the task and no application exists. *)
Lemma failed_completion_keeps_writes :
  let run := submission (String.eqb "complete: UPDATE employees") in
  snd run = inl (Rejected "complete: UPDATE employees") /\
  Gateway.db (fst run) <> holding 0 0 /\
  (exists t, Gateway.ats_tasks (Gateway.db (fst run)) = [t] /\
             Gateway.task_status t = completed /\
             Gateway.task_new_resume_url t = Some "u2") /\
  (exists c, Gateway.candidates (Gateway.db (fst run)) = [c] /\
             Gateway.cand_resume_url c = Some "u2") /\
  (exists e, Gateway.employees (Gateway.db (fst run)) = [e] /\
             Gateway.emp_status e = busy /\
             Gateway.emp_current_task_id e = Some "T" /\
             Gateway.emp_tasks_completed e = 5) /\
  Gateway.applications (Gateway.db (fst run)) = [].
Proof.
  split; [reflexivity|]. split.
  - intro E. apply (f_equal Gateway.ats_tasks) in E. discriminate E.
  - repeat split; try (eexists; split; [reflexivity|]; repeat split).
Qed.

(** Claim C9, amended.  The handler of [POST /api/tasks/:id/complete]
    issues its statements one by one, outside any transaction.

    For every task in status assigned or in_progress that the calling
    reviewer holds (over a task table with a primary key, the task's
    candidate being a row): when no call rejects, the handler answers
    with the stored URL and the completion time and all effects are
    applied: the task's row is completed, with [completed_at], the new
    resume URL and the notes; the candidate's resume is the new URL; the
    reviewer's rows are available, without current task, with one more
    task completed and the running average of the completion times; an
    application for the candidate and the job carries the new URL, is
    submitted and dated, provided the job is a row; all other rows are
    untouched.

    When a call rejects, the handler answers with that rejection and
    the store is left with the writes issued before it, in the order
    task, candidate, reviewer, application: the store before for the
    first SELECT, the upload and the UPDATE of the task; the task
    written for the UPDATE of the candidate; task and candidate for the
    UPDATE of the reviewer; these three for the SELECT of the job and
    the INSERT of the application; all writes for the closing publish.
    For a task that the caller holds the store is unchanged only when
    the first SELECT, the upload or the UPDATE of the task rejects.
    Without a file, and for a task that the caller does not hold, the
    handler answers with an error and writes nothing. *)
Theorem completion_effects :
  (forall now user file notes stored w task,
     In task (Gateway.ats_tasks (Gateway.db w)) ->
     NoDup (map Gateway.task_id (Gateway.ats_tasks (Gateway.db w))) ->
     Gateway.task_assigned_to task = Some (Gateway.userId user) ->
     held (Gateway.task_status task) = true ->
     (exists c, In c (Gateway.candidates (Gateway.db w)) /\
                Gateway.cand_id c = Gateway.task_candidate_id task) ->
     let run := Gateway.complete no_fault now user (Gateway.task_id task)
                  (Some file) notes stored w in
     let after := Gateway.db (fst run) in
     let secs := Gateway.completion_seconds now task in
     snd run = inr {| Gateway.res_message := "Task completed successfully";
                      Gateway.res_newResumeUrl := stored;
                      Gateway.res_completionTimeSeconds := secs |} /\
     Forall2
       (fun old new =>
          if String.eqb (Gateway.task_id old) (Gateway.task_id task)
          then Gateway.task_id new = Gateway.task_id old /\
               Gateway.task_status new = completed /\
               Gateway.task_completed_at new = Some now /\
               Gateway.task_new_resume_url new = Some stored /\
               Gateway.task_notes new = notes
          else new = old)
       (Gateway.ats_tasks (Gateway.db w)) (Gateway.ats_tasks after) /\
     Forall2
       (fun old new =>
          if String.eqb (Gateway.cand_id old) (Gateway.task_candidate_id task)
          then Gateway.cand_id new = Gateway.cand_id old /\
               Gateway.cand_resume_url new = Some stored
          else new = old)
       (Gateway.candidates (Gateway.db w)) (Gateway.candidates after) /\
     Forall2
       (fun old new =>
          if String.eqb (Gateway.emp_id old) (Gateway.userId user)
          then Gateway.emp_id new = Gateway.emp_id old /\
               Gateway.emp_status new = available /\
               Gateway.emp_current_task_id new = None /\
               Gateway.emp_tasks_completed new
               = Gateway.emp_tasks_completed old + 1 /\
               Gateway.emp_average_completion_time_seconds new
               = (if Gateway.emp_tasks_completed old =? 0 then secs
                  else Z.quot
                         (Gateway.emp_average_completion_time_seconds old
                          * Gateway.emp_tasks_completed old + secs)
                         (Gateway.emp_tasks_completed old + 1)) /\
               Gateway.emp_warnings new = Gateway.emp_warnings old /\
               Gateway.emp_violations new = Gateway.emp_violations old
          else new = old)
       (Gateway.employees (Gateway.db w)) (Gateway.employees after) /\
     ((exists j, In j (Gateway.jobs (Gateway.db w)) /\
                 Gateway.job_id j = Gateway.task_job_id task) ->
      exists a, In a (Gateway.applications after) /\
                Gateway.app_candidate_id a = Gateway.task_candidate_id task /\
                Gateway.app_job_id a = Gateway.task_job_id task /\
                Gateway.app_resume_used_url a = Some stored /\
                Gateway.app_status a = Gateway.submitted /\
                Gateway.app_submitted_at a = Some now))
  /\
  (forall fails now user id file notes stored w task rest,
     Gateway.held_by id (Gateway.userId user) (Gateway.db w) = task :: rest ->
     let s1 := Gateway.write_task id stored notes now (Gateway.db w) in
     let s2 := Gateway.write_candidate task stored s1 in
     let s3 := Gateway.write_employee (Gateway.userId user)
                 (Gateway.completion_seconds now task) s2 in
     let s4 := Gateway.write_application task id stored now s3 in
     let answer :=
       {| Gateway.res_message := "Task completed successfully";
          Gateway.res_newResumeUrl := stored;
          Gateway.res_completionTimeSeconds :=
            Gateway.completion_seconds now task |} in
     let run :=
       Gateway.complete fails now user id (Some file) notes stored w in
     (Gateway.db (fst run), snd run) =
     (if fails "complete: SELECT ats_tasks"
      then (Gateway.db w, inl (Rejected "complete: SELECT ats_tasks"))
      else if fails "complete: minio.upload"
      then (Gateway.db w, inl (Rejected "complete: minio.upload"))
      else if fails "complete: UPDATE ats_tasks"
      then (Gateway.db w, inl (Rejected "complete: UPDATE ats_tasks"))
      else if fails "complete: UPDATE candidates"
      then (s1, inl (Rejected "complete: UPDATE candidates"))
      else if fails "complete: UPDATE employees"
      then (s2, inl (Rejected "complete: UPDATE employees"))
      else if fails "complete: SELECT jobs"
      then (s3, inl (Rejected "complete: SELECT jobs"))
      else
        match Sql.select_where
                (fun j => String.eqb (Gateway.job_id j)
                                     (Gateway.task_job_id task))
                (Gateway.jobs (Gateway.db w)) with
        | [] =>
            if fails "complete: publish TASK_COMPLETED"
            then (s3, inl (Rejected "complete: publish TASK_COMPLETED"))
            else (s3, inr answer)
        | _ :: _ =>
            if fails "complete: INSERT INTO applications"
            then (s3, inl (Rejected "complete: INSERT INTO applications"))
            else if fails "complete: publish TASK_COMPLETED"
            then (s4, inl (Rejected "complete: publish TASK_COMPLETED"))
            else (s4, inr answer)
        end) /\
     s1 <> Gateway.db w /\ s2 <> Gateway.db w /\ s3 <> Gateway.db w /\
     s4 <> Gateway.db w /\
     (Gateway.db (fst run) = Gateway.db w <->
      fails "complete: SELECT ats_tasks" = true \/
      fails "complete: minio.upload" = true \/
      fails "complete: UPDATE ats_tasks" = true))
  /\
  (forall fails now user id file notes stored w,
     file = None \/
     Gateway.held_by id (Gateway.userId user) (Gateway.db w) = [] \/
     fails "complete: SELECT ats_tasks" = true \/
     fails "complete: minio.upload" = true ->
     fst (Gateway.complete fails now user id file notes stored w) = w /\
     exists err,
       snd (Gateway.complete fails now user id file notes stored w)
       = inl err).
Proof.
  split; [|split; [|exact complete_rejected_early]].
  2:{ intros fails now user id file notes stored w task rest H
             s1 s2 s3 s4 answer run.
      pose proof (complete_first_rejection fails now user id file notes
                    stored w task rest H) as First.
      pose proof (complete_writes_differ now user id notes stored w task
                    rest H) as (D1 & D2 & D3 & D4).
      cbv zeta in First. fold s1 s2 s3 s4 answer run in First, D1, D2, D3, D4.
      split; [exact First|]. repeat (split; [assumption|]).
      assert (Eafter : Gateway.db (fst run)
                       = fst (Gateway.db (fst run), snd run))
        by reflexivity.
      rewrite Eafter, First. clear Eafter First.
      destruct (fails "complete: SELECT ats_tasks");
        [split; [auto | reflexivity]|].
      destruct (fails "complete: minio.upload");
        [split; [auto | reflexivity]|].
      destruct (fails "complete: UPDATE ats_tasks");
        [split; [auto | reflexivity]|].
      assert (No : false = true \/ false = true \/ false = true -> False)
        by (intros [X | [X | X]]; discriminate X).
      destruct (fails "complete: UPDATE candidates");
        [split; [intro E; contradiction | intro X; destruct (No X)]|].
      destruct (fails "complete: UPDATE employees");
        [split; [intro E; contradiction | intro X; destruct (No X)]|].
      destruct (fails "complete: SELECT jobs");
        [split; [intro E; contradiction | intro X; destruct (No X)]|].
      destruct (Sql.select_where _ (Gateway.jobs (Gateway.db w)));
        [|destruct (fails "complete: INSERT INTO applications")];
        destruct (fails "complete: publish TASK_COMPLETED");
        (split; [intro E; contradiction | intro X; destruct (No X)]). }
  intros now user file notes stored w task Hin Hkey Ha Hh Hc run after secs.
  destruct (held_by_owned _ _ _ Hin Hkey Ha Hh Hc) as (rest & Hheld).
  subst after run secs.
  rewrite (complete_all_writes now user _ file notes stored w task rest Hheld).
  assert (Rows : forall (Row : Type) (key : Row -> string) (k : string)
                       (f : Row -> Row) (P : Row -> Row -> Prop) t,
            (forall old, P old (f old)) ->
            Forall2 (fun old new =>
                       if String.eqb (key old) k then P old new
                       else new = old)
                    t (Sql.update_where
                         (fun x => String.eqb (key x) k) f t)).
  { intros Row key k f P t HP.
    eapply Forall2_weaken; [|apply update_where_Forall2].
    intros old new _ ->. destruct (String.eqb (key old) k); auto. }
  destruct (Sql.select_where _ (Gateway.jobs (Gateway.db w)))
    as [|j0 js] eqn:E; simpl;
    (split; [reflexivity|]);
    (split; [apply (Rows _ Gateway.task_id); intro; simpl; repeat split|]);
    (split; [apply (Rows _ Gateway.cand_id); intro; simpl; repeat split|]);
    (split; [apply (Rows _ Gateway.emp_id); intro; simpl; repeat split|]).
  - intros (j & Hj & Ej). exfalso.
    assert (X : In j (Sql.select_where
                 (fun j => String.eqb (Gateway.job_id j)
                                      (Gateway.task_job_id task))
                 (Gateway.jobs (Gateway.db w)))).
    { apply filter_In. split; [exact Hj|]. rewrite Ej.
      apply String.eqb_refl. }
    rewrite E in X. contradiction.
  - intros _. apply upsert_application_has.
Qed.

Lemma completion_effects_witness :
  In held_task (Gateway.ats_tasks (Gateway.db (world (holding 0 0)))) /\
  NoDup (map Gateway.task_id
             (Gateway.ats_tasks (Gateway.db (world (holding 0 0))))) /\
  Gateway.task_assigned_to held_task
  = Some (Gateway.userId (jwt "R" role_employee)) /\
  held (Gateway.task_status held_task) = true /\
  (exists c, In c (Gateway.candidates (Gateway.db (world (holding 0 0)))) /\
             Gateway.cand_id c = Gateway.task_candidate_id held_task) /\
  snd (submission no_fault)
  = inr {| Gateway.res_message := "Task completed successfully";
           Gateway.res_newResumeUrl := "u2";
           Gateway.res_completionTimeSeconds := 600 |}.
Proof.
  assert (I : In held_task
                 (Gateway.ats_tasks (Gateway.db (world (holding 0 0)))))
    by (left; reflexivity).
  assert (N : NoDup (map Gateway.task_id
                       (Gateway.ats_tasks (Gateway.db (world (holding 0 0))))))
    by (simpl; constructor; [intros [] | constructor]).
  assert (C : exists c,
            In c (Gateway.candidates (Gateway.db (world (holding 0 0)))) /\
            Gateway.cand_id c = Gateway.task_candidate_id held_task)
    by (eexists; split; [left; reflexivity | reflexivity]).
  split; [exact I|]. split; [exact N|]. split; [reflexivity|].
  split; [reflexivity|]. split; [exact C|].
  exact (proj1 (proj1 completion_effects (10 * 60 * 1000)
                  (jwt "R" role_employee) "resume.pdf" None "u2"
                  (world (holding 0 0)) held_task I N eq_refl eq_refl C)).
Defined.

End Completion.

(** ** The admin resets (claim C10) *)

Section Resets.
Import Model Steps Samples.

Lemma has_row uid t :
  (exists a, In a t /\ Gateway.emp_id a = uid) ->
  existsb (fun a => String.eqb (Gateway.emp_id a) uid) t = true.
Proof.
  intros (a & Ha & Ea). apply existsb_exists. exists a.
  split; [exact Ha|]. rewrite Ea. apply String.eqb_refl.
Qed.

Lemma has_no_row uid t :
  (forall a, In a t -> Gateway.emp_id a <> uid) ->
  existsb (fun a => String.eqb (Gateway.emp_id a) uid) t = false.
Proof.
  intro H. destruct (existsb _ t) eqn:X; [|reflexivity].
  apply existsb_exists in X. destruct X as (a & Ha & Ea).
  apply String.eqb_eq in Ea. exfalso. exact (H a Ha Ea).
Qed.

Lemma update_where_has_row uid p f t :
  (forall x, Gateway.emp_id (f x) = Gateway.emp_id x) ->
  existsb (fun a => String.eqb (Gateway.emp_id a) uid)
          (Sql.update_where p f t)
  = existsb (fun a => String.eqb (Gateway.emp_id a) uid) t.
Proof.
  intro Hid. unfold Sql.update_where.
  induction t as [|x t IH]; simpl; [reflexivity|].
  rewrite IH. destruct (p x); [now rewrite Hid | reflexivity].
Qed.

(** Claim C10.  For every employee row and every caller with an admin
    token, when no call rejects: reset-violations sets, on the rows of
    that employee, violations to 0 and the status to available, whatever
    the status and the current task were, leaving warnings, the current
    task and every other column as they were; reset-warnings sets
    warnings to 0, leaving violations, the status and every other column
    as they were.  The rows of other employees and the task table are
    untouched.  The reset is stored before the audit row is written: the
    reply is the success message when the admin has a row, and the
    rejection of the audit INSERT, with the reset in place, when not. *)
Theorem admin_resets :
  (forall user id w,
     Gateway.role user = role_admin ->
     (exists e, In e (Gateway.employees (Gateway.db w)) /\
                Gateway.emp_id e = id) ->
     let run := Gateway.reset_violations no_fault (Some user) id w in
     ((exists a, In a (Gateway.employees (Gateway.db w)) /\
                 Gateway.emp_id a = Gateway.userId user) ->
      snd run = inr "Violations reset and account unlocked") /\
     ((forall a, In a (Gateway.employees (Gateway.db w)) ->
                 Gateway.emp_id a <> Gateway.userId user) ->
      snd run
      = inl (Rejected "reset-violations: INSERT INTO activity_log")) /\
     Gateway.ats_tasks (Gateway.db (fst run))
     = Gateway.ats_tasks (Gateway.db w) /\
     Forall2
       (fun old new =>
          if String.eqb (Gateway.emp_id old) id
          then Gateway.emp_violations new = 0 /\
               Gateway.emp_status new = available /\
               Gateway.emp_warnings new = Gateway.emp_warnings old /\
               Gateway.emp_current_task_id new
               = Gateway.emp_current_task_id old /\
               Gateway.emp_id new = Gateway.emp_id old /\
               Gateway.emp_role new = Gateway.emp_role old /\
               Gateway.emp_tasks_completed new
               = Gateway.emp_tasks_completed old /\
               Gateway.emp_average_completion_time_seconds new
               = Gateway.emp_average_completion_time_seconds old /\
               Gateway.emp_last_heartbeat new
               = Gateway.emp_last_heartbeat old
          else new = old)
       (Gateway.employees (Gateway.db w))
       (Gateway.employees (Gateway.db (fst run))))
  /\
  (forall user id w,
     Gateway.role user = role_admin ->
     (exists e, In e (Gateway.employees (Gateway.db w)) /\
                Gateway.emp_id e = id) ->
     let run := Gateway.reset_warnings no_fault (Some user) id w in
     ((exists a, In a (Gateway.employees (Gateway.db w)) /\
                 Gateway.emp_id a = Gateway.userId user) ->
      snd run = inr "Warnings reset successfully") /\
     ((forall a, In a (Gateway.employees (Gateway.db w)) ->
                 Gateway.emp_id a <> Gateway.userId user) ->
      snd run
      = inl (Rejected "reset-warnings: INSERT INTO activity_log")) /\
     Gateway.ats_tasks (Gateway.db (fst run))
     = Gateway.ats_tasks (Gateway.db w) /\
     Forall2
       (fun old new =>
          if String.eqb (Gateway.emp_id old) id
          then Gateway.emp_warnings new = 0 /\
               Gateway.emp_violations new = Gateway.emp_violations old /\
               Gateway.emp_status new = Gateway.emp_status old /\
               Gateway.emp_current_task_id new
               = Gateway.emp_current_task_id old /\
               Gateway.emp_id new = Gateway.emp_id old /\
               Gateway.emp_role new = Gateway.emp_role old /\
               Gateway.emp_tasks_completed new
               = Gateway.emp_tasks_completed old /\
               Gateway.emp_average_completion_time_seconds new
               = Gateway.emp_average_completion_time_seconds old /\
               Gateway.emp_last_heartbeat new
               = Gateway.emp_last_heartbeat old
          else new = old)
       (Gateway.employees (Gateway.db w))
       (Gateway.employees (Gateway.db (fst run)))).
Proof.
  split; intros user id w Hrole Hex run; subst run;
    destruct (first_row_of_user _ _ Hex) as (e & rest & Esel & _ & _).
  - unfold Gateway.reset_violations, Gateway.requireRole, bind,
      Gateway.query, Gateway.execute, Gateway.execute_checked, await, ret,
      no_fault.
    rewrite Hrole. simpl. rewrite Esel. simpl.
    rewrite update_where_has_row by reflexivity.
    destruct (existsb _ (Gateway.employees (Gateway.db w))) eqn:Row; simpl.
    + split; [reflexivity|]. split.
      { intro Hnone. apply has_no_row in Hnone. congruence. }
      split; [reflexivity|].
      eapply Forall2_weaken; [|apply update_where_Forall2].
      intros old new _ ->.
      destruct (String.eqb (Gateway.emp_id old) id); simpl; repeat split.
    + split.
      { intro Hrow. apply has_row in Hrow. congruence. }
      split; [reflexivity|]. split; [reflexivity|].
      eapply Forall2_weaken; [|apply update_where_Forall2].
      intros old new _ ->.
      destruct (String.eqb (Gateway.emp_id old) id); simpl; repeat split.
  - unfold Gateway.reset_warnings, Gateway.requireRole, bind,
      Gateway.query, Gateway.execute, Gateway.execute_checked, await, ret,
      no_fault.
    rewrite Hrole. simpl. rewrite Esel. simpl.
    rewrite update_where_has_row by reflexivity.
    destruct (existsb _ (Gateway.employees (Gateway.db w))) eqn:Row; simpl.
    + split; [reflexivity|]. split.
      { intro Hnone. apply has_no_row in Hnone. congruence. }
      split; [reflexivity|].
      eapply Forall2_weaken; [|apply update_where_Forall2].
      intros old new _ ->.
      destruct (String.eqb (Gateway.emp_id old) id); simpl; repeat split.
    + split.
      { intro Hrow. apply has_row in Hrow. congruence. }
      split; [reflexivity|]. split; [reflexivity|].
      eapply Forall2_weaken; [|apply update_where_Forall2].
      intros old new _ ->.
      destruct (String.eqb (Gateway.emp_id old) id); simpl; repeat split.
Qed.

Lemma admin_resets_witness :
  Gateway.role (jwt "boss" role_admin) = role_admin /\
  (exists e, In e (Gateway.employees
                     (Gateway.db (world (store [holder 1 2; boss]
                                               [held_task])))) /\
             Gateway.emp_id e = "R") /\
  snd (Gateway.reset_violations no_fault (Some (jwt "boss" role_admin)) "R"
         (world (store [holder 1 2; boss] [held_task])))
  = inr "Violations reset and account unlocked" /\
  Forall2
    (fun old new =>
       if String.eqb (Gateway.emp_id old) "R"
       then Gateway.emp_violations new = 0 /\
            Gateway.emp_status new = available /\
            Gateway.emp_current_task_id new
            = Gateway.emp_current_task_id old
       else new = old)
    (Gateway.employees (Gateway.db (world (store [holder 1 2; boss]
                                                 [held_task]))))
    (Gateway.employees
       (Gateway.db (fst (Gateway.reset_violations no_fault
                           (Some (jwt "boss" role_admin)) "R"
                           (world (store [holder 1 2; boss]
                                         [held_task])))))).
Proof.
  assert (X : exists e,
            In e (Gateway.employees
                    (Gateway.db (world (store [holder 1 2; boss]
                                              [held_task])))) /\
            Gateway.emp_id e = "R")
    by (eexists; split; [left; reflexivity | reflexivity]).
  assert (A : exists a,
            In a (Gateway.employees
                    (Gateway.db (world (store [holder 1 2; boss]
                                              [held_task])))) /\
            Gateway.emp_id a = Gateway.userId (jwt "boss" role_admin))
    by (eexists; split; [right; left; reflexivity | reflexivity]).
  split; [reflexivity|]. split; [exact X|].
  destruct (proj1 admin_resets (jwt "boss" role_admin) "R"
              (world (store [holder 1 2; boss] [held_task])) eq_refl X)
    as (Reply & _ & _ & F).
  split; [exact (Reply A)|].
  eapply Forall2_weaken; [|exact F].
  cbv beta. intros old new _.
  destruct (String.eqb (Gateway.emp_id old) "R"); [|exact (fun H => H)].
  intros (Hv & Hs & _ & Hc & _). repeat split; assumption.
Defined.

End Resets.

(** * Further properties of the code *)

(** ** Starting and failing a task ([routes/tasks.routes.ts]) *)

Section StartAndFail.
Import Model Steps Samples.

Lemma select_some {Row} (p : Row -> bool) (t : list Row) x :
  In x t -> p x = true ->
  exists y rest, Sql.select_where p t = y :: rest.
Proof.
  intros Hin Hp.
  destruct (Sql.select_where p t) as [|y rest] eqn:E; [|eauto].
  assert (X : In x (Sql.select_where p t)) by (apply filter_In; now split).
  rewrite E in X. contradiction.
Qed.

(** [POST /api/tasks/:id/start].  When no row with the id is assigned to
    the caller in status [assigned], the request ends in an error
    (the 404 when no call rejects) and the world is unchanged, whatever
    calls reject.  When there is such a row and no call rejects, the
    request succeeds, every row with the id becomes [in_progress] with
    [started_at = now] and is otherwise as before, and no other task row
    changes. *)
Theorem start_only_assigned_own_task :
  (forall fails now user id w,
     (forall t, In t (Gateway.ats_tasks (Gateway.db w)) ->
                Gateway.task_id t = id ->
                Gateway.task_assigned_to t = Some (Gateway.userId user) ->
                Gateway.task_status t <> assigned) ->
     fst (Gateway.start fails now user id w) = w /\
     (exists err, snd (Gateway.start fails now user id w) = inl err) /\
     snd (Gateway.start no_fault now user id w)
     = inl (AppError "Task not found or not assigned to you" 404))
  /\
  (forall now user w t,
     In t (Gateway.ats_tasks (Gateway.db w)) ->
     Gateway.task_assigned_to t = Some (Gateway.userId user) ->
     Gateway.task_status t = assigned ->
     let run := Gateway.start no_fault now user (Gateway.task_id t) w in
     snd run = inr "Task started" /\
     Gateway.employees (Gateway.db (fst run))
     = Gateway.employees (Gateway.db w) /\
     Forall2
       (fun old new =>
          if String.eqb (Gateway.task_id old) (Gateway.task_id t)
          then new = Gateway.start_now now old /\
               Gateway.task_status new = in_progress /\
               Gateway.task_started_at new = Some now /\
               Gateway.task_assigned_to new = Gateway.task_assigned_to old /\
               Gateway.task_due_at new = Gateway.task_due_at old /\
               Gateway.task_retry_count new = Gateway.task_retry_count old
          else new = old)
       (Gateway.ats_tasks (Gateway.db w))
       (Gateway.ats_tasks (Gateway.db (fst run)))).
Proof.
  split.
  - intros fails now user id w Hnone.
    assert (E : Sql.select_where
                  (Gateway.assigned_to_caller id (Gateway.userId user))
                  (Gateway.ats_tasks (Gateway.db w)) = []).
    { apply select_none. intros t Ht.
      unfold Gateway.assigned_to_caller.
      destruct (String.eqb_spec (Gateway.task_id t) id) as [Eid|];
        [|reflexivity].
      unfold is_uuid.
      destruct (Gateway.task_assigned_to t) as [a|] eqn:Ea; [|reflexivity].
      destruct (String.eqb_spec a (Gateway.userId user)) as [->|];
        [|reflexivity].
      specialize (Hnone t Ht Eid Ea). simpl.
      destruct (Gateway.task_status t); simpl; congruence. }
    unfold Gateway.start, bind, Gateway.query, await, throw, no_fault.
    rewrite E.
    destruct (fails "start: SELECT ats_tasks"); simpl; eauto.
  - intros now user w t Ht Ha Hs run. subst run.
    destruct (select_some
                (Gateway.assigned_to_caller (Gateway.task_id t)
                                            (Gateway.userId user))
                _ t Ht) as (y & rest & E).
    { unfold Gateway.assigned_to_caller, is_uuid.
      now rewrite Ha, Hs, !String.eqb_refl. }
    unfold Gateway.start, bind, Gateway.query, Gateway.execute,
      Gateway.external, await, ret, no_fault.
    rewrite E. simpl.
    split; [reflexivity|]. split; [reflexivity|].
    eapply Forall2_weaken; [|apply update_where_Forall2].
    intros old new _ ->.
    destruct (String.eqb (Gateway.task_id old) (Gateway.task_id t));
      simpl; repeat split.
Qed.

Lemma start_only_assigned_own_task_witness :
  In held_task (Gateway.ats_tasks (Gateway.db (world (holding 0 0)))) /\
  Gateway.task_assigned_to held_task
  = Some (Gateway.userId (jwt "R" role_employee)) /\
  Gateway.task_status held_task = assigned /\
  snd (Gateway.start no_fault 60000 (jwt "R" role_employee) "T"
         (world (holding 0 0))) = inr "Task started" /\
  (forall t, In t (Gateway.ats_tasks (Gateway.db (world (holding 0 0)))) ->
             Gateway.task_id t = "T" ->
             Gateway.task_assigned_to t
             = Some (Gateway.userId (jwt "S" role_employee)) ->
             Gateway.task_status t <> assigned) /\
  fst (Gateway.start no_fault 60000 (jwt "S" role_employee) "T"
         (world (holding 0 0))) = world (holding 0 0).
Proof.
  assert (I : In held_task
                 (Gateway.ats_tasks (Gateway.db (world (holding 0 0)))))
    by (left; reflexivity).
  assert (N : forall t,
            In t (Gateway.ats_tasks (Gateway.db (world (holding 0 0)))) ->
            Gateway.task_id t = "T" ->
            Gateway.task_assigned_to t
            = Some (Gateway.userId (jwt "S" role_employee)) ->
            Gateway.task_status t <> assigned)
    by (intros t [<- | []] _ E; discriminate E).
  split; [exact I|]. split; [reflexivity|]. split; [reflexivity|].
  split; [|split; [exact N|]].
  - exact (proj1 (proj2 start_only_assigned_own_task 60000
                    (jwt "R" role_employee) (world (holding 0 0)) held_task
                    I eq_refl eq_refl)).
  - exact (proj1 (proj1 start_only_assigned_own_task no_fault 60000
                    (jwt "S" role_employee) "T" (world (holding 0 0)) N)).
Defined.

(** [POST /api/tasks/:id/fail].  When no row with the id is assigned to
    the caller in status [assigned] or [in_progress], the request ends in
    an error (the 404 when no call rejects) and the world is unchanged,
    whatever calls reject.  When there is such a row and no call rejects,
    the request succeeds: every row with the id is back in the queue,
    without assignment, with [retry_count] one higher and the reason (or
    "No reason provided") appended to the notes after "[FAILED] " on a
    new line; the caller's rows are [available] without current task,
    with their counters untouched; nothing else changes in the two
    tables. *)
Theorem fail_requeues_and_frees :
  (forall fails user id reason w,
     (forall t, In t (Gateway.ats_tasks (Gateway.db w)) ->
                Gateway.task_id t = id ->
                Gateway.task_assigned_to t = Some (Gateway.userId user) ->
                held (Gateway.task_status t) = false) ->
     fst (Gateway.fail fails user id reason w) = w /\
     (exists err, snd (Gateway.fail fails user id reason w) = inl err) /\
     snd (Gateway.fail no_fault user id reason w)
     = inl (AppError "Task not found or not assigned to you" 404))
  /\
  (forall user reason w t,
     In t (Gateway.ats_tasks (Gateway.db w)) ->
     Gateway.task_assigned_to t = Some (Gateway.userId user) ->
     held (Gateway.task_status t) = true ->
     let run := Gateway.fail no_fault user (Gateway.task_id t) reason w in
     snd run = inr "Task marked as failed and re-queued" /\
     Forall2
       (fun old new =>
          if String.eqb (Gateway.task_id old) (Gateway.task_id t)
          then Gateway.task_id new = Gateway.task_id old /\
               Gateway.task_status new = queued /\
               Gateway.task_assigned_to new = None /\
               Gateway.task_assigned_at new = None /\
               Gateway.task_due_at new = None /\
               Gateway.task_started_at new = None /\
               Gateway.task_retry_count new
               = Gateway.task_retry_count old + 1 /\
               Gateway.task_created_at new = Gateway.task_created_at old /\
               Gateway.task_notes new
               = Some (match Gateway.task_notes old with
                       | Some n => n
                       | None => ""
                       end ++ Gateway.line_feed ++ "[FAILED] "
                       ++ match reason with
                          | Some r => if String.eqb r ""
                                      then "No reason provided" else r
                          | None => "No reason provided"
                          end)
          else new = old)
       (Gateway.ats_tasks (Gateway.db w))
       (Gateway.ats_tasks (Gateway.db (fst run))) /\
     Forall2
       (fun old new =>
          if String.eqb (Gateway.emp_id old) (Gateway.userId user)
          then Gateway.emp_id new = Gateway.emp_id old /\
               Gateway.emp_status new = available /\
               Gateway.emp_current_task_id new = None /\
               Gateway.emp_warnings new = Gateway.emp_warnings old /\
               Gateway.emp_violations new = Gateway.emp_violations old /\
               Gateway.emp_tasks_completed new
               = Gateway.emp_tasks_completed old
          else new = old)
       (Gateway.employees (Gateway.db w))
       (Gateway.employees (Gateway.db (fst run)))).
Proof.
  split.
  - intros fails user id reason w Hnone.
    assert (E : Sql.select_where
                  (Gateway.held_by_caller id (Gateway.userId user))
                  (Gateway.ats_tasks (Gateway.db w)) = []).
    { apply select_none. intros t Ht.
      unfold Gateway.held_by_caller.
      destruct (String.eqb_spec (Gateway.task_id t) id) as [Eid|];
        [|reflexivity].
      unfold is_uuid.
      destruct (Gateway.task_assigned_to t) as [a|] eqn:Ea; [|reflexivity].
      destruct (String.eqb_spec a (Gateway.userId user)) as [->|];
        [|reflexivity].
      now rewrite (Hnone t Ht Eid Ea). }
    unfold Gateway.fail, bind, Gateway.query, await, throw, no_fault.
    rewrite E.
    destruct (fails "fail: SELECT ats_tasks"); simpl; eauto.
  - intros user reason w t Ht Ha Hh run. subst run.
    destruct (select_some
                (Gateway.held_by_caller (Gateway.task_id t)
                                        (Gateway.userId user))
                _ t Ht) as (y & rest & E).
    { unfold Gateway.held_by_caller, is_uuid.
      now rewrite Ha, Hh, !String.eqb_refl. }
    unfold Gateway.fail, bind, Gateway.query, Gateway.execute,
      await, ret, no_fault.
    rewrite E. simpl.
    split; [reflexivity|]. split.
    + eapply Forall2_weaken; [|apply update_where_Forall2].
      intros old new _ ->.
      destruct (String.eqb (Gateway.task_id old) (Gateway.task_id t));
        simpl; repeat split.
    + eapply Forall2_weaken; [|apply update_where_Forall2].
      intros old new _ ->.
      destruct (String.eqb (Gateway.emp_id old) (Gateway.userId user));
        simpl; repeat split.
Qed.

Lemma fail_requeues_and_frees_witness :
  In held_task (Gateway.ats_tasks (Gateway.db (world (holding 0 0)))) /\
  Gateway.task_assigned_to held_task
  = Some (Gateway.userId (jwt "R" role_employee)) /\
  held (Gateway.task_status held_task) = true /\
  snd (Gateway.fail no_fault (jwt "R" role_employee) "T" None
         (world (holding 0 0)))
  = inr "Task marked as failed and re-queued".
Proof.
  assert (I : In held_task
                 (Gateway.ats_tasks (Gateway.db (world (holding 0 0)))))
    by (left; reflexivity).
  split; [exact I|]. split; [reflexivity|]. split; [reflexivity|].
  exact (proj1 (proj2 fail_requeues_and_frees (jwt "R" role_employee) None
                  (world (holding 0 0)) held_task I eq_refl eq_refl)).
Defined.

End StartAndFail.

(** ** What a task's holder can do once the task is completed or has
    expired *)

Section AfterTheFact.
Import Model Steps Samples.

Lemma flat_map_nil {A B} (f : A -> list B) (l : list A) :
  (forall x, In x l -> f x = []) -> flat_map f l = [].
Proof.
  induction l as [|x l IH]; simpl; intro H; [reflexivity|].
  rewrite (H x (or_introl eq_refl)). simpl. apply IH.
  intros y Hy. apply H. now right.
Qed.

(** Under a primary key, a row is known by its key. *)
Lemma same_key_same_row {Row} (key : Row -> string) (t : list Row) x y :
  NoDup (map key t) -> In x t -> In y t -> key x = key y -> x = y.
Proof.
  induction t as [|r t IH]; simpl; intros N Hx Hy E; [contradiction|].
  inversion N as [|? ? Nr Nt]; subst.
  destruct Hx as [-> | Hx], Hy as [-> | Hy].
  - reflexivity.
  - exfalso. apply Nr. rewrite E. now apply in_map.
  - exfalso. apply Nr. rewrite <- E. now apply in_map.
  - now apply IH.
Qed.

(** A completed task can be reopened over the socket, not over REST.
    Let the caller hold task [task] (in status assigned or in_progress,
    over a task table with a primary key, the candidate being a row) and
    complete it at [now1]; no call rejects.  Then [POST
    /api/tasks/:id/start] for it is answered with the 404 and changes
    nothing, but a TASK_STARTED message of the caller for it puts its row
    back to [in_progress], with [started_at = now2], while the row keeps
    the [completed_at] and the resume URL of the completion. *)
Theorem socket_reopens_completed_task :
  forall now1 now2 user file notes stored w task,
    In task (Gateway.ats_tasks (Gateway.db w)) ->
    NoDup (map Gateway.task_id (Gateway.ats_tasks (Gateway.db w))) ->
    Gateway.task_assigned_to task = Some (Gateway.userId user) ->
    held (Gateway.task_status task) = true ->
    (exists c, In c (Gateway.candidates (Gateway.db w)) /\
               Gateway.cand_id c = Gateway.task_candidate_id task) ->
    let done :=
      fst (Gateway.complete no_fault now1 user (Gateway.task_id task)
             (Some file) notes stored w) in
    let rest := Gateway.start no_fault now2 user (Gateway.task_id task)
                  done in
    let socket :=
      Gateway.handleMessage no_fault now2 user
        {| Gateway.msg_type := "TASK_STARTED";
           Gateway.msg_status := None;
           Gateway.msg_taskId := Some (Gateway.task_id task) |} done in
    snd rest = inl (AppError "Task not found or not assigned to you" 404) /\
    fst rest = done /\
    snd socket = inr tt /\
    (exists t', In t' (Gateway.ats_tasks (Gateway.db (fst socket))) /\
                Gateway.task_id t' = Gateway.task_id task) /\
    forall t', In t' (Gateway.ats_tasks (Gateway.db (fst socket))) ->
               Gateway.task_id t' = Gateway.task_id task ->
               Gateway.task_status t' = in_progress /\
               Gateway.task_started_at t' = Some now2 /\
               Gateway.task_completed_at t' = Some now1 /\
               Gateway.task_new_resume_url t' = Some stored.
Proof.
  intros now1 now2 user file notes stored w task Hin Hkey Ha Hh Hc
         done rest socket.
  destruct (held_by_owned _ _ _ Hin Hkey Ha Hh Hc) as (others & Hheld).
  assert (Etasks :
    Gateway.ats_tasks (Gateway.db done)
    = Sql.update_where
        (fun t => String.eqb (Gateway.task_id t) (Gateway.task_id task))
        (Gateway.completed_with stored notes now1)
        (Gateway.ats_tasks (Gateway.db w))).
  { subst done.
    rewrite (complete_all_writes now1 user _ file notes stored w task
               others Hheld). simpl.
    destruct (Sql.select_where _ (Gateway.jobs (Gateway.db w)));
      reflexivity. }
  assert (Rows : forall x,
    In x (Gateway.ats_tasks (Gateway.db done)) ->
    Gateway.task_id x = Gateway.task_id task ->
    x = Gateway.completed_with stored notes now1 task).
  { intros x Hx Hid. rewrite Etasks in Hx.
    apply update_where_In in Hx. destruct Hx as (x0 & Hx0 & ->).
    destruct (String.eqb_spec (Gateway.task_id x0) (Gateway.task_id task))
      as [E | N].
    - now rewrite (same_key_same_row Gateway.task_id _ x0 task Hkey Hx0 Hin E).
    - contradiction. }
  assert (Here : In (Gateway.completed_with stored notes now1 task)
                    (Gateway.ats_tasks (Gateway.db done))).
  { rewrite Etasks. apply update_where_In. exists task.
    split; [exact Hin|]. now rewrite String.eqb_refl. }
  assert (Estart : Sql.select_where
                     (Gateway.assigned_to_caller (Gateway.task_id task)
                                                 (Gateway.userId user))
                     (Gateway.ats_tasks (Gateway.db done)) = []).
  { apply select_none. intros x Hx.
    unfold Gateway.assigned_to_caller.
    destruct (String.eqb_spec (Gateway.task_id x) (Gateway.task_id task))
      as [E | N]; [|reflexivity].
    rewrite (Rows x Hx E). simpl. apply andb_false_r. }
  split; [|split; [|split; [|split]]].
  - subst rest. unfold Gateway.start, bind, Gateway.query, await, throw,
      no_fault. now rewrite Estart.
  - subst rest. unfold Gateway.start, bind, Gateway.query, await, throw,
      no_fault. now rewrite Estart.
  - reflexivity.
  - exists (Gateway.start_now now2
              (Gateway.completed_with stored notes now1 task)).
    split; [|reflexivity].
    subst socket. simpl. apply update_where_In.
    exists (Gateway.completed_with stored notes now1 task).
    split; [exact Here|]. simpl.
    rewrite String.eqb_refl, Ha. simpl. now rewrite String.eqb_refl.
  - intros t' Ht' Hid. subst socket. simpl in Ht'.
    apply update_where_In in Ht'. destruct Ht' as (x & Hx & ->).
    assert (Ex : Gateway.task_id x = Gateway.task_id task).
    { destruct (String.eqb (Gateway.task_id x) (Gateway.task_id task)
                && is_uuid (Gateway.task_assigned_to x)
                           (Gateway.userId user)); exact Hid. }
    rewrite (Rows x Hx Ex). simpl.
    rewrite String.eqb_refl, Ha. simpl. rewrite String.eqb_refl.
    simpl. repeat split.
Qed.

Lemma socket_reopens_completed_task_witness :
  In held_task (Gateway.ats_tasks (Gateway.db (world (holding 0 0)))) /\
  NoDup (map Gateway.task_id
             (Gateway.ats_tasks (Gateway.db (world (holding 0 0))))) /\
  Gateway.task_assigned_to held_task
  = Some (Gateway.userId (jwt "R" role_employee)) /\
  held (Gateway.task_status held_task) = true /\
  (exists c, In c (Gateway.candidates (Gateway.db (world (holding 0 0)))) /\
             Gateway.cand_id c = Gateway.task_candidate_id held_task) /\
  forall t',
    In t' (Gateway.ats_tasks
             (Gateway.db
                (fst (Gateway.handleMessage no_fault 700000
                        (jwt "R" role_employee)
                        {| Gateway.msg_type := "TASK_STARTED";
                           Gateway.msg_status := None;
                           Gateway.msg_taskId := Some "T" |}
                        (fst (submission no_fault)))))) ->
    Gateway.task_id t' = "T" ->
    Gateway.task_status t' = in_progress /\
    Gateway.task_completed_at t' = Some 600000.
Proof.
  assert (I : In held_task
                 (Gateway.ats_tasks (Gateway.db (world (holding 0 0)))))
    by (left; reflexivity).
  assert (N : NoDup (map Gateway.task_id
                       (Gateway.ats_tasks (Gateway.db (world (holding 0 0))))))
    by (simpl; constructor; [intros [] | constructor]).
  assert (C : exists c,
            In c (Gateway.candidates (Gateway.db (world (holding 0 0)))) /\
            Gateway.cand_id c = Gateway.task_candidate_id held_task)
    by (eexists; split; [left; reflexivity | reflexivity]).
  split; [exact I|]. split; [exact N|]. split; [reflexivity|].
  split; [reflexivity|]. split; [exact C|].
  intros t' Ht' Hid.
  destruct (socket_reopens_completed_task (10 * 60 * 1000) 700000
              (jwt "R" role_employee) "resume.pdf" None "u2"
              (world (holding 0 0)) held_task I N eq_refl eq_refl C)
    as (_ & _ & _ & _ & K).
  destruct (K t' Ht' Hid) as (Hs & _ & Hc & _). split; assumption.
Defined.

End AfterTheFact.

Section LateAnswers.
Import Model Steps Samples.

Lemma unassigned_not_found id uid s :
  (forall x, In x (Gateway.ats_tasks s) -> Gateway.task_id x = id ->
             Gateway.task_assigned_to x = None) ->
  Gateway.held_by id uid s = [] /\
  Sql.select_where (Gateway.held_by_caller id uid) (Gateway.ats_tasks s) = []
  /\
  Sql.select_where (Gateway.assigned_to_caller id uid) (Gateway.ats_tasks s)
  = [].
Proof.
  intro H. split; [|split].
  - unfold Gateway.held_by. apply flat_map_nil. intros x Hx.
    destruct (String.eqb_spec (Gateway.task_id x) id) as [E|];
      [|reflexivity].
    now rewrite (H x Hx E).
  - apply select_none. intros x Hx. unfold Gateway.held_by_caller.
    destruct (String.eqb_spec (Gateway.task_id x) id) as [E|];
      [|reflexivity].
    now rewrite (H x Hx E).
  - apply select_none. intros x Hx. unfold Gateway.assigned_to_caller.
    destruct (String.eqb_spec (Gateway.task_id x) id) as [E|];
      [|reflexivity].
    now rewrite (H x Hx E).
Qed.

(** Once a task has expired, nobody can start, complete or fail it until
    it is assigned again.  Let task [t], held by [e], be overdue at
    [now], and let [handleTimeout] requeue it (no call rejecting).  Then,
    for every caller and whatever calls reject, the start, complete and
    fail requests for the task end in an error and leave the world
    unchanged; the error is the 404 when no call rejects and a file is
    uploaded. *)
Theorem expired_task_answers_404 :
  forall now s p t e due,
    In (Gateway.overdue_row t e due) (Gateway.overdue_tasks now s) ->
    let expired :=
      fst (Gateway.handleTimeout no_fault (Gateway.overdue_row t e due)
             {| Gateway.db := s; Gateway.published := p |}) in
    forall fails now' user file notes stored reason,
      let completing :=
        Gateway.complete fails now' user (Gateway.task_id t) file notes
          stored expired in
      let failing :=
        Gateway.fail fails user (Gateway.task_id t) reason expired in
      let starting :=
        Gateway.start fails now' user (Gateway.task_id t) expired in
      (fst completing = expired /\ exists err, snd completing = inl err) /\
      (fst failing = expired /\ exists err, snd failing = inl err) /\
      (fst starting = expired /\ exists err, snd starting = inl err) /\
      ((forall step, fails step = false) ->
       (file <> None ->
        snd completing
        = inl (AppError "Task not found or not assigned to you" 404)) /\
       snd failing
       = inl (AppError "Task not found or not assigned to you" 404) /\
       snd starting
       = inl (AppError "Task not found or not assigned to you" 404)).
Proof.
  intros now s p t e due _ expired fails now' user file notes stored reason
         completing failing starting.
  assert (Gone : forall x,
            In x (Gateway.ats_tasks (Gateway.db expired)) ->
            Gateway.task_id x = Gateway.task_id t ->
            Gateway.task_assigned_to x = None).
  { intros x Hx Hid. subst expired. rewrite handleTimeout_db in Hx.
    simpl in Hx. apply update_where_In in Hx.
    destruct Hx as (x0 & _ & ->).
    destruct (String.eqb_spec (Gateway.task_id x0) (Gateway.task_id t));
      [reflexivity | contradiction]. }
  destruct (unassigned_not_found _ (Gateway.userId user) _ Gone)
    as (Ec & Ef & Es).
  subst completing failing starting.
  unfold Gateway.fail, Gateway.start, bind, Gateway.query, await, throw.
  rewrite Ef, Es.
  split; [|split; [|split]].
  - apply complete_rejected_early. destruct file; auto.
  - destruct (fails "fail: SELECT ats_tasks"); simpl; eauto.
  - destruct (fails "start: SELECT ats_tasks"); simpl; eauto.
  - intro Hnone. rewrite !Hnone. repeat split.
    intro Hfile. destruct file as [f|]; [|congruence].
    unfold Gateway.complete, bind, Gateway.query, await, throw.
    rewrite Hnone, Ec. reflexivity.
Qed.

Lemma expired_task_answers_404_witness :
  In (Gateway.overdue_row held_task (holder 0 0) sla)
     (Gateway.overdue_tasks late (holding 0 0)) /\
  snd (Gateway.complete no_fault (late + 1000) (jwt "R" role_employee) "T"
         (Some "resume.pdf") None "u2"
         (fst (Gateway.handleTimeout no_fault
                 (Gateway.overdue_row held_task (holder 0 0) sla)
                 (world (holding 0 0)))))
  = inl (AppError "Task not found or not assigned to you" 404).
Proof.
  assert (G : In (Gateway.overdue_row held_task (holder 0 0) sla)
                 (Gateway.overdue_tasks late (holding 0 0)))
    by (simpl; left; reflexivity).
  split; [exact G|].
  destruct (expired_task_answers_404 late (holding 0 0) [] held_task
              (holder 0 0) sla G no_fault (late + 1000)
              (jwt "R" role_employee) (Some "resume.pdf") None "u2" None)
    as (_ & _ & _ & K).
  destruct (K (fun _ => eq_refl)) as (Kc & _).
  apply Kc. discriminate.
Defined.

End LateAnswers.

(** ** Completion time, running average and applications *)

Section Accounting.
Import Model Steps Samples.

(** The truncated mean of [n] values averaging [a] and one more value
    [s] lies between [a] and [s]. *)
Lemma mean_between (a s n : Z) :
  0 < n -> Z.min a s <= Z.quot (a * n + s) (n + 1) <= Z.max a s.
Proof.
  intro Hn.
  pose proof (Z.quot_rem' (a * n + s) (n + 1)) as E.
  set (q := Z.quot (a * n + s) (n + 1)) in *.
  set (r := Z.rem (a * n + s) (n + 1)) in *.
  assert (B : - (n + 1) < r < n + 1).
  { subst r.
    pose proof (Z.rem_bound_abs (a * n + s) (n + 1) ltac:(lia)). lia. }
  assert (L : forall m, m <= a -> m <= s -> m <= q).
  { intros m Ha Hs.
    assert ((n + 1) * m < (n + 1) * (q + 1)) by nia. nia. }
  assert (U : forall m, a <= m -> s <= m -> q <= m).
  { intros m Ha Hs.
    assert ((n + 1) * (q - 1) < (n + 1) * m) by nia. nia. }
  split.
  - apply L; lia.
  - apply U; lia.
Qed.

(** The completion time and the running average of a completion.  Let
    the caller hold task [task] and complete it at [now]; no call
    rejects.  The completion time reported is the number of whole seconds
    since the assignment, when the task carries an assignment time that
    is not in the future.  On the caller's rows the new average is that
    completion time when no task had been completed before, and
    otherwise lies between the old average and the completion time. *)
Theorem completion_time_and_average :
  forall now user file notes stored w task,
    In task (Gateway.ats_tasks (Gateway.db w)) ->
    NoDup (map Gateway.task_id (Gateway.ats_tasks (Gateway.db w))) ->
    Gateway.task_assigned_to task = Some (Gateway.userId user) ->
    held (Gateway.task_status task) = true ->
    (exists c, In c (Gateway.candidates (Gateway.db w)) /\
               Gateway.cand_id c = Gateway.task_candidate_id task) ->
    let run := Gateway.complete no_fault now user (Gateway.task_id task)
                 (Some file) notes stored w in
    exists secs,
      (exists message url,
         snd run = inr {| Gateway.res_message := message;
                          Gateway.res_newResumeUrl := url;
                          Gateway.res_completionTimeSeconds := secs |}) /\
      (forall a, Gateway.task_assigned_at task = Some a -> a <= now ->
                 0 <= secs /\
                 1000 * secs <= now - a < 1000 * (secs + 1)) /\
      Forall2
        (fun old new =>
           if String.eqb (Gateway.emp_id old) (Gateway.userId user)
           then (Gateway.emp_tasks_completed old = 0 ->
                 Gateway.emp_average_completion_time_seconds new = secs) /\
                (0 < Gateway.emp_tasks_completed old ->
                 Z.min (Gateway.emp_average_completion_time_seconds old) secs
                 <= Gateway.emp_average_completion_time_seconds new
                 <= Z.max (Gateway.emp_average_completion_time_seconds old)
                          secs)
           else new = old)
        (Gateway.employees (Gateway.db w))
        (Gateway.employees (Gateway.db (fst run))).
Proof.
  intros now user file notes stored w task Hin Hkey Ha Hh Hc run.
  destruct (held_by_owned _ _ _ Hin Hkey Ha Hh Hc) as (rest & Hheld).
  subst run.
  rewrite (complete_all_writes now user _ file notes stored w task rest Hheld).
  exists (Gateway.completion_seconds now task). cbn [fst snd].
  split; [eauto|]. split.
  - intros a Ea Hle. unfold Gateway.completion_seconds. rewrite Ea.
    pose proof (Z.div_mod (now - a) 1000 ltac:(lia)) as D.
    pose proof (Z.mod_pos_bound (now - a) 1000 ltac:(lia)) as B.
    assert (0 <= (now - a) / 1000) by (apply Z.div_pos; lia).
    lia.
  - assert (E : Gateway.employees
                  ((match Sql.select_where
                            (fun j => String.eqb (Gateway.job_id j)
                                                 (Gateway.task_job_id task))
                            (Gateway.jobs (Gateway.db w)) with
                    | [] => fun s => s
                    | _ :: _ =>
                        Gateway.write_application task (Gateway.task_id task)
                          stored now
                    end)
                     (Gateway.write_employee (Gateway.userId user)
                        (Gateway.completion_seconds now task)
                        (Gateway.write_candidate task stored
                           (Gateway.write_task (Gateway.task_id task) stored
                              notes now (Gateway.db w)))))
                = Sql.update_where
                    (fun e => String.eqb (Gateway.emp_id e)
                                         (Gateway.userId user))
                    (Gateway.credited (Gateway.completion_seconds now task))
                    (Gateway.employees (Gateway.db w)))
      by (destruct (Sql.select_where _ (Gateway.jobs (Gateway.db w)));
          reflexivity).
    cbn [Gateway.db]. rewrite E.
    eapply Forall2_weaken; [|apply update_where_Forall2].
    intros old new _ ->.
    destruct (String.eqb (Gateway.emp_id old) (Gateway.userId user));
      [|reflexivity].
    simpl. split; intro G.
    + rewrite G. reflexivity.
    + destruct (Z.eqb_spec (Gateway.emp_tasks_completed old) 0); [lia|].
      now apply mean_between.
Qed.

Lemma completion_time_and_average_witness :
  In held_task (Gateway.ats_tasks (Gateway.db (world (holding 0 0)))) /\
  NoDup (map Gateway.task_id
             (Gateway.ats_tasks (Gateway.db (world (holding 0 0))))) /\
  Gateway.task_assigned_to held_task
  = Some (Gateway.userId (jwt "R" role_employee)) /\
  held (Gateway.task_status held_task) = true /\
  (exists c, In c (Gateway.candidates (Gateway.db (world (holding 0 0)))) /\
             Gateway.cand_id c = Gateway.task_candidate_id held_task) /\
  exists secs message url,
    snd (submission no_fault)
    = inr {| Gateway.res_message := message;
             Gateway.res_newResumeUrl := url;
             Gateway.res_completionTimeSeconds := secs |}.
Proof.
  assert (I : In held_task
                 (Gateway.ats_tasks (Gateway.db (world (holding 0 0)))))
    by (left; reflexivity).
  assert (N : NoDup (map Gateway.task_id
                       (Gateway.ats_tasks (Gateway.db (world (holding 0 0))))))
    by (simpl; constructor; [intros [] | constructor]).
  assert (C : exists c,
            In c (Gateway.candidates (Gateway.db (world (holding 0 0)))) /\
            Gateway.cand_id c = Gateway.task_candidate_id held_task)
    by (eexists; split; [left; reflexivity | reflexivity]).
  split; [exact I|]. split; [exact N|]. split; [reflexivity|].
  split; [reflexivity|]. split; [exact C|].
  destruct (completion_time_and_average (10 * 60 * 1000)
              (jwt "R" role_employee) "resume.pdf" None "u2"
              (world (holding 0 0)) held_task I N eq_refl eq_refl C)
    as (secs & (message & url & E) & _).
  exists secs, message, url. exact E.
Defined.

End Accounting.

Section Applications.
Import Model Steps Samples.

Lemma same_application_iff c j a :
  Gateway.same_application c j a = true <->
  (Gateway.app_candidate_id a, Gateway.app_job_id a) = (c, j).
Proof.
  unfold Gateway.same_application.
  rewrite andb_true_iff, !String.eqb_eq. split.
  - intros [-> ->]. reflexivity.
  - intro E. now injection E.
Qed.

Lemma no_application_no_key c j t :
  existsb (Gateway.same_application c j) t = false ->
  ~ In (c, j)
       (map (fun a => (Gateway.app_candidate_id a, Gateway.app_job_id a)) t).
Proof.
  intros E H. apply in_map_iff in H. destruct H as (a & Ea & Ha).
  assert (X : existsb (Gateway.same_application c j) t = true).
  { apply existsb_exists. exists a. split; [exact Ha|].
    now apply same_application_iff. }
  congruence.
Qed.

Lemma NoDup_snoc {A} (l : list A) x :
  NoDup l -> ~ In x l -> NoDup (l ++ [x]).
Proof.
  intros N H. apply NoDup_app; [exact N | constructor; [intros [] | constructor] |].
  intros y Hy [<- | []]. contradiction.
Qed.

Lemma upsert_application_unique task id url now t :
  NoDup (map (fun a => (Gateway.app_candidate_id a, Gateway.app_job_id a)) t)
  ->
  NoDup (map (fun a => (Gateway.app_candidate_id a, Gateway.app_job_id a))
             (Gateway.upsert_application task id url now t)).
Proof.
  intro N. unfold Gateway.upsert_application.
  destruct (existsb _ t) eqn:E.
  - assert (K : map (fun a => (Gateway.app_candidate_id a,
                               Gateway.app_job_id a))
                    (Sql.update_where
                       (Gateway.same_application
                          (Gateway.task_candidate_id task)
                          (Gateway.task_job_id task))
                       (Gateway.resubmitted url now) t)
                = map (fun a => (Gateway.app_candidate_id a,
                                 Gateway.app_job_id a)) t).
    { unfold Sql.update_where. rewrite map_map. apply map_ext.
      intro a. now destruct (Gateway.same_application _ _ a). }
    now rewrite K.
  - unfold Sql.insert_into. rewrite map_app. simpl.
    apply NoDup_snoc; [exact N|]. now apply no_application_no_key.
Qed.

(** The table of applications keeps at most one row per candidate and
    job.  If it has at most one before, it has at most one after
    [POST /api/tasks/:id/complete] and after [autoSubmitApplication],
    successful or not and whatever calls reject. *)
Theorem applications_stay_unique :
  (forall fails now user id file notes stored w,
     NoDup (map (fun a => (Gateway.app_candidate_id a,
                           Gateway.app_job_id a))
                (Gateway.applications (Gateway.db w))) ->
     NoDup (map (fun a => (Gateway.app_candidate_id a,
                           Gateway.app_job_id a))
                (Gateway.applications
                   (Gateway.db (fst (Gateway.complete fails now user id
                                       file notes stored w))))))
  /\
  (forall fails now candidateId jobId atsScore w,
     NoDup (map (fun a => (Gateway.app_candidate_id a,
                           Gateway.app_job_id a))
                (Gateway.applications (Gateway.db w))) ->
     NoDup (map (fun a => (Gateway.app_candidate_id a,
                           Gateway.app_job_id a))
                (Gateway.applications
                   (Gateway.db (fst (Gateway.autoSubmitApplication fails now
                                       candidateId jobId atsScore w)))))).
Proof.
  split.
  - intros fails now user id file notes stored w N.
    destruct file as [f|].
    2:{ now rewrite (proj1 (complete_rejected_early fails now user id None
                              notes stored w (or_introl eq_refl))). }
    destruct (Gateway.held_by id (Gateway.userId user) (Gateway.db w))
      as [|task rest] eqn:Eh.
    { now rewrite (proj1 (complete_rejected_early fails now user id (Some f)
                            notes stored w (or_intror (or_introl Eh)))). }
    destruct (complete_prefix fails now user id f notes stored w task rest Eh)
      as [-> | [-> | [-> | [-> | ->]]]]; try exact N.
    simpl. now apply upsert_application_unique.
  - intros fails now candidateId jobId atsScore w N.
    unfold Gateway.autoSubmitApplication, bind, Gateway.query,
      Gateway.execute, Gateway.execute_checked, await, throw.
    destruct (fails "autoSubmitApplication: SELECT candidates");
      [exact N|].
    destruct (Sql.decimal_5_2 atsScore) as [score|]; [|exact N].
    destruct (fails "autoSubmitApplication: INSERT INTO applications");
      [exact N|].
    cbn [Gateway.db].
    destruct (existsb (Gateway.same_application candidateId jobId)
                      (Gateway.applications (Gateway.db w))) eqn:E.
    + simpl.
      destruct (fails "autoSubmitApplication: UPDATE candidates");
        [simpl; now rewrite E|].
      destruct (fails "autoSubmitApplication: UPDATE jobs");
        simpl; now rewrite E.
    + simpl.
      destruct (existsb _ (Gateway.candidates (Gateway.db w)) && _);
        [|exact N].
      assert (K : NoDup
                    (map (fun a => (Gateway.app_candidate_id a,
                                    Gateway.app_job_id a))
                         (Sql.insert_into
                            {| Gateway.app_candidate_id := candidateId;
                               Gateway.app_job_id := jobId;
                               Gateway.app_task_id := None;
                               Gateway.app_resume_used_url :=
                                 match
                                   Sql.select_where
                                     (fun c => String.eqb (Gateway.cand_id c)
                                                          candidateId)
                                     (Gateway.candidates (Gateway.db w))
                                 with
                                 | [] => None
                                 | c :: _ => Gateway.cand_resume_url c
                                 end;
                               Gateway.app_ats_score_at_submission := score;
                               Gateway.app_status := Gateway.submitted;
                               Gateway.app_auto_submitted := true;
                               Gateway.app_submitted_at := Some now |}
                            (Gateway.applications (Gateway.db w))))).
      { unfold Sql.insert_into. rewrite map_app. simpl.
        apply NoDup_snoc; [exact N|]. now apply no_application_no_key. }
      destruct (fails "autoSubmitApplication: UPDATE candidates");
        [simpl; rewrite E; exact K|].
      destruct (fails "autoSubmitApplication: UPDATE jobs");
        simpl; rewrite E; exact K.
Qed.

Lemma applications_stay_unique_witness :
  NoDup (map (fun a => (Gateway.app_candidate_id a, Gateway.app_job_id a))
             (Gateway.applications (Gateway.db (world (holding 0 0))))) /\
  NoDup (map (fun a => (Gateway.app_candidate_id a, Gateway.app_job_id a))
             (Gateway.applications (Gateway.db (fst (submission no_fault))))).
Proof.
  assert (N : NoDup (map (fun a => (Gateway.app_candidate_id a,
                                    Gateway.app_job_id a))
                         (Gateway.applications
                            (Gateway.db (world (holding 0 0))))))
    by constructor.
  split; [exact N|].
  exact (proj1 applications_stay_unique no_fault (10 * 60 * 1000)
           (jwt "R" role_employee) "T" (Some "resume.pdf") None "u2"
           (world (holding 0 0)) N).
Defined.

End Applications.

Section AutoSubmit.
Import Model Steps Samples.

(** [autoSubmitApplication] counts an application even when it files
    none.  When no call rejects and the score fits the column
    [DECIMAL(5,2)]: if an application for the candidate and the job
    exists already, the table of applications is left as it is, and
    still the candidate's [total_applications] and the job's
    [application_count] go up by one; if none exists and the candidate
    and the job are rows, exactly one application is appended, marked
    submitted and auto-submitted, with the score rounded to two
    decimals, and the two counters go up by one.  If none exists and the
    candidate or the job is missing, or if the score does not fit the
    column, the INSERT is rejected and the world is unchanged. *)
Theorem auto_submit_counts :
  (forall now candidateId jobId atsScore w,
     existsb (Gateway.same_application candidateId jobId)
             (Gateway.applications (Gateway.db w)) = true ->
     Z.abs (Sql.hundredths atsScore) < 100000 ->
     let run := Gateway.autoSubmitApplication no_fault now candidateId jobId
                  atsScore w in
     snd run = inr tt /\
     Gateway.applications (Gateway.db (fst run))
     = Gateway.applications (Gateway.db w) /\
     Forall2
       (fun old new =>
          if String.eqb (Gateway.cand_id old) candidateId
          then Gateway.cand_total_applications new
               = Gateway.cand_total_applications old + 1 /\
               Gateway.cand_id new = Gateway.cand_id old /\
               Gateway.cand_resume_url new = Gateway.cand_resume_url old
          else new = old)
       (Gateway.candidates (Gateway.db w))
       (Gateway.candidates (Gateway.db (fst run))) /\
     Forall2
       (fun old new =>
          if String.eqb (Gateway.job_id old) jobId
          then Gateway.job_application_count new
               = Gateway.job_application_count old + 1 /\
               Gateway.job_id new = Gateway.job_id old
          else new = old)
       (Gateway.jobs (Gateway.db w)) (Gateway.jobs (Gateway.db (fst run))))
  /\
  (forall now candidateId jobId atsScore w,
     existsb (Gateway.same_application candidateId jobId)
             (Gateway.applications (Gateway.db w)) = false ->
     (exists c, In c (Gateway.candidates (Gateway.db w)) /\
                Gateway.cand_id c = candidateId) ->
     (exists j, In j (Gateway.jobs (Gateway.db w)) /\
                Gateway.job_id j = jobId) ->
     Z.abs (Sql.hundredths atsScore) < 100000 ->
     let run := Gateway.autoSubmitApplication no_fault now candidateId jobId
                  atsScore w in
     snd run = inr tt /\
     (exists a,
        Gateway.applications (Gateway.db (fst run))
        = (Gateway.applications (Gateway.db w) ++ [a])%list /\
        Gateway.app_candidate_id a = candidateId /\
        Gateway.app_job_id a = jobId /\
        Gateway.app_status a = Gateway.submitted /\
        Gateway.app_auto_submitted a = true /\
        Gateway.app_ats_score_at_submission a
        = Sql.hundredths atsScore # 100 /\
        Gateway.app_submitted_at a = Some now /\
        Gateway.app_task_id a = None) /\
     Forall2
       (fun old new =>
          if String.eqb (Gateway.cand_id old) candidateId
          then Gateway.cand_total_applications new
               = Gateway.cand_total_applications old + 1
          else new = old)
       (Gateway.candidates (Gateway.db w))
       (Gateway.candidates (Gateway.db (fst run))) /\
     Forall2
       (fun old new =>
          if String.eqb (Gateway.job_id old) jobId
          then Gateway.job_application_count new
               = Gateway.job_application_count old + 1
          else new = old)
       (Gateway.jobs (Gateway.db w)) (Gateway.jobs (Gateway.db (fst run))))
  /\
  (forall now candidateId jobId atsScore w,
     existsb (Gateway.same_application candidateId jobId)
             (Gateway.applications (Gateway.db w)) = false ->
     (forall c, In c (Gateway.candidates (Gateway.db w)) ->
                Gateway.cand_id c <> candidateId) \/
     (forall j, In j (Gateway.jobs (Gateway.db w)) ->
                Gateway.job_id j <> jobId) ->
     Gateway.autoSubmitApplication no_fault now candidateId jobId atsScore w
     = (w, inl (Rejected "autoSubmitApplication: INSERT INTO applications")))
  /\
  (forall now candidateId jobId atsScore w,
     100000 <= Z.abs (Sql.hundredths atsScore) ->
     Gateway.autoSubmitApplication no_fault now candidateId jobId atsScore w
     = (w, inl (Rejected "autoSubmitApplication: INSERT INTO applications"))).
Proof.
  split; [|split; [|split]].
  - intros now candidateId jobId atsScore w E Hfits run. subst run.
    apply Z.ltb_lt in Hfits.
    unfold Gateway.autoSubmitApplication, bind, Gateway.query,
      Gateway.execute, Gateway.execute_checked, await, no_fault,
      Sql.decimal_5_2.
    rewrite Hfits. cbn [Gateway.db]. rewrite E. simpl. rewrite E.
    split; [reflexivity|]. split; [reflexivity|]. split.
    + eapply Forall2_weaken; [|apply update_where_Forall2].
      intros old new _ ->.
      destruct (String.eqb (Gateway.cand_id old) candidateId);
        simpl; repeat split.
    + eapply Forall2_weaken; [|apply update_where_Forall2].
      intros old new _ ->.
      destruct (String.eqb (Gateway.job_id old) jobId);
        simpl; repeat split.
  - intros now candidateId jobId atsScore w E (c & Hc & Ec) (j & Hj & Ej)
           Hfits run. subst run. apply Z.ltb_lt in Hfits.
    assert (R : existsb (fun c => String.eqb (Gateway.cand_id c) candidateId)
                        (Gateway.candidates (Gateway.db w))
                && existsb (fun j => String.eqb (Gateway.job_id j) jobId)
                           (Gateway.jobs (Gateway.db w)) = true).
    { apply andb_true_iff. split; apply existsb_exists.
      - exists c. split; [exact Hc|]. rewrite Ec. apply String.eqb_refl.
      - exists j. split; [exact Hj|]. rewrite Ej. apply String.eqb_refl. }
    unfold Gateway.autoSubmitApplication, bind, Gateway.query,
      Gateway.execute, Gateway.execute_checked, await, no_fault,
      Sql.decimal_5_2.
    rewrite Hfits. cbn [Gateway.db]. rewrite E, R. simpl. rewrite E.
    split; [reflexivity|]. split; [|split].
    + eexists. split; [reflexivity|]. simpl. repeat split.
    + eapply Forall2_weaken; [|apply update_where_Forall2].
      intros old new _ ->.
      destruct (String.eqb (Gateway.cand_id old) candidateId);
        simpl; repeat split.
    + eapply Forall2_weaken; [|apply update_where_Forall2].
      intros old new _ ->.
      destruct (String.eqb (Gateway.job_id old) jobId);
        simpl; repeat split.
  - intros now candidateId jobId atsScore w E Hmissing.
    assert (R : existsb (fun c => String.eqb (Gateway.cand_id c) candidateId)
                        (Gateway.candidates (Gateway.db w))
                && existsb (fun j => String.eqb (Gateway.job_id j) jobId)
                           (Gateway.jobs (Gateway.db w)) = false).
    { apply andb_false_iff. destruct Hmissing as [H | H]; [left | right].
      - destruct (existsb _ (Gateway.candidates (Gateway.db w))) eqn:X;
          [|reflexivity].
        apply existsb_exists in X. destruct X as (x & Hx & Ex).
        apply String.eqb_eq in Ex. exfalso. exact (H x Hx Ex).
      - destruct (existsb _ (Gateway.jobs (Gateway.db w))) eqn:X;
          [|reflexivity].
        apply existsb_exists in X. destruct X as (x & Hx & Ex).
        apply String.eqb_eq in Ex. exfalso. exact (H x Hx Ex). }
    unfold Gateway.autoSubmitApplication, bind, Gateway.query,
      Gateway.execute, Gateway.execute_checked, await, no_fault, throw.
    destruct (Sql.decimal_5_2 atsScore); [|reflexivity].
    cbn [Gateway.db]. rewrite E, R. reflexivity.
  - intros now candidateId jobId atsScore w Hover.
    unfold Gateway.autoSubmitApplication, bind, Gateway.query, await,
      no_fault, throw, Sql.decimal_5_2.
    destruct (Z.ltb_spec (Z.abs (Sql.hundredths atsScore)) 100000);
      [lia | reflexivity].
Qed.

Lemma auto_submit_counts_witness :
  existsb (Gateway.same_application "cand" "job")
          (Gateway.applications (Gateway.db (fst (submission no_fault))))
  = true /\
  Z.abs (Sql.hundredths (95 # 100)) < 100000 /\
  Gateway.applications
    (Gateway.db (fst (Gateway.autoSubmitApplication no_fault 700000
                        "cand" "job" (95 # 100)
                        (fst (submission no_fault)))))
  = Gateway.applications (Gateway.db (fst (submission no_fault))) /\
  Forall2
    (fun old new =>
       Gateway.cand_total_applications new
       = Gateway.cand_total_applications old + 1)
    (Gateway.candidates (Gateway.db (fst (submission no_fault))))
    (Gateway.candidates
       (Gateway.db (fst (Gateway.autoSubmitApplication no_fault 700000
                           "cand" "job" (95 # 100)
                           (fst (submission no_fault)))))).
Proof.
  assert (E : existsb (Gateway.same_application "cand" "job")
                (Gateway.applications
                   (Gateway.db (fst (submission no_fault)))) = true)
    by reflexivity.
  assert (F : Z.abs (Sql.hundredths (95 # 100)) < 100000) by reflexivity.
  split; [exact E|]. split; [exact F|].
  destruct (proj1 auto_submit_counts 700000 "cand" "job" (95 # 100)
              (fst (submission no_fault)) E F) as (_ & A & C & _).
  split; [exact A|].
  eapply Forall2_weaken; [|exact C].
  intros old new [<- | []]. simpl. tauto.
Defined.

End AutoSubmit.

(** ** The account lock and the admin routes *)

Section Lock.
Import Model Steps Samples.

(** The presence setters leave tasks and counters alone, whatever calls
    reject. *)
Lemma presence_keeps_violations fails now user status st w :
  let http := fst (Gateway.put_presence fails now user status w) in
  let socket := fst (Gateway.updatePresence fails now (Gateway.userId user)
                       st w) in
  (Gateway.ats_tasks (Gateway.db http) = Gateway.ats_tasks (Gateway.db w) /\
   forall e', In e' (Gateway.employees (Gateway.db http)) ->
              exists e, In e (Gateway.employees (Gateway.db w)) /\
                        Gateway.emp_id e' = Gateway.emp_id e /\
                        Gateway.emp_violations e' = Gateway.emp_violations e)
  /\
  (Gateway.ats_tasks (Gateway.db socket) = Gateway.ats_tasks (Gateway.db w) /\
   forall e', In e' (Gateway.employees (Gateway.db socket)) ->
              exists e, In e (Gateway.employees (Gateway.db w)) /\
                        Gateway.emp_id e' = Gateway.emp_id e /\
                        Gateway.emp_violations e' = Gateway.emp_violations e).
Proof.
  assert (Same : Gateway.ats_tasks (Gateway.db w)
                 = Gateway.ats_tasks (Gateway.db w) /\
                 forall e', In e' (Gateway.employees (Gateway.db w)) ->
                   exists e, In e (Gateway.employees (Gateway.db w)) /\
                             Gateway.emp_id e' = Gateway.emp_id e /\
                             Gateway.emp_violations e'
                             = Gateway.emp_violations e)
    by (split; [reflexivity | intros e' H; exists e'; auto]).
  assert (Set_ : forall s p,
    Gateway.ats_tasks
      (Gateway.db
         (Gateway.with_db
            (Gateway.with_employees
               (Sql.update_where
                  (fun e => String.eqb (Gateway.emp_id e)
                                       (Gateway.userId user))
                  (Gateway.present s now)))
            {| Gateway.db := Gateway.db w; Gateway.published := p |}))
    = Gateway.ats_tasks (Gateway.db w) /\
    forall e',
      In e' (Gateway.employees
               (Gateway.db
                  (Gateway.with_db
                     (Gateway.with_employees
                        (Sql.update_where
                           (fun e => String.eqb (Gateway.emp_id e)
                                                (Gateway.userId user))
                           (Gateway.present s now)))
                     {| Gateway.db := Gateway.db w;
                        Gateway.published := p |}))) ->
      exists e, In e (Gateway.employees (Gateway.db w)) /\
                Gateway.emp_id e' = Gateway.emp_id e /\
                Gateway.emp_violations e' = Gateway.emp_violations e).
  { intros s p. split; [reflexivity|]. simpl. intros e' H.
    apply update_where_In in H. destruct H as (e & He & ->).
    exists e. split; [exact He|].
    destruct (String.eqb (Gateway.emp_id e) (Gateway.userId user));
      simpl; auto. }
  destruct w as [s0 p0]. simpl in *. split.
  - unfold Gateway.put_presence.
    destruct (Gateway.status_of_string status) as [s|]; [|exact Same].
    unfold bind, Gateway.query, Gateway.execute, Gateway.external,
      Gateway.publish, await, throw, ret.
    destruct (EmployeeStatus_eqb s available).
    + destruct (fails "presence: SELECT employees"); [exact Same|].
      simpl.
      destruct (Sql.select_where _ (Gateway.employees s0)) as [|e rest].
      * destruct (fails "presence: UPDATE employees"); [exact Same|].
        destruct (fails "presence: redis online_users");
          [apply (Set_ s p0)|].
        destruct (fails "presence: publish presence_updates");
          apply (Set_ s p0).
      * destruct (is_null (Gateway.emp_current_task_id e)); [|exact Same].
        destruct (fails "presence: UPDATE employees"); [exact Same|].
        destruct (fails "presence: redis online_users");
          [apply (Set_ s p0)|].
        destruct (fails "presence: publish presence_updates");
          apply (Set_ s p0).
    + destruct (fails "presence: UPDATE employees"); [exact Same|].
      destruct (fails "presence: redis online_users");
        [apply (Set_ s p0)|].
      destruct (fails "presence: publish presence_updates");
        apply (Set_ s p0).
  - unfold Gateway.updatePresence, bind, Gateway.execute, Gateway.external,
      await.
    destruct (fails "updatePresence: UPDATE employees"); [exact Same|].
    destruct (fails "updatePresence: redis online_users");
      apply (Set_ st p0).
Qed.

(** The lock is kept by the assigner, not by the presence.  If every row
    of a reviewer has 4 violations or more, then, whatever presence the
    reviewer asks for over HTTP or over the socket and whatever calls
    reject, a following tick of [assignNextTask] assigns the reviewer
    nothing: the task rows assigned to the reviewer after the tick were
    there before the request. *)
Theorem locked_reviewer_gets_no_task :
  forall fails1 fails2 now1 now2 user status st w,
    (forall e, In e (Gateway.employees (Gateway.db w)) ->
               Gateway.emp_id e = Gateway.userId user ->
               4 <= Gateway.emp_violations e) ->
    let http := fst (Gateway.put_presence fails1 now1 user status w) in
    let socket := fst (Gateway.updatePresence fails1 now1
                         (Gateway.userId user) st w) in
    (forall t',
       In t' (Gateway.ats_tasks
                (Gateway.db (fst (Gateway.assignNextTask fails2 now2 http))))
       -> Gateway.task_assigned_to t' = Some (Gateway.userId user) ->
       In t' (Gateway.ats_tasks (Gateway.db w))) /\
    (forall t',
       In t' (Gateway.ats_tasks
                (Gateway.db (fst (Gateway.assignNextTask fails2 now2
                                    socket))))
       -> Gateway.task_assigned_to t' = Some (Gateway.userId user) ->
       In t' (Gateway.ats_tasks (Gateway.db w))).
Proof.
  intros fails1 fails2 now1 now2 user status st w Hlocked http socket.
  assert (Tick : forall w1,
    Gateway.ats_tasks (Gateway.db w1) = Gateway.ats_tasks (Gateway.db w) ->
    (forall e', In e' (Gateway.employees (Gateway.db w1)) ->
                exists e, In e (Gateway.employees (Gateway.db w)) /\
                          Gateway.emp_id e' = Gateway.emp_id e /\
                          Gateway.emp_violations e'
                          = Gateway.emp_violations e) ->
    forall t',
      In t' (Gateway.ats_tasks
               (Gateway.db (fst (Gateway.assignNextTask fails2 now2 w1)))) ->
      Gateway.task_assigned_to t' = Some (Gateway.userId user) ->
      In t' (Gateway.ats_tasks (Gateway.db w))).
  { intros w1 Et He t' Ht' Ha.
    destruct (assignNextTask_cases fails2 now2 w1)
      as [E | (t & c & j & e & _ & _ & Hin & Hassignable & _ & E)];
      rewrite E in Ht'.
    - now rewrite Et in Ht'.
    - simpl in Ht'. apply update_where_In in Ht'.
      destruct Ht' as (t0 & Ht0 & ->).
      destruct (String.eqb (Gateway.task_id t0) (Gateway.task_id t)).
      + exfalso. simpl in Ha. injection Ha as Eu.
        destruct (He e Hin) as (e0 & He0 & Eid & Ev).
        apply assignable_iff in Hassignable.
        destruct Hassignable as (_ & Hv & _).
        specialize (Hlocked e0 He0 ltac:(congruence)). lia.
      + now rewrite Et in Ht0. }
  destruct (presence_keeps_violations fails1 now1 user status st w)
    as ((Et1 & He1) & (Et2 & He2)).
  split; apply Tick; assumption.
Qed.

Lemma locked_reviewer_gets_no_task_witness :
  (forall e, In e (Gateway.employees (Gateway.db locked)) ->
             Gateway.emp_id e = Gateway.userId (jwt "R" role_employee) ->
             4 <= Gateway.emp_violations e) /\
  forall t',
    In t' (Gateway.ats_tasks
             (Gateway.db
                (fst (Gateway.assignNextTask no_fault (late + 2000)
                        (fst (Gateway.put_presence no_fault (late + 1000)
                                (jwt "R" role_employee) "available"
                                locked))))))
    -> Gateway.task_assigned_to t'
       = Some (Gateway.userId (jwt "R" role_employee)) ->
    In t' (Gateway.ats_tasks (Gateway.db locked)).
Proof.
  assert (L : forall e, In e (Gateway.employees (Gateway.db locked)) ->
                Gateway.emp_id e = Gateway.userId (jwt "R" role_employee) ->
                4 <= Gateway.emp_violations e)
    by (intros e [<- | []] _; simpl; lia).
  split; [exact L|].
  exact (proj1 (locked_reviewer_gets_no_task no_fault no_fault (late + 1000)
                  (late + 2000) (jwt "R" role_employee) "available"
                  available locked L)).
Defined.

End Lock.

Section AdminRoutes.
Import Model Steps Samples.

(** The two reset routes answer a caller who is not an admin, or a
    request for an unknown employee, with an error and change nothing,
    whatever calls reject: 401 without a user, 403 for a role other than
    admin, and, for an admin when no call rejects, 404 when no row has
    the id. *)
Theorem resets_reject_without_effect :
  forall fails id w,
    (Gateway.reset_violations fails None id w
     = (w, inl (AppError "Not authenticated" 401)) /\
     Gateway.reset_warnings fails None id w
     = (w, inl (AppError "Not authenticated" 401))) /\
    (forall user,
       Gateway.role user <> role_admin ->
       Gateway.reset_violations fails (Some user) id w
       = (w, inl (AppError "Insufficient permissions" 403)) /\
       Gateway.reset_warnings fails (Some user) id w
       = (w, inl (AppError "Insufficient permissions" 403))) /\
    (forall user,
       Gateway.role user = role_admin ->
       (forall e, In e (Gateway.employees (Gateway.db w)) ->
                  Gateway.emp_id e <> id) ->
       fst (Gateway.reset_violations fails (Some user) id w) = w /\
       fst (Gateway.reset_warnings fails (Some user) id w) = w /\
       (exists err,
          snd (Gateway.reset_violations fails (Some user) id w) = inl err) /\
       (exists err,
          snd (Gateway.reset_warnings fails (Some user) id w) = inl err) /\
       snd (Gateway.reset_violations no_fault (Some user) id w)
       = inl (AppError "Employee not found" 404) /\
       snd (Gateway.reset_warnings no_fault (Some user) id w)
       = inl (AppError "Employee not found" 404)).
Proof.
  intros fails id w. split; [split; reflexivity|]. split.
  - intros user Hrole.
    unfold Gateway.reset_violations, Gateway.reset_warnings,
      Gateway.requireRole, bind, throw.
    destruct (Gateway.role user); simpl; try congruence; split; reflexivity.
  - intros user Hrole Hnone.
    assert (E : Sql.select_where
                  (fun e => String.eqb (Gateway.emp_id e) id)
                  (Gateway.employees (Gateway.db w)) = []).
    { apply select_none. intros e He. apply String.eqb_neq.
      now apply Hnone. }
    unfold Gateway.reset_violations, Gateway.reset_warnings,
      Gateway.requireRole, bind, Gateway.query, await, throw, ret, no_fault.
    rewrite Hrole. simpl. rewrite E.
    destruct (fails "reset-violations: SELECT employees");
      destruct (fails "reset-warnings: SELECT employees");
      simpl; repeat split; eauto.
Qed.

Lemma resets_reject_without_effect_witness :
  Gateway.role (jwt "M" role_manager) <> role_admin /\
  Gateway.reset_violations no_fault (Some (jwt "M" role_manager)) "R" locked
  = (locked, inl (AppError "Insufficient permissions" 403)).
Proof.
  assert (H : Gateway.role (jwt "M" role_manager) <> role_admin)
    by discriminate.
  split; [exact H|].
  exact (proj1 (proj1 (proj2 (resets_reject_without_effect no_fault "R"
                                locked)) (jwt "M" role_manager) H)).
Defined.

(** Reset-violations lifts the lock.  After a successful reset by an
    admin, every row of the employee is assignable at [now] exactly when
    it has no current task and a heartbeat newer than [now] minus five
    minutes, whatever its violations and status were. *)
Theorem reset_violations_unlocks :
  forall now user id w,
    Gateway.role user = role_admin ->
    (exists e, In e (Gateway.employees (Gateway.db w)) /\
               Gateway.emp_id e = id) ->
    let after :=
      Gateway.db (fst (Gateway.reset_violations no_fault (Some user) id w))
    in
    (exists e', In e' (Gateway.employees after) /\ Gateway.emp_id e' = id) /\
    forall e', In e' (Gateway.employees after) -> Gateway.emp_id e' = id ->
      Gateway.emp_violations e' = 0 /\
      (Gateway.assignable now e' = true <->
       Gateway.emp_current_task_id e' = None /\
       exists hb, Gateway.emp_last_heartbeat e' = Some hb /\
                  now - 300000 < hb).
Proof.
  intros now user id w Hrole Hex after.
  destruct (first_row_of_user _ _ Hex) as (e & rest & Esel & Hin & Hid).
  assert (E : Gateway.employees after
              = Sql.update_where
                  (fun e => String.eqb (Gateway.emp_id e) id)
                  Gateway.unlocked (Gateway.employees (Gateway.db w))).
  { subst after.
    unfold Gateway.reset_violations, Gateway.requireRole, bind,
      Gateway.query, Gateway.execute, Gateway.execute_checked, await, ret,
      no_fault.
    rewrite Hrole. simpl. rewrite Esel. simpl.
    destruct (existsb _ _); reflexivity. }
  rewrite E. split.
  - exists (Gateway.unlocked e). split; [|exact Hid].
    apply update_where_In. exists e. split; [exact Hin|].
    now rewrite Hid, String.eqb_refl.
  - intros e' He' Hid'. apply update_where_In in He'.
    destruct He' as (e0 & _ & ->).
    destruct (String.eqb_spec (Gateway.emp_id e0) id); [|contradiction].
    split; [reflexivity|].
    rewrite assignable_iff. simpl. split.
    + intros (_ & _ & Hc & Hh). now split.
    + intros (Hc & Hh). repeat split; assumption.
Qed.

Lemma reset_violations_unlocks_witness :
  Gateway.role (jwt "boss" role_admin) = role_admin /\
  (exists e, In e (Gateway.employees (Gateway.db locked)) /\
             Gateway.emp_id e = "R") /\
  forall e',
    In e' (Gateway.employees
             (Gateway.db (fst (Gateway.reset_violations no_fault
                                 (Some (jwt "boss" role_admin)) "R"
                                 locked)))) ->
    Gateway.emp_id e' = "R" -> Gateway.emp_violations e' = 0.
Proof.
  assert (X : exists e, In e (Gateway.employees (Gateway.db locked)) /\
                        Gateway.emp_id e = "R")
    by (eexists; split; [left; reflexivity | reflexivity]).
  split; [reflexivity|]. split; [exact X|].
  intros e' He' Hid.
  destruct (reset_violations_unlocks 0 (jwt "boss" role_admin) "R" locked
              eq_refl X) as (_ & K).
  exact (proj1 (K e' He' Hid)).
Defined.

End AdminRoutes.

Section StrikeTransaction.
Import Model Steps Samples.



End StrikeTransaction.

Section TimeoutTick.
Import Model Steps Samples.

Lemma Forall2_In_r {A B} (P : A -> B -> Prop) l l' b :
  Forall2 P l l' -> In b l' -> exists a, In a l /\ P a b.
Proof.
  induction 1 as [|x y l l' Hxy F IH]; simpl; [contradiction|].
  intros [<- | H].
  - exists x. split; [now left | exact Hxy].
  - destruct (IH H) as (a & Ha & Pa). exists a. split; [now right | exact Pa].
Qed.

Lemma Forall2_In_l {A B} (P : A -> B -> Prop) l l' a :
  Forall2 P l l' -> In a l -> exists b, In b l' /\ P a b.
Proof.
  induction 1 as [|x y l l' Hxy F IH]; simpl; [contradiction|].
  intros [<- | H].
  - exists y. split; [now left | exact Hxy].
  - destruct (IH H) as (b & Hb & Pb). exists b. split; [now right | exact Pb].
Qed.

Lemma update_where_keys {Row} (key : Row -> string) p f (t : list Row) :
  (forall x, key (f x) = key x) ->
  map key (Sql.update_where p f t) = map key t.
Proof.
  intro Hk. unfold Sql.update_where. rewrite map_map. apply map_ext.
  intro x. destruct (p x); [apply Hk | reflexivity].
Qed.

(** The loop of [checkTimeouts] over the rows of its query, when no call
    rejects: the tasks named by a row end up queued, the others are as
    they were; the employees keep their ids; one incident is stored per
    row. *)
Lemma strikes_run rows :
  forall w, exists w',
    for_of rows (Gateway.handleTimeout no_fault) w = (w', inr tt) /\
    Forall2
      (fun t t' =>
         (In (Gateway.task_id t) (map Gateway.ot_id rows) ->
          Gateway.task_status t' = queued) /\
         (~ In (Gateway.task_id t) (map Gateway.ot_id rows) -> t' = t))
      (Gateway.ats_tasks (Gateway.db w)) (Gateway.ats_tasks (Gateway.db w')) /\
    map Gateway.emp_id (Gateway.employees (Gateway.db w'))
    = map Gateway.emp_id (Gateway.employees (Gateway.db w)) /\
    List.length (Gateway.employee_incidents (Gateway.db w'))
    = (List.length (Gateway.employee_incidents (Gateway.db w))
       + List.length rows)%nat.
Proof.
  induction rows as [|ot rows IH]; intro w.
  - exists w. simpl. split; [reflexivity|]. split; [|split].
    + apply Forall2_same. intro t. split; [contradiction | reflexivity].
    + reflexivity.
    + now rewrite Nat.add_0_r.
  - pose proof (handleTimeout_db ot w) as Hdb.
    destruct (Gateway.handleTimeout no_fault ot w) as [w1 r] eqn:E1.
    assert (Er : r = inr tt).
    { unfold Gateway.handleTimeout, try_catch in E1.
      destruct (Gateway.transaction _ w) in E1. now injection E1 as _ <-. }
    subst r. simpl in Hdb.
    destruct (IH w1) as (w' & Ew' & Ft & Fe & Fi).
    exists w'. simpl for_of. unfold bind at 1. rewrite E1.
    split; [exact Ew'|]. rewrite Hdb in Ft, Fe, Fi. simpl in Ft, Fe, Fi.
    split; [|split].
    + eapply Forall2_compose; [|apply update_where_Forall2 | exact Ft].
      simpl. intros t t1 t' -> [Hq Hs].
      assert (Eid : Gateway.task_id
                      (if String.eqb (Gateway.task_id t) (Gateway.ot_id ot)
                       then Gateway.requeue t else t)
                    = Gateway.task_id t)
        by (destruct (String.eqb _ _); reflexivity).
      rewrite Eid in Hq, Hs. split.
      * intros [Hhead | Hin]; [|now apply Hq].
        destruct (in_dec string_dec (Gateway.task_id t)
                    (map Gateway.ot_id rows)) as [Hin | Hout];
          [now apply Hq|].
        rewrite (Hs Hout), <- Hhead, String.eqb_refl. reflexivity.
      * intro Hout. rewrite Hs by (intro; apply Hout; now right).
        destruct (String.eqb_spec (Gateway.task_id t) (Gateway.ot_id ot))
          as [Heq|]; [|reflexivity].
        exfalso. apply Hout. now left.
    + rewrite Fe. apply update_where_keys. reflexivity.
    + rewrite Fi. unfold Sql.insert_into. rewrite length_app. simpl. lia.
Qed.

(** One tick of the timeout checker in which no call rejects settles
    every overdue task: the query of the tick, asked again on the
    database after it, has no row; one incident has been stored for
    each row of the query; and a task that no row names is left as it
    was. *)
Theorem timeout_tick_leaves_nothing_overdue :
  forall now w,
    let rows := Gateway.overdue_tasks now (Gateway.db w) in
    let after := Gateway.db (fst (Gateway.checkTimeouts no_fault now w)) in
    Gateway.overdue_tasks now after = [] /\
    List.length (Gateway.employee_incidents after)
    = (List.length (Gateway.employee_incidents (Gateway.db w))
       + List.length rows)%nat /\
    (forall t, In t (Gateway.ats_tasks (Gateway.db w)) ->
               ~ In (Gateway.task_id t) (map Gateway.ot_id rows) ->
               In t (Gateway.ats_tasks after)) /\
    (forall t', In t' (Gateway.ats_tasks after) ->
                In t' (Gateway.ats_tasks (Gateway.db w)) \/
                Gateway.task_status t' = queued).
Proof.
  intros now w rows after.
  destruct (strikes_run rows w) as (w' & Ew' & Ft & Fe & Fi).
  assert (Ea : after = Gateway.db w').
  { subst after.
    unfold Gateway.checkTimeouts, try_catch, bind, Gateway.query, await,
      no_fault.
    simpl. unfold rows, no_fault in Ew'. now rewrite Ew'. }
  rewrite Ea. split; [|split; [exact Fi|split]].
  - unfold Gateway.overdue_tasks. apply flat_map_nil. intros t' Ht'.
    destruct (Forall2_In_r _ _ _ _ Ft Ht') as (t & Ht & Hq & Hs).
    destruct (in_dec string_dec (Gateway.task_id t)
                (map Gateway.ot_id rows)) as [Hin | Hout].
    + rewrite (Hq Hin). simpl. now destruct (Gateway.task_due_at t').
    + rewrite (Hs Hout).
      destruct (Gateway.task_due_at t) as [due|] eqn:Ed; [|reflexivity].
      destruct (held (Gateway.task_status t) && (due <? now)) eqn:Eh;
        [|reflexivity].
      rewrite select_none; [reflexivity|].
      intros e' He'.
      destruct (is_uuid (Gateway.task_assigned_to t) (Gateway.emp_id e'))
        eqn:Eu; [|reflexivity].
      exfalso. apply Hout.
      apply (in_map Gateway.emp_id) in He'. rewrite Fe in He'.
      apply in_map_iff in He'. destruct He' as (e & Eid & He).
      apply in_map_iff.
      exists (Gateway.overdue_row t e due). split; [reflexivity|].
      unfold rows, Gateway.overdue_tasks. apply in_flat_map.
      exists t. split; [exact Ht|]. rewrite Ed, Eh.
      apply in_map_iff. exists e. split; [reflexivity|].
      apply filter_In. split; [exact He|].
      now rewrite Eid.
  - intros t Ht Hout.
    destruct (Forall2_In_l _ _ _ _ Ft Ht) as (t' & Ht' & _ & Hs).
    now rewrite <- (Hs Hout).
  - intros t' Ht'.
    destruct (Forall2_In_r _ _ _ _ Ft Ht') as (t & Ht & Hq & Hs).
    destruct (in_dec string_dec (Gateway.task_id t)
                (map Gateway.ot_id rows)) as [Hin | Hout].
    + right. now apply Hq.
    + left. now rewrite (Hs Hout).
Qed.

Lemma timeout_tick_leaves_nothing_overdue_witness :
  Gateway.overdue_tasks late (holding 2 3) <> [] /\
  Gateway.overdue_tasks late
    (Gateway.db (fst (Gateway.checkTimeouts no_fault late
                        (world (holding 2 3))))) = [].
Proof.
  split; [discriminate|].
  exact (proj1 (timeout_tick_leaves_nothing_overdue late
                  (world (holding 2 3)))).
Defined.

End TimeoutTick.

Section ManualWarning.
Import Model Steps Samples.

(** [addWarning] steps the counters as a timeout does, and nothing else.
    For an employee with a row, once the SELECT and the UPDATE are
    through, every row of the employee has the counters that
    [handleTimeout] would store for the first row found, and keeps its
    status and its current task, also when the violations reach four;
    the other rows, the tasks and the published events are as before.
    When [taskId] is absent or names a task and the INSERT is not
    rejected, the call returns the new counters and one incident is
    added, a violation exactly when the returned warnings are 0.  The
    writes are not in a transaction: when the INSERT is rejected, by a
    fault or because [taskId] names no task, the call throws, the
    counters stay stored and no incident is.  For an id without a row the
    call throws and changes nothing. *)
Theorem manual_warning_steps_counters :
  forall employeeId reason taskId w,
    ((forall e, In e (Gateway.employees (Gateway.db w)) ->
                Gateway.emp_id e <> employeeId) ->
     forall fails,
       fst (Gateway.addWarning fails employeeId reason taskId w) = w /\
       exists err,
         snd (Gateway.addWarning fails employeeId reason taskId w)
         = inl err) /\
    ((exists e, In e (Gateway.employees (Gateway.db w)) /\
                Gateway.emp_id e = employeeId) ->
     exists row,
       In row (Gateway.employees (Gateway.db w)) /\
       Gateway.emp_id row = employeeId /\
       forall t due fails,
       fails "addWarning: SELECT employees" = false ->
       fails "addWarning: UPDATE employees" = false ->
       let k := Gateway.strike (Gateway.overdue_row t row due) in
       let run := Gateway.addWarning fails employeeId reason taskId w in
       Gateway.employees (Gateway.db (fst run))
       = Sql.update_where
           (fun e => String.eqb (Gateway.emp_id e) employeeId)
           (Gateway.with_counters (Gateway.newWarnings k)
                                  (Gateway.newViolations k))
           (Gateway.employees (Gateway.db w)) /\
       Forall2
         (fun e e' =>
            Gateway.emp_id e' = Gateway.emp_id e /\
            Gateway.emp_status e' = Gateway.emp_status e /\
            Gateway.emp_current_task_id e' = Gateway.emp_current_task_id e /\
            (Gateway.emp_id e <> employeeId -> e' = e) /\
            (Gateway.emp_id e = employeeId ->
             Gateway.emp_warnings e' = Gateway.newWarnings k /\
             Gateway.emp_violations e' = Gateway.newViolations k))
         (Gateway.employees (Gateway.db w))
         (Gateway.employees (Gateway.db (fst run))) /\
       Gateway.ats_tasks (Gateway.db (fst run))
       = Gateway.ats_tasks (Gateway.db w) /\
       Gateway.published (fst run) = Gateway.published w /\
       (fails "addWarning: INSERT INTO employee_incidents" = false ->
        Gateway.names_task taskId (Gateway.db w) = true ->
        snd run = inr (Gateway.newWarnings k, Gateway.newViolations k) /\
        Gateway.employee_incidents (Gateway.db (fst run))
        = (Gateway.employee_incidents (Gateway.db w)
           ++ [ {| Gateway.inc_employee_id := employeeId;
                   Gateway.inc_type :=
                     if Gateway.newWarnings k =? 0
                     then violation else warning;
                   Gateway.inc_reason := reason;
                   Gateway.inc_task_id := taskId |} ])%list) /\
       (fails "addWarning: INSERT INTO employee_incidents" = true \/
        Gateway.names_task taskId (Gateway.db w) = false ->
        snd run
        = inl (Rejected "addWarning: INSERT INTO employee_incidents") /\
        Gateway.employee_incidents (Gateway.db (fst run))
        = Gateway.employee_incidents (Gateway.db w))).
Proof.
  intros employeeId reason taskId w. split.
  - intros Hnone fails.
    assert (E : Sql.select_where
                  (fun e => String.eqb (Gateway.emp_id e) employeeId)
                  (Gateway.employees (Gateway.db w)) = []).
    { apply select_none. intros e He. apply String.eqb_neq.
      now apply Hnone. }
    unfold Gateway.addWarning, bind, Gateway.query, await, throw.
    destruct (fails "addWarning: SELECT employees"); simpl.
    + split; [reflexivity | eexists; reflexivity].
    + rewrite E. split; [reflexivity | eexists; reflexivity].
  - intro Hex.
    destruct (first_row_of_user _ _ Hex) as (row & rest & Esel & Hin & Hid).
    exists row. split; [exact Hin|]. split; [exact Hid|].
    intros t due fails F1 F2.
    assert (Run :
              Gateway.addWarning fails employeeId reason taskId w
              = let k := Gateway.strike (Gateway.overdue_row t row due) in
                let w1 :=
                  Gateway.with_db
                    (Gateway.with_employees
                       (Sql.update_where
                          (fun e => String.eqb (Gateway.emp_id e) employeeId)
                          (Gateway.with_counters (Gateway.newWarnings k)
                             (Gateway.newViolations k)))) w in
                if fails "addWarning: INSERT INTO employee_incidents"
                then (w1, inl (Rejected
                                 "addWarning: INSERT INTO employee_incidents"))
                else if Gateway.names_task taskId (Gateway.db w)
                then
                  (Gateway.with_db
                     (Gateway.with_employee_incidents
                        (Sql.insert_into
                           {| Gateway.inc_employee_id := employeeId;
                              Gateway.inc_type :=
                                if Gateway.newWarnings k =? 0
                                then violation else warning;
                              Gateway.inc_reason := reason;
                              Gateway.inc_task_id := taskId |})) w1,
                   inr (Gateway.newWarnings k, Gateway.newViolations k))
                else (w1, inl (Rejected
                                 "addWarning: INSERT INTO employee_incidents"))).
    { assert (Same : forall u,
                Gateway.names_task taskId
                  (Gateway.db (Gateway.with_db (Gateway.with_employees u) w))
                = Gateway.names_task taskId (Gateway.db w))
        by (intro u; destruct taskId; reflexivity).
      unfold Gateway.addWarning, bind, Gateway.query, Gateway.execute,
        Gateway.execute_checked, await, ret.
      rewrite F1. cbn [fst snd Gateway.db]. rewrite Esel.
      unfold Gateway.strike.
      cbn [Gateway.employee_warnings Gateway.employee_violations
             Gateway.overdue_row].
      destruct (Gateway.WARNINGS_PER_VIOLATION
                <=? Gateway.emp_warnings row + 1);
        rewrite F2;
        destruct (fails "addWarning: INSERT INTO employee_incidents");
        try reflexivity;
        cbv zeta; cbn [Gateway.newWarnings Gateway.newViolations];
        rewrite Same;
        destruct (Gateway.names_task taskId (Gateway.db w)); reflexivity. }
    cbv zeta. rewrite Run. cbv zeta.
    assert (Rows : Forall2
              (fun e e' =>
                 Gateway.emp_id e' = Gateway.emp_id e /\
                 Gateway.emp_status e' = Gateway.emp_status e /\
                 Gateway.emp_current_task_id e'
                 = Gateway.emp_current_task_id e /\
                 (Gateway.emp_id e <> employeeId -> e' = e) /\
                 (Gateway.emp_id e = employeeId ->
                  Gateway.emp_warnings e'
                  = Gateway.newWarnings
                      (Gateway.strike (Gateway.overdue_row t row due)) /\
                  Gateway.emp_violations e'
                  = Gateway.newViolations
                      (Gateway.strike (Gateway.overdue_row t row due))))
              (Gateway.employees (Gateway.db w))
              (Sql.update_where
                 (fun e => String.eqb (Gateway.emp_id e) employeeId)
                 (Gateway.with_counters
                    (Gateway.newWarnings
                       (Gateway.strike (Gateway.overdue_row t row due)))
                    (Gateway.newViolations
                       (Gateway.strike (Gateway.overdue_row t row due))))
                 (Gateway.employees (Gateway.db w)))).
    { eapply Forall2_weaken; [|apply update_where_Forall2].
      cbv beta. intros e e' _ ->.
      destruct (String.eqb_spec (Gateway.emp_id e) employeeId);
        repeat split; try reflexivity; try congruence;
        intro; contradiction. }
    destruct (fails "addWarning: INSERT INTO employee_incidents");
      [|destruct (Gateway.names_task taskId (Gateway.db w))];
      (split; [reflexivity|]); (split; [exact Rows|]);
      (split; [reflexivity|]); (split; [reflexivity|]);
      (split; [intros; first [discriminate | split; reflexivity]|]);
      intros [X | X]; first [discriminate | split; reflexivity].
Qed.

Lemma manual_warning_steps_counters_witness :
  (exists e, In e (Gateway.employees (Gateway.db (world (holding 2 3)))) /\
             Gateway.emp_id e = "R") /\
  Gateway.names_task (Some "T") (Gateway.db (world (holding 2 3))) = true /\
  snd (Gateway.addWarning no_fault "R" "late again" (Some "T")
         (world (holding 2 3))) = inr (0, 4) /\
  map Gateway.emp_status
    (Gateway.employees
       (Gateway.db (fst (Gateway.addWarning no_fault "R" "late again"
                           (Some "T") (world (holding 2 3)))))) = [busy].
Proof.
  assert (X : exists e,
             In e (Gateway.employees (Gateway.db (world (holding 2 3)))) /\
             Gateway.emp_id e = "R")
    by (eexists; split; [left; reflexivity | reflexivity]).
  assert (N : Gateway.names_task (Some "T")
                (Gateway.db (world (holding 2 3))) = true) by reflexivity.
  split; [exact X|]. split; [exact N|].
  destruct (proj2 (manual_warning_steps_counters "R" "late again" (Some "T")
                     (world (holding 2 3))) X)
    as (row & [Hrow | []] & _ & K).
  destruct (K held_task sla no_fault eq_refl eq_refl)
    as (R2 & _ & _ & _ & Ok & _).
  destruct (Ok eq_refl N) as (R1 & _).
  rewrite R1, R2, <- Hrow. split; reflexivity.
Defined.

End ManualWarning.

Section Binding.
Import Model Steps Samples.

(** What a tick of the assigner leaves behind.  With an empty queue, or
    without an assignable employee, the tick changes nothing, whichever
    calls reject.  When it does change the database, it has stored a
    task row and an employee row that point at each other: the task is
    assigned to the employee, with [assigned_at = now] and [due_at] 20
    minutes later; the employee is busy with that task as current task,
    and so is assignable at no time.  The timeout query at a time
    [later] gives the row of the two exactly when [later] is past the
    20 minutes. *)
Theorem tick_links_task_and_reviewer :
  forall fails now w,
    let after := fst (Gateway.assignNextTask fails now w) in
    (Gateway.queued_join (Gateway.db w) = [] \/
     (forall e, In e (Gateway.employees (Gateway.db w)) ->
                Gateway.assignable now e = false) ->
     after = w) /\
    (Gateway.db after <> Gateway.db w ->
     exists t e,
       In t (Gateway.ats_tasks (Gateway.db after)) /\
       In e (Gateway.employees (Gateway.db after)) /\
       Gateway.task_status t = assigned /\
       Gateway.task_assigned_to t = Some (Gateway.emp_id e) /\
       Gateway.task_assigned_at t = Some now /\
       Gateway.task_due_at t = Some (now + 1200000) /\
       Gateway.emp_status e = busy /\
       Gateway.emp_current_task_id e = Some (Gateway.task_id t) /\
       (forall later, Gateway.assignable later e = false) /\
       (forall later,
          In (Gateway.overdue_row t e (now + 1200000))
             (Gateway.overdue_tasks later (Gateway.db after))
          <-> now + 1200000 < later)).
Proof.
  intros fails now w after. split.
  - intros Hidle. subst after.
    unfold Gateway.assignNextTask, try_catch, Gateway.transaction, bind,
      Gateway.query, Gateway.execute, Gateway.publish, await, ret.
    destruct (fails "assignNextTask: SELECT ats_tasks");
      [now destruct w|].
    destruct (next_queued_task_spec (Gateway.db w))
      as [[_ ->] | (t & c & j & -> & Hin & _)]; [now destruct w|].
    destruct (fails "assignNextTask: SELECT employees");
      [now destruct w|].
    destruct (next_available_employee_spec now (Gateway.db w))
      as [[_ ->] | (e & -> & He & Ha & _)]; [now destruct w|].
    exfalso. destruct Hidle as [Hq | Hn].
    + rewrite Hq in Hin. contradiction.
    + rewrite (Hn e He) in Ha. discriminate.
  - intro Hchanged.
    destruct (assignNextTask_cases fails now w)
      as [Same | (t & c & j & e & Hin & _ & He & _ & _ & Edb)];
      [contradiction|].
    fold after in Edb. apply gateway_queued_join_In in Hin.
    destruct Hin as (Ht & _).
    set (t' := Gateway.assign_to (Gateway.emp_id e) now (now + 20 * 60 * 1000)
                 t).
    set (e' := Gateway.occupy (Gateway.task_id t) e).
    assert (Ht' : In t' (Gateway.ats_tasks (Gateway.db after))).
    { rewrite Edb. cbn [Gateway.ats_tasks Gateway.with_employees
                          Gateway.with_ats_tasks].
      apply update_where_In. exists t. split; [exact Ht|].
      now rewrite String.eqb_refl. }
    assert (He' : In e' (Gateway.employees (Gateway.db after))).
    { rewrite Edb. cbn [Gateway.employees Gateway.with_employees
                          Gateway.with_ats_tasks].
      apply update_where_In. exists e. split; [exact He|].
      now rewrite String.eqb_refl. }
    exists t', e'. repeat (split; [first [assumption | reflexivity]|]).
    intro later. rewrite gateway_overdue_In. split.
    + intros (t2 & e2 & due & _ & _ & _ & _ & Hlt & _ & Erow).
      apply (f_equal Gateway.ot_due_at) in Erow. simpl in Erow. lia.
    + intro Hlt. exists t', e', (now + 1200000).
      repeat (split; [first [assumption | reflexivity]|]). reflexivity.
Qed.

Lemma tick_links_task_and_reviewer_witness :
  Gateway.db (fst (Gateway.assignNextTask no_fault tick (world tied)))
  <> Gateway.db (world tied) /\
  exists t e,
    In t (Gateway.ats_tasks
            (Gateway.db (fst (Gateway.assignNextTask no_fault tick
                                (world tied))))) /\
    In e (Gateway.employees
            (Gateway.db (fst (Gateway.assignNextTask no_fault tick
                                (world tied))))) /\
    Gateway.task_status t = assigned /\
    Gateway.task_assigned_to t = Some (Gateway.emp_id e).
Proof.
  assert (H : Gateway.db (fst (Gateway.assignNextTask no_fault tick
                                 (world tied)))
              <> Gateway.db (world tied)).
  { intro E. apply (f_equal (fun s => map Gateway.task_status
                                          (Gateway.ats_tasks s))) in E.
    discriminate E. }
  split; [exact H|].
  destruct (proj2 (tick_links_task_and_reviewer no_fault tick (world tied)) H)
    as (t & e & Ht & He & Es & Ea & _).
  exists t, e. repeat split; assumption.
Defined.

End Binding.

Section PreWarnings.
Import Model Steps Samples.

Lemma minutes_rounded_spec r :
  120000 * Gateway.minutes_rounded r <= 2 * r + 60000
  < 120000 * Gateway.minutes_rounded r + 120000.
Proof.
  unfold Gateway.minutes_rounded.
  pose proof (Z.mul_div_le (2 * r + 60000) 120000 eq_refl).
  pose proof (Z.mul_succ_div_gt (2 * r + 60000) 120000 eq_refl).
  lia.
Qed.

Lemma key_exists_after_set now now2 key keys :
  now2 < now + 120000 ->
  Gateway.key_exists now2 key (Gateway.key_set now key keys) = true.
Proof.
  intro H. unfold Gateway.key_exists, Gateway.key_set. cbn [existsb fst snd].
  rewrite String.eqb_refl.
  replace (now2 <? now + 120 * 1000) with true
    by (symmetry; apply Z.ltb_lt; lia).
  reflexivity.
Qed.

(** The marks of the pre-warnings.  For a task with [remaining]
    milliseconds left, between 0 and five minutes as in the rows of the
    query, and when no call rejects: a warning is sent exactly when the
    remaining time is within half a minute of the 1 or 3 minute mark or
    at least four and a half minutes, and no live key of the task and
    mark is in Redis; it carries that mark.  Otherwise nothing changes.
    Once sent, a later pass over the same task at the same mark sends
    nothing. *)
Theorem pre_warning_marks :
  forall now task remaining a,
    0 < remaining <= 300000 ->
    let m := Gateway.minutes_rounded remaining in
    let key := Gateway.warn_key (Gateway.task_id task) m in
    let a' := fst (Gateway.warn no_fault now (task, remaining) a) in
    let at_mark :=
      30000 <= remaining < 90000 \/ 150000 <= remaining < 210000 \/
      270000 <= remaining in
    (at_mark ->
     Gateway.key_exists now key (Gateway.warn_keys a) = false ->
     (m = 1 \/ m = 3 \/ m = 5) /\
     Gateway.alerts_db a' = Gateway.alerts_db a /\
     Gateway.warnings_sent a'
     = (Gateway.warnings_sent a
        ++ [ {| Gateway.tw_employeeId := Gateway.task_assigned_to task;
                Gateway.tw_taskId := Gateway.task_id task;
                Gateway.tw_minutesRemaining := m |} ])%list /\
     forall now2,
       now <= now2 ->
       Gateway.minutes_rounded (remaining - (now2 - now)) = m ->
       fst (Gateway.warn no_fault now2 (task, remaining - (now2 - now)) a')
       = a') /\
    (~ at_mark \/
     Gateway.key_exists now key (Gateway.warn_keys a) = true ->
     a' = a).
Proof.
  intros now task remaining a Hr m key a' at_mark.
  pose proof (minutes_rounded_spec remaining) as Hm. fold m in Hm.
  assert (Mark : at_mark <-> (m = 1 \/ m = 3 \/ m = 5))
    by (unfold at_mark; lia).
  assert (Test : ((m =? 5) || (m =? 3) || (m =? 1) = true)
                 <-> (m = 1 \/ m = 3 \/ m = 5)).
  { rewrite !orb_true_iff, !Z.eqb_eq. tauto. }
  split.
  - intros Hmark Hkey. apply Mark in Hmark.
    assert (T : (m =? 5) || (m =? 3) || (m =? 1) = true)
      by now apply Test.
    assert (Ea : a' = {| Gateway.alerts_db := Gateway.alerts_db a;
                         Gateway.warn_keys :=
                           Gateway.key_set now key (Gateway.warn_keys a);
                         Gateway.warnings_sent :=
                           (Gateway.warnings_sent a
                            ++ [ {| Gateway.tw_employeeId :=
                                      Gateway.task_assigned_to task;
                                    Gateway.tw_taskId := Gateway.task_id task;
                                    Gateway.tw_minutesRemaining := m |} ]
                           )%list |}).
    { subst a'. unfold Gateway.warn, bind, await, ret, no_fault.
      fold m. rewrite T. cbn [fst snd]. fold key. rewrite Hkey.
      reflexivity. }
    split; [exact Hmark|]. rewrite Ea. cbn [Gateway.alerts_db
      Gateway.warnings_sent]. split; [reflexivity|]. split; [reflexivity|].
    intros now2 Hle Hsame.
    pose proof (minutes_rounded_spec (remaining - (now2 - now))) as Hm2.
    rewrite Hsame in Hm2.
    unfold Gateway.warn, bind, await, ret, no_fault.
    rewrite Hsame, T. cbn [fst snd Gateway.warn_keys]. fold key.
    rewrite key_exists_after_set by lia. reflexivity.
  - intros [Hnot | Hkey]; subst a';
      unfold Gateway.warn, bind, await, ret, no_fault; fold m.
    + destruct ((m =? 5) || (m =? 3) || (m =? 1)) eqn:T; [|reflexivity].
      exfalso. apply Hnot, Mark, Test. reflexivity.
    + destruct ((m =? 5) || (m =? 3) || (m =? 1)); [|reflexivity].
      cbn [fst snd]. fold key. rewrite Hkey. reflexivity.
Qed.

Lemma pre_warning_marks_witness :
  0 < 185000 <= 300000 /\
  Gateway.warnings_sent
    (fst (Gateway.warn no_fault tick (held_task, 185000)
            {| Gateway.alerts_db := holding 0 0;
               Gateway.warn_keys := [];
               Gateway.warnings_sent := [] |}))
  = [ {| Gateway.tw_employeeId := Some "R";
         Gateway.tw_taskId := "T";
         Gateway.tw_minutesRemaining := 3 |} ].
Proof.
  assert (H : 0 < 185000 <= 300000) by lia.
  assert (M : 30000 <= 185000 < 90000 \/ 150000 <= 185000 < 210000 \/
              270000 <= 185000) by lia.
  split; [exact H|].
  exact (proj1 (proj2 (proj2
           (proj1 (pre_warning_marks tick held_task 185000
                     {| Gateway.alerts_db := holding 0 0;
                        Gateway.warn_keys := [];
                        Gateway.warnings_sent := [] |} H)
              M eq_refl)))).
Defined.

End PreWarnings.

Section WarningTick.
Import Model Steps Samples.

Lemma due_soon_In now s t r :
  In (t, r) (Gateway.due_soon now s) ->
  In t (Gateway.ats_tasks s) /\
  exists due,
    Gateway.task_due_at t = Some due /\
    held (Gateway.task_status t) = true /\
    now < due <= now + 300000 /\ r = due - now.
Proof.
  unfold Gateway.due_soon. rewrite in_flat_map.
  intros (t0 & Ht0 & H).
  destruct (Gateway.task_due_at t0) as [due|] eqn:Ed; [|contradiction].
  destruct (held (Gateway.task_status t0) && (now <? due)
            && (due <=? now + Gateway.WARNING_MINUTES * 60 * 1000)) eqn:C;
    [|contradiction].
  destruct H as [H | []]. injection H as -> <-.
  apply andb_true_iff in C. destruct C as [C Hle].
  apply andb_true_iff in C. destruct C as [Hh Hlt].
  apply Z.ltb_lt in Hlt. apply Z.leb_le in Hle.
  unfold Gateway.WARNING_MINUTES in Hle.
  split; [exact Ht0|]. exists due. repeat split; auto; lia.
Qed.

(** One pass of the loop of [checkWarnings], whichever calls reject:
    the database is not written, and at most one warning is added, with
    mark 1, 3 or 5. *)
Lemma warn_step fails now t r a :
  let a' := fst (Gateway.warn fails now (t, r) a) in
  Gateway.alerts_db a' = Gateway.alerts_db a /\
  (Gateway.warnings_sent a' = Gateway.warnings_sent a \/
   (Gateway.minutes_rounded r = 1 \/ Gateway.minutes_rounded r = 3 \/
    Gateway.minutes_rounded r = 5) /\
   Gateway.warnings_sent a'
   = (Gateway.warnings_sent a
      ++ [ {| Gateway.tw_employeeId := Gateway.task_assigned_to t;
              Gateway.tw_taskId := Gateway.task_id t;
              Gateway.tw_minutesRemaining := Gateway.minutes_rounded r |} ]
     )%list).
Proof.
  unfold Gateway.warn, bind, await, ret.
  destruct ((Gateway.minutes_rounded r =? 5)
            || (Gateway.minutes_rounded r =? 3)
            || (Gateway.minutes_rounded r =? 1)) eqn:T;
    [|split; [reflexivity | left; reflexivity]].
  assert (M : Gateway.minutes_rounded r = 1 \/ Gateway.minutes_rounded r = 3
              \/ Gateway.minutes_rounded r = 5).
  { rewrite !orb_true_iff, !Z.eqb_eq in T. tauto. }
  destruct (fails "checkWarnings: redis.exists");
    [split; [reflexivity | left; reflexivity]|].
  cbn [fst snd].
  destruct (Gateway.key_exists now _ (Gateway.warn_keys a));
    [split; [reflexivity | left; reflexivity]|].
  destruct (fails "checkWarnings: redis.set");
    [split; [reflexivity | left; reflexivity]|].
  cbn [fst snd].
  destruct (fails "checkWarnings: redis.publish");
    [split; [reflexivity | left; reflexivity]|].
  split; [reflexivity|]. right. split; [exact M | reflexivity].
Qed.

(** A tick of the pre-warnings never throws and never writes to the
    database, whichever calls reject.  What it sends is added at the end
    of what was sent: at most one warning per row of its query, each for
    a task of the database that is assigned or in progress and due
    within the next five minutes, addressed to the holder of the task,
    and carrying the remaining minutes rounded, which are 1, 3 or 5. *)
Theorem warning_tick_sends_marks_only :
  forall fails now a,
    let a' := fst (Gateway.checkWarnings fails now a) in
    snd (Gateway.checkWarnings fails now a) = inr tt /\
    Gateway.alerts_db a' = Gateway.alerts_db a /\
    exists sent,
      Gateway.warnings_sent a' = (Gateway.warnings_sent a ++ sent)%list /\
      (List.length sent
       <= List.length (Gateway.due_soon now (Gateway.alerts_db a)))%nat /\
      forall tw, In tw sent ->
        (Gateway.tw_minutesRemaining tw = 1 \/
         Gateway.tw_minutesRemaining tw = 3 \/
         Gateway.tw_minutesRemaining tw = 5) /\
        exists t due,
          In t (Gateway.ats_tasks (Gateway.alerts_db a)) /\
          Gateway.task_id t = Gateway.tw_taskId tw /\
          Gateway.task_assigned_to t = Gateway.tw_employeeId tw /\
          held (Gateway.task_status t) = true /\
          Gateway.task_due_at t = Some due /\
          now < due <= now + 300000 /\
          Gateway.minutes_rounded (due - now)
          = Gateway.tw_minutesRemaining tw.
Proof.
  intros fails now a a'.
  assert (Loop : forall rows,
            (forall t r, In (t, r) rows ->
                         In (t, r) (Gateway.due_soon now
                                      (Gateway.alerts_db a))) ->
            forall a0,
              let a1 := fst (for_of rows (Gateway.warn fails now) a0) in
              Gateway.alerts_db a1 = Gateway.alerts_db a0 /\
              exists sent,
                Gateway.warnings_sent a1
                = (Gateway.warnings_sent a0 ++ sent)%list /\
                (List.length sent <= List.length rows)%nat /\
                forall tw, In tw sent ->
                  (Gateway.tw_minutesRemaining tw = 1 \/
                   Gateway.tw_minutesRemaining tw = 3 \/
                   Gateway.tw_minutesRemaining tw = 5) /\
                  exists t due,
                    In t (Gateway.ats_tasks (Gateway.alerts_db a)) /\
                    Gateway.task_id t = Gateway.tw_taskId tw /\
                    Gateway.task_assigned_to t = Gateway.tw_employeeId tw /\
                    held (Gateway.task_status t) = true /\
                    Gateway.task_due_at t = Some due /\
                    now < due <= now + 300000 /\
                    Gateway.minutes_rounded (due - now)
                    = Gateway.tw_minutesRemaining tw).
  { induction rows as [|[t r] rows IH]; intros Hrows a0; cbv zeta.
    - simpl. split; [reflexivity|]. exists []. rewrite app_nil_r.
      split; [reflexivity|]. split; [simpl; lia|]. intros tw [].
    - cbn [for_of]. unfold bind.
      pose proof (warn_step fails now t r a0) as [Sdb Ssent].
      cbv zeta in Sdb, Ssent.
      destruct (Gateway.warn fails now (t, r) a0) as [a1 [err | []]] eqn:E1;
        cbn [fst] in Sdb, Ssent |- *.
      + split; [exact Sdb|].
        destruct Ssent as [Same | [M New]].
        * exists []. rewrite app_nil_r. split; [exact Same|].
          split; [simpl; lia|]. intros tw [].
        * exists [ {| Gateway.tw_employeeId := Gateway.task_assigned_to t;
                      Gateway.tw_taskId := Gateway.task_id t;
                      Gateway.tw_minutesRemaining :=
                        Gateway.minutes_rounded r |} ].
          split; [exact New|]. split; [simpl; lia|].
          intros tw [<- | []]. split; [exact M|].
          destruct (due_soon_In _ _ _ _ (Hrows t r (or_introl eq_refl)))
            as (Ht & due & Ed & Hh & Hd & ->).
          exists t, due. repeat split; auto; lia.
      + pose proof (IH (fun t0 r0 H => Hrows t0 r0 (or_intror H)) a1) as I.
        cbv zeta in I. destruct I as (Idb & sent & Isent & Ilen & Iall).
        split; [now rewrite Idb|].
        destruct Ssent as [Same | [M New]].
        * exists sent. rewrite Isent, Same. split; [reflexivity|].
          split; [simpl; lia | exact Iall].
        * exists ({| Gateway.tw_employeeId := Gateway.task_assigned_to t;
                     Gateway.tw_taskId := Gateway.task_id t;
                     Gateway.tw_minutesRemaining :=
                       Gateway.minutes_rounded r |} :: sent).
          rewrite Isent, New, <- app_assoc. split; [reflexivity|].
          split; [simpl; lia|].
          intros tw [<- | Hin]; [|now apply Iall].
          split; [exact M|].
          destruct (due_soon_In _ _ _ _ (Hrows t r (or_introl eq_refl)))
            as (Ht & due & Ed & Hh & Hd & ->).
          exists t, due. repeat split; auto; lia. }
  subst a'. unfold Gateway.checkWarnings, try_catch, bind, await.
  destruct (fails "checkWarnings: SELECT").
  - cbn. split; [reflexivity|]. split; [reflexivity|].
    exists []. rewrite app_nil_r. split; [reflexivity|].
    split; [simpl; lia|]. intros tw [].
  - cbn [fst snd].
    pose proof (Loop (Gateway.due_soon now (Gateway.alerts_db a))
                  (fun t r H => H) a) as L.
    cbv zeta in L.
    destruct (for_of (Gateway.due_soon now (Gateway.alerts_db a))
                (Gateway.warn fails now) a) as [a1 r1].
    cbn [fst snd] in L |- *. split; [reflexivity|]. exact L.
Qed.

Lemma warning_tick_sends_marks_only_witness :
  exists sent,
    Gateway.warnings_sent
      (fst (Gateway.checkWarnings no_fault (sla - 185000)
              {| Gateway.alerts_db := holding 0 0;
                 Gateway.warn_keys := [];
                 Gateway.warnings_sent := [] |}))
    = sent /\
    forall tw, In tw sent ->
      Gateway.tw_minutesRemaining tw = 1 \/
      Gateway.tw_minutesRemaining tw = 3 \/
      Gateway.tw_minutesRemaining tw = 5.
Proof.
  destruct (warning_tick_sends_marks_only no_fault (sla - 185000)
              {| Gateway.alerts_db := holding 0 0;
                 Gateway.warn_keys := [];
                 Gateway.warnings_sent := [] |})
    as (_ & _ & sent & Es & _ & Hall).
  exists sent. split; [exact Es|].
  intros tw Htw. exact (proj1 (Hall tw Htw)).
Defined.

End WarningTick.

Section WorkerBatches.
Import Model Steps Samples.

Lemma for_of_without_faults {World A} (body body' : A -> Db World unit) xs :
  (forall x w w', body x w = (w', inr tt) -> body' x w = (w', inr tt)) ->
  forall w w', for_of xs body w = (w', inr tt) ->
               for_of xs body' w = (w', inr tt).
Proof.
  intro H. induction xs as [|x xs IH]; simpl; intros w w' E; [exact E|].
  unfold bind in *. destruct (body x w) as [w1 [err | []]] eqn:Eb;
    [discriminate|].
  rewrite (H _ _ _ Eb). now apply IH.
Qed.

Lemma assign_pair_without_faults fails tm now pair w w' :
  Worker.assign_pair fails tm now pair w = (w', inr tt) ->
  Worker.assign_pair no_fault tm now pair w = (w', inr tt).
Proof.
  destruct pair as [task e].
  unfold Worker.assign_pair, bind, Worker.execute, Worker.publish, await,
    no_fault.
  destruct (fails "assignTasks: UPDATE ats_tasks"); [discriminate|].
  destruct (fails "assignTasks: UPDATE employees"); [discriminate|].
  destruct (fails "assignTasks: INSERT INTO activity_log"); [discriminate|].
  destruct (fails "assignTasks: publish task:assigned"); [discriminate|].
  intro E. exact E.
Qed.

Lemma expire_without_faults fails tm drawn now ot w w' :
  Worker.expire fails tm drawn now ot w = (w', inr tt) ->
  Worker.expire no_fault tm drawn now ot w = (w', inr tt).
Proof.
  unfold Worker.expire, bind, Worker.execute, Worker.publish, await,
    no_fault.
  destruct (fails "checkTimeouts: UPDATE ats_tasks"); [discriminate|].
  destruct (fails "checkTimeouts: UPDATE employees"); [discriminate|].
  destruct (fails "checkTimeouts: INSERT INTO employee_incidents");
    [discriminate|].
  destruct (fails "checkTimeouts: INSERT INTO activity_log");
    [discriminate|].
  destruct (fails "checkTimeouts: INSERT INTO ats_tasks"); [discriminate|].
  destruct (fails "checkTimeouts: publish task:timeout"); [discriminate|].
  intro E. exact E.
Qed.

Lemma in_transaction_without_faults body w w' :
  body w = (w', inr tt) ->
  Worker.in_transaction no_fault body w = (w', inr tt).
Proof.
  intro E.
  unfold Worker.in_transaction, Worker.statement, bind, await, no_fault.
  now rewrite E.
Qed.

(** What a tick of the worker-service answers: it throws when
    [pool.connect] rejects, before anything is done, and when ROLLBACK
    rejects, and in no other case. *)
Lemma in_transaction_outcome fails body w :
  (fails "pool.connect" = true ->
   Worker.in_transaction fails body w = (w, inl (Rejected "pool.connect")))
  /\
  (fails "pool.connect" = false -> fails "ROLLBACK" = false ->
   snd (Worker.in_transaction fails body w) = inr tt) /\
  (snd (Worker.in_transaction fails body w) = inr tt \/
   snd (Worker.in_transaction fails body w) = inl (Rejected "pool.connect")
   \/
   snd (Worker.in_transaction fails body w) = inl (Rejected "ROLLBACK")).
Proof.
  unfold Worker.in_transaction, Worker.statement, bind, await.
  destruct (fails "pool.connect").
  { split; [reflexivity|]. split; [discriminate|]. right. left.
    reflexivity. }
  split; [discriminate|].
  destruct (fails "BEGIN"); [|destruct (body w) as [w' [e | []]];
                               [|destruct (fails "COMMIT")]];
    destruct (fails "ROLLBACK"); cbn [fst snd];
    (split; [intros _ F; first [reflexivity | discriminate F]|]);
    first [left; reflexivity | right; right; reflexivity].
Qed.

(** Each tick of the worker-service is one transaction over its whole
    batch: whichever calls reject, the world after [assignTasks], and
    after [checkTimeouts], is that of the tick in which nothing rejects,
    or the database is the one before the tick; so one rejected call
    undoes every assignment, or every strike, of the tick.  A tick
    throws when [pool.connect], awaited before the [try], rejects, with
    nothing done, and when ROLLBACK, awaited inside the [catch], rejects;
    every other rejection is caught and logged. *)
Theorem worker_ticks_commit_or_roll_back :
  forall fails tm drawn now w,
    let assigning := Worker.assignTasks fails tm now w in
    let expiring := Worker.checkTimeouts fails tm drawn now w in
    ((fst assigning = fst (Worker.assignTasks no_fault tm now w) \/
      Worker.db (fst assigning) = Worker.db w) /\
     (fst expiring = fst (Worker.checkTimeouts no_fault tm drawn now w) \/
      Worker.db (fst expiring) = Worker.db w)) /\
    (fails "pool.connect" = true ->
     assigning = (w, inl (Rejected "pool.connect")) /\
     expiring = (w, inl (Rejected "pool.connect"))) /\
    (fails "pool.connect" = false -> fails "ROLLBACK" = false ->
     snd assigning = inr tt /\ snd expiring = inr tt) /\
    ((snd assigning = inr tt \/
      snd assigning = inl (Rejected "pool.connect") \/
      snd assigning = inl (Rejected "ROLLBACK")) /\
     (snd expiring = inr tt \/
      snd expiring = inl (Rejected "pool.connect") \/
      snd expiring = inl (Rejected "ROLLBACK"))).
Proof.
  intros fails tm drawn now w assigning expiring. subst assigning expiring.
  unfold Worker.assignTasks, Worker.checkTimeouts.
  match goal with
  | |- context [Worker.in_transaction fails ?a w] =>
      match goal with
      | |- context [Worker.in_transaction fails ?c w] =>
          lazymatch c with
          | a => fail
          | _ =>
              pose proof (in_transaction_outcome fails a w) as (A1 & A2 & A3);
              pose proof (in_transaction_outcome fails c w) as (C1 & C2 & C3);
              pose proof (in_transaction_cases fails a w) as A4;
              pose proof (in_transaction_cases fails c w) as C4
          end
      end
  end.
  split; [|split; [|split]].
  - split.
    + destruct A4 as [(w1 & E & ->) | Same]; [left | right; exact Same].
      cbn [fst]. symmetry.
      match goal with
      | |- fst (Worker.in_transaction no_fault ?b w) = _ =>
          rewrite (in_transaction_without_faults b w w1); [reflexivity|]
      end.
      revert E. unfold bind, Worker.query, await, ret.
      change (no_fault "assignTasks: SELECT employees") with false.
      change (no_fault "assignTasks: SELECT ats_tasks") with false.
      cbv iota beta.
      destruct (fails "assignTasks: SELECT employees"); [discriminate|].
      destruct (Worker.available_employees (Worker.db w)) as [|e0 es];
        [exact (fun E => E)|].
      destruct (fails "assignTasks: SELECT ats_tasks"); [discriminate|].
      destruct (Worker.queued_tasks _ (Worker.db w)) as [|t0 ts];
        [exact (fun E => E)|].
      apply for_of_without_faults, assign_pair_without_faults.
    + destruct C4 as [(w1 & E & ->) | Same]; [left | right; exact Same].
      cbn [fst]. symmetry.
      match goal with
      | |- fst (Worker.in_transaction no_fault ?b w) = _ =>
          rewrite (in_transaction_without_faults b w w1); [reflexivity|]
      end.
      revert E. unfold bind, Worker.query, await, ret.
      change (no_fault "checkTimeouts: SELECT") with false.
      cbv iota beta.
      destruct (fails "checkTimeouts: SELECT"); [discriminate|].
      apply for_of_without_faults. intros ot w2 w3.
      apply expire_without_faults.
  - intro F. split; [exact (A1 F) | exact (C1 F)].
  - intros F G. split; [exact (A2 F G) | exact (C2 F G)].
  - split; [exact A3 | exact C3].
Qed.

Lemma worker_ticks_commit_or_roll_back_witness :
  Worker.db
    (fst (Worker.checkTimeouts
            (String.eqb "checkTimeouts: publish task:timeout") 20 drawn late
            (worker_holding 2 3)))
  = Worker.db (worker_holding 2 3) /\
  snd (Worker.checkTimeouts
         (String.eqb "checkTimeouts: publish task:timeout") 20 drawn late
         (worker_holding 2 3)) = inr tt.
Proof.
  destruct (worker_ticks_commit_or_roll_back
              (String.eqb "checkTimeouts: publish task:timeout")
              20 drawn late (worker_holding 2 3))
    as ((_ & [Committed | Rolled_back]) & _ & Quiet & _).
  - apply (f_equal (fun w => List.length (Worker.published w))) in Committed.
    discriminate Committed.
  - split; [exact Rolled_back | exact (proj2 (Quiet eq_refl eq_refl))].
Defined.

End WorkerBatches.

Section WorkerCounts.
Import Model Steps Samples.

Lemma order_by_length {Row} (leb : Row -> Row -> bool) (t : list Row) :
  List.length (Sql.order_by leb t) = List.length t.
Proof. symmetry. apply Permutation_length, order_by_perm. Qed.

Lemma limit_length {Row} n (t : list Row) :
  List.length (Sql.limit n t) = Nat.min n (List.length t).
Proof. apply length_firstn. Qed.

Lemma assign_pair_run tm now pair w :
  exists w1,
    Worker.assign_pair no_fault tm now pair w = (w1, inr tt) /\
    List.length (Worker.activity_log (Worker.db w1))
    = S (List.length (Worker.activity_log (Worker.db w))) /\
    List.length (Worker.published w1) = S (List.length (Worker.published w)).
Proof.
  destruct pair as [task e]. eexists. split; [reflexivity|].
  cbn [Worker.db Worker.published Worker.with_db Worker.activity_log
         Worker.with_activity_log Worker.with_employees
         Worker.with_ats_tasks].
  unfold Sql.insert_into. rewrite !length_app. simpl. lia.
Qed.

(** The loop of [assignTasks] when no call rejects: it runs to its end,
    and logs and publishes once per pair. *)
Lemma assign_pairs_run tm now pairs :
  forall w, exists w',
    for_of pairs (Worker.assign_pair no_fault tm now) w = (w', inr tt) /\
    List.length (Worker.activity_log (Worker.db w'))
    = (List.length (Worker.activity_log (Worker.db w))
       + List.length pairs)%nat /\
    List.length (Worker.published w')
    = (List.length (Worker.published w) + List.length pairs)%nat.
Proof.
  induction pairs as [|pair pairs IH]; intro w.
  - exists w. simpl. repeat split; lia.
  - cbn [for_of]. unfold bind at 1.
    destruct (assign_pair_run tm now pair w) as (w1 & -> & L1 & P1).
    destruct (IH w1) as (w' & E & L & P).
    exists w'. split; [exact E|]. simpl. lia.
Qed.

(** How many tasks a tick of the worker-service assigns.  When no call
    rejects, [assignTasks] logs and publishes one assignment for each of
    the first [n] queued tasks, where [n] is the smallest of 10, the
    number of free employees and the number of queued tasks. *)
Theorem worker_tick_assigns_up_to_ten :
  forall tm now w,
    let after := fst (Worker.assignTasks no_fault tm now w) in
    let free_employees :=
      Sql.select_where (Worker.free (Worker.db w))
                       (Worker.employees (Worker.db w)) in
    let queued_rows :=
      Sql.select_where
        (fun t => TaskStatus_eqb (Worker.task_status t) queued)
        (Worker.ats_tasks (Worker.db w)) in
    let n := Nat.min (Nat.min 10 (List.length free_employees))
                     (List.length queued_rows) in
    List.length (Worker.activity_log (Worker.db after))
    = (List.length (Worker.activity_log (Worker.db w)) + n)%nat /\
    List.length (Worker.published after)
    = (List.length (Worker.published w) + n)%nat /\
    (n <= 10)%nat.
Proof.
  intros tm now w after free_employees queued_rows n.
  assert (La : List.length (Worker.available_employees (Worker.db w))
               = Nat.min 10 (List.length free_employees)).
  { unfold Worker.available_employees.
    now rewrite limit_length, order_by_length. }
  assert (Lq : forall k,
             List.length (Worker.queued_tasks k (Worker.db w))
             = Nat.min k (List.length queued_rows)).
  { intro k. unfold Worker.queued_tasks.
    now rewrite limit_length, order_by_length. }
  subst after.
  unfold Worker.assignTasks, Worker.in_transaction, Worker.statement, bind,
    Worker.query, await, ret.
  change (no_fault "pool.connect") with false.
  change (no_fault "BEGIN") with false.
  change (no_fault "COMMIT") with false.
  change (no_fault "assignTasks: SELECT employees") with false.
  change (no_fault "assignTasks: SELECT ats_tasks") with false.
  cbv iota beta.
  destruct (Worker.available_employees (Worker.db w)) as [|e0 es] eqn:Ea.
  { change (@List.length Worker.Employee []) with 0%nat in La.
    cbn [fst]. subst n. lia. }
  specialize (Lq (List.length (e0 :: es))).
  destruct (Worker.queued_tasks (List.length (e0 :: es)) (Worker.db w))
    as [|t0 ts] eqn:Eq.
  { change (@List.length Worker.Task []) with 0%nat in Lq.
    cbn [fst]. subst n. lia. }
  destruct (assign_pairs_run tm now (combine (t0 :: ts) (e0 :: es)) w)
    as (w' & -> & L & P).
  cbn [fst]. rewrite L, P, length_combine, Lq, La. subst n. lia.
Qed.

Lemma worker_tick_assigns_up_to_ten_witness :
  List.length
    (Worker.published
       (fst (Worker.assignTasks no_fault 20 tick
               (worker_world
                  [worker_reviewer "A" available true 3 0 0;
                   worker_reviewer "B" available true 1 0 0;
                   worker_reviewer "C" busy true 0 0 0]
                  [worker_task "T" queued None None None 0]))))
  = 1%nat.
Proof.
  exact (proj1 (proj2 (worker_tick_assigns_up_to_ten 20 tick
                         (worker_world
                            [worker_reviewer "A" available true 3 0 0;
                             worker_reviewer "B" available true 1 0 0;
                             worker_reviewer "C" busy true 0 0 0]
                            [worker_task "T" queued None None None 0])))).
Defined.

End WorkerCounts.

Section WorkerRelease.
Import Model Steps Samples.

(** In the worker-service an expiry makes the holder free again, whatever
    the holder's row said before.  Let [e] hold the overdue task [t] and
    no other task that is assigned or in progress.  After the strike,
    every row of [e] passes the test of [assignTasks] for a free employee
    exactly when the violations after the strike are below four; the
    status and [is_active] of the row before, offline or deactivated as
    it may have been, play no part. *)
Theorem worker_expiry_frees_holder :
  forall tm drawn now s p t e due,
    In (Worker.overdue_row t e due) (Worker.overdue_tasks now s) ->
    (forall t2, In t2 (Worker.ats_tasks s) ->
                Worker.task_assigned_to t2 = Some (Worker.emp_id e) ->
                held (Worker.task_status t2) = true ->
                Worker.task_id t2 = Worker.task_id t) ->
    let k := Worker.strike (Worker.overdue_row t e due) in
    let after :=
      Worker.db
        (fst (Worker.expire no_fault tm drawn now (Worker.overdue_row t e due)
                {| Worker.db := s; Worker.published := p |})) in
    (exists e', In e' (Worker.employees after) /\
                Worker.emp_id e' = Worker.emp_id e) /\
    forall e', In e' (Worker.employees after) ->
               Worker.emp_id e' = Worker.emp_id e ->
      Worker.emp_status e' = available /\
      Worker.free after e' = (Worker.newViolations k <? 4).
Proof.
  intros tm drawn now s p t e due Hin Honly k after.
  apply worker_overdue_In in Hin.
  destruct Hin as (t0 & e0 & due0 & _ & He0 & _ & _ & _ & _ & Erow).
  assert (Eid : Worker.emp_id e0 = Worker.emp_id e) by (now injection Erow).
  assert (Active : Worker.isActive k = (Worker.newViolations k <? 4)).
  { subst k. unfold Worker.strike, Worker.violationsForSuspension.
    cbv zeta.
    destruct (Worker.warningsPerViolation <=? _); cbn;
      now rewrite Z.leb_antisym, negb_involutive. }
  split.
  - exists (Worker.struck k now e0). split; [|exact Eid].
    apply worker_struck_holder; [exact He0 | exact Eid].
  - intros e' He' Hid'.
    destruct (worker_struck_rows _ _ _ _ _ _ He' Hid') as (e1 & _ & ->).
    fold k. split; [reflexivity|].
    destruct (Worker.newViolations k <? 4) eqn:V.
    + apply free_iff. split; [reflexivity|]. split; [exact Active|].
      intros t' Ht' Ea. simpl in Ea, Hid'.
      subst after. rewrite expire_db in Ht'. simpl in Ht'.
      apply in_app_or in Ht'. destruct Ht' as [Ht' | Ht'].
      * apply update_where_In in Ht'. destruct Ht' as (t1 & Ht1 & ->).
        destruct (String.eqb_spec (Worker.task_id t1) (Worker.task_id t))
          as [Same | Other]; [reflexivity|].
        destruct (held (Worker.task_status t1)) eqn:Hh; [|reflexivity].
        exfalso. apply Other. apply Honly; [exact Ht1 | | exact Hh].
        now rewrite Ea, Hid'.
      * apply in_map_iff in Ht'. destruct Ht' as (t1 & <- & _).
        reflexivity.
    + unfold Worker.free. cbn [Worker.emp_is_active Worker.struck].
      rewrite Active. now rewrite andb_false_r.
Qed.

Lemma worker_expiry_frees_holder_witness :
  In (Worker.overdue_row worker_held_task
        (worker_reviewer "R" offline false 5 0 0) sla)
     (Worker.overdue_tasks late
        (Worker.db (worker_world [worker_reviewer "R" offline false 5 0 0]
                                 [worker_held_task]))) /\
  forall e',
    In e' (Worker.employees
             (Worker.db
                (fst (Worker.expire no_fault 20 (drawn "T") late
                        (Worker.overdue_row worker_held_task
                           (worker_reviewer "R" offline false 5 0 0) sla)
                        (worker_world
                           [worker_reviewer "R" offline false 5 0 0]
                           [worker_held_task]))))) ->
    Worker.emp_id e' = "R" ->
    Worker.emp_status e' = available.
Proof.
  assert (H : In (Worker.overdue_row worker_held_task
                    (worker_reviewer "R" offline false 5 0 0) sla)
                 (Worker.overdue_tasks late
                    (Worker.db
                       (worker_world
                          [worker_reviewer "R" offline false 5 0 0]
                          [worker_held_task]))))
    by (left; reflexivity).
  assert (O : forall t2,
             In t2 [worker_held_task] ->
             Worker.task_assigned_to t2 = Some "R" ->
             held (Worker.task_status t2) = true ->
             Worker.task_id t2 = "T")
    by (intros t2 [<- | []] _ _; reflexivity).
  split; [exact H|].
  intros e' He' Hid.
  exact (proj1 (proj2 (worker_expiry_frees_holder 20 (drawn "T") late _ []
                         worker_held_task
                         (worker_reviewer "R" offline false 5 0 0) sla H O)
                  e' He' Hid)).
Defined.

End WorkerRelease.

Section Disconnect.
Import Model Steps Samples.

Lemma select_map_update {Row B} (q : Row -> bool) (h : Row -> B) p f es :
  (forall x, q (f x) = q x) -> (forall x, h (f x) = h x) ->
  map h (Sql.select_where q (Sql.update_where p f es))
  = map h (Sql.select_where q es).
Proof.
  intros Hq Hh. unfold Sql.select_where, Sql.update_where.
  induction es as [|x es IH]; simpl; [reflexivity|].
  destruct (p x).
  - rewrite Hq. destruct (q x); simpl; [rewrite Hh|]; now rewrite IH.
  - destruct (q x); simpl; now rewrite IH.
Qed.

(** A closed socket neither releases the task nor stops its clock.
    Whichever calls of [handleDisconnect] reject, the tasks are as
    before, and so are the rows of the timeout query and of the
    pre-warning query at any time; every employee row keeps its id, its
    current task and its counters.  When the UPDATE is not rejected, the
    rows of the user are offline, and the assigner passes them over. *)
Theorem disconnect_keeps_task_and_clock :
  forall fails userId w,
    let after := Gateway.db (fst (Gateway.handleDisconnect fails userId w)) in
    Gateway.ats_tasks after = Gateway.ats_tasks (Gateway.db w) /\
    (forall now,
       Gateway.overdue_tasks now after
       = Gateway.overdue_tasks now (Gateway.db w) /\
       Gateway.due_soon now after = Gateway.due_soon now (Gateway.db w)) /\
    Forall2
      (fun e e' =>
         Gateway.emp_id e' = Gateway.emp_id e /\
         Gateway.emp_current_task_id e' = Gateway.emp_current_task_id e /\
         Gateway.emp_warnings e' = Gateway.emp_warnings e /\
         Gateway.emp_violations e' = Gateway.emp_violations e /\
         (Gateway.emp_id e <> userId -> e' = e))
      (Gateway.employees (Gateway.db w)) (Gateway.employees after) /\
    (fails "handleDisconnect: UPDATE employees" = false ->
     forall e', In e' (Gateway.employees after) ->
                Gateway.emp_id e' = userId ->
       Gateway.emp_status e' = offline /\
       forall now, Gateway.assignable now e' = false).
Proof.
  intros fails userId w after.
  assert (Cases :
            after = Gateway.db w /\
            fails "handleDisconnect: UPDATE employees" = true \/
            after = Gateway.with_employees
                      (Sql.update_where
                         (fun e => String.eqb (Gateway.emp_id e) userId)
                         Gateway.gone_offline) (Gateway.db w)).
  { subst after.
    unfold Gateway.handleDisconnect, bind, Gateway.execute,
      Gateway.external, await.
    destruct (fails "handleDisconnect: UPDATE employees");
      [left; split; reflexivity|].
    right.
    destruct (fails "handleDisconnect: redis.srem"); [reflexivity|].
    destruct (fails "handleDisconnect: redis.del"); reflexivity. }
  destruct Cases as [[-> Failed] | ->].
  - split; [reflexivity|]. split; [split; reflexivity|]. split.
    + apply Forall2_same. intro e. repeat split; reflexivity.
    + intro Ok. rewrite Ok in Failed. discriminate.
  - split; [reflexivity|]. split; [|split].
    + intro now. split; [|reflexivity].
      unfold Gateway.overdue_tasks.
      cbn [Gateway.ats_tasks Gateway.employees Gateway.with_employees].
      apply flat_map_ext. intro t.
      destruct (Gateway.task_due_at t) as [due|]; [|reflexivity].
      destruct (held (Gateway.task_status t) && (due <? now));
        [|reflexivity].
      apply select_map_update; reflexivity.
    + cbn [Gateway.employees Gateway.with_employees].
      eapply Forall2_weaken; [|apply update_where_Forall2].
      cbv beta. intros e e' _ ->.
      destruct (String.eqb_spec (Gateway.emp_id e) userId);
        repeat split; try reflexivity; intro; contradiction.
    + intros _ e' He' Hid.
      cbn [Gateway.employees Gateway.with_employees] in He'.
      apply update_where_In in He'. destruct He' as (e & _ & ->).
      destruct (String.eqb_spec (Gateway.emp_id e) userId);
        [|contradiction].
      split; [reflexivity|]. intro now. reflexivity.
Qed.

Lemma disconnect_keeps_task_and_clock_witness :
  Gateway.overdue_tasks late
    (Gateway.db (fst (Gateway.handleDisconnect no_fault "R"
                        (world (holding 2 3)))))
  = Gateway.overdue_tasks late (holding 2 3) /\
  forall e',
    In e' (Gateway.employees
             (Gateway.db (fst (Gateway.handleDisconnect no_fault "R"
                                 (world (holding 2 3)))))) ->
    Gateway.emp_id e' = "R" -> Gateway.emp_status e' = offline.
Proof.
  split.
  - exact (proj1 (proj1 (proj2 (disconnect_keeps_task_and_clock no_fault "R"
                                  (world (holding 2 3)))) late)).
  - intros e' He' Hid.
    exact (proj1 (proj2 (proj2 (proj2
             (disconnect_keeps_task_and_clock no_fault "R"
                (world (holding 2 3))))) eq_refl e' He' Hid)).
Defined.

End Disconnect.

Section EmployeeUpdate.
Import Model Steps Steps.Notations Samples.

(** [PUT /api/employees/:id] by an admin, for an employee with a row,
    when no call rejects.  A role that is not empty and not one of the
    three roles is answered with the 400 and changes nothing.  An empty
    role passes the validation and reaches the UPDATE, which the CHECK of
    the column rejects: the error is not an [AppError], and nothing
    changes.  With a role and a status that are absent or valid, the rows
    of the employee get the given name, role and status, an absent one
    leaving the column as it was; counters, current task and heartbeat
    are not touched, whatever the new status is; the first row is
    returned, and the presence event is published exactly when a status
    was given. *)
Theorem employee_update_validates :
  forall user id name role status w,
    Gateway.role user = role_admin ->
    (exists e, In e (Gateway.employees (Gateway.db w)) /\
               Gateway.emp_id e = id) ->
    (forall r, role = Some r -> r <> "" ->
               Gateway.role_of_string r = None ->
       Gateway.put_employee no_fault (Some user) id name role status w
       = (w, inl (AppError "Invalid role" 400))) /\
    (role = Some "" ->
     (Gateway.truthy status = true ->
      Gateway.includes Gateway.status_of_string status = true) ->
     Gateway.put_employee no_fault (Some user) id name role status w
     = (w, inl (Rejected "put-employee: UPDATE employees"))) /\
    (Gateway.in_check Gateway.role_of_string role = true ->
     Gateway.in_check Gateway.status_of_string status = true ->
     let after :=
       fst (Gateway.put_employee no_fault (Some user) id name role status w)
     in
     (exists e, In e (Gateway.employees (Gateway.db w)) /\
                Gateway.emp_id e = id /\
                snd (Gateway.put_employee no_fault (Some user) id name role
                       status w)
                = inr (Gateway.edited name role status e)) /\
     Gateway.employees (Gateway.db after)
     = Sql.update_where (fun e => String.eqb (Gateway.emp_id e) id)
         (Gateway.edited name role status)
         (Gateway.employees (Gateway.db w)) /\
     Forall2
       (fun e e' =>
          Gateway.emp_id e' = Gateway.emp_id e /\
          Gateway.emp_current_task_id e' = Gateway.emp_current_task_id e /\
          Gateway.emp_warnings e' = Gateway.emp_warnings e /\
          Gateway.emp_violations e' = Gateway.emp_violations e /\
          Gateway.emp_last_heartbeat e' = Gateway.emp_last_heartbeat e)
       (Gateway.employees (Gateway.db w))
       (Gateway.employees (Gateway.db after)) /\
     Gateway.published after
     = (Gateway.published w
        ++ match status with
           | Some s =>
               match Gateway.status_of_string s with
               | Some st => [Gateway.PRESENCE_UPDATE id st]
               | None => []
               end
           | None => []
           end)%list).
Proof.
  intros user id name role status w Hadmin Hex.
  destruct (first_row_of_user _ _ Hex) as (e & rest & Esel & Hin & Hid).
  assert (Found : existsb (fun e => String.eqb (Gateway.emp_id e) id)
                    (Gateway.employees (Gateway.db w)) = true).
  { apply existsb_exists. exists e. split; [exact Hin|].
    now rewrite Hid, String.eqb_refl. }
  assert (Start : forall A (k : list Gateway.Employee -> Gateway.Db A),
            (x <- Gateway.requireRole [role_admin] (Some user) ;;
             existing <- Gateway.query no_fault
               "put-employee: SELECT employees"
               (fun s => Sql.select_where
                           (fun e => String.eqb (Gateway.emp_id e) id)
                           (Gateway.employees s)) ;;
             k existing) w
            = k (e :: rest) w).
  { intros A k.
    unfold Gateway.requireRole, bind, Gateway.query, await, ret, no_fault.
    rewrite Hadmin. simpl. now rewrite Esel. }
  unfold Gateway.put_employee. rewrite !Start. clear Start.
  split; [|split].
  - intros r -> Hr Hbad.
    unfold Gateway.truthy, Gateway.includes. rewrite Hbad.
    apply String.eqb_neq in Hr. rewrite Hr. reflexivity.
  - intros -> Hstatus. cbn [Gateway.truthy String.eqb negb andb].
    destruct (Gateway.truthy status) eqn:T.
    + rewrite (Hstatus eq_refl). cbn [negb andb].
      unfold bind, Gateway.execute_checked, no_fault. rewrite Found.
      reflexivity.
    + cbn [andb].
      unfold bind, Gateway.execute_checked, no_fault. rewrite Found.
      reflexivity.
  - intros Hrole Hstatus. cbv zeta.
    assert (Vr : Gateway.truthy role
                 && negb (Gateway.includes Gateway.role_of_string role)
                 = false).
    { destruct role as [r|]; [|reflexivity].
      unfold Gateway.in_check in Hrole. unfold Gateway.includes.
      destruct (Gateway.role_of_string r); [|discriminate].
      apply andb_false_r. }
    assert (Vs : Gateway.truthy status
                 && negb (Gateway.includes Gateway.status_of_string status)
                 = false).
    { destruct status as [s|]; [|reflexivity].
      unfold Gateway.in_check in Hstatus. unfold Gateway.includes.
      destruct (Gateway.status_of_string s); [|discriminate].
      apply andb_false_r. }
    assert (Sel : Sql.select_where
                    (fun e => String.eqb (Gateway.emp_id e) id)
                    (Sql.update_where
                       (fun e => String.eqb (Gateway.emp_id e) id)
                       (Gateway.edited name role status)
                       (Gateway.employees (Gateway.db w)))
                  = Gateway.edited name role status e
                    :: map (Gateway.edited name role status) rest).
    { rewrite (select_updated Gateway.emp_id) by reflexivity.
      now rewrite Esel. }
    rewrite Vr, Vs.
    unfold bind, Gateway.execute_checked, Gateway.publish, await, ret,
      no_fault.
    rewrite Found, Hrole, Hstatus.
    cbn [negb orb andb fst snd Gateway.db Gateway.with_db
           Gateway.with_employees Gateway.employees].
    rewrite Sel.
    assert (Rows : Forall2
              (fun e e' =>
                 Gateway.emp_id e' = Gateway.emp_id e /\
                 Gateway.emp_current_task_id e'
                 = Gateway.emp_current_task_id e /\
                 Gateway.emp_warnings e' = Gateway.emp_warnings e /\
                 Gateway.emp_violations e' = Gateway.emp_violations e /\
                 Gateway.emp_last_heartbeat e'
                 = Gateway.emp_last_heartbeat e)
              (Gateway.employees (Gateway.db w))
              (Sql.update_where
                 (fun e => String.eqb (Gateway.emp_id e) id)
                 (Gateway.edited name role status)
                 (Gateway.employees (Gateway.db w)))).
    { eapply Forall2_weaken; [|apply update_where_Forall2].
      cbv beta. intros e0 e' _ ->.
      destruct (String.eqb (Gateway.emp_id e0) id);
        repeat split; reflexivity. }
    destruct status as [s|].
    + unfold Gateway.in_check in Hstatus.
      destruct (Gateway.status_of_string s) as [st|]; [|discriminate].
      cbn. split; [exists e; repeat split; assumption|].
      split; [reflexivity|]. split; [exact Rows | reflexivity].
    + cbn. split; [exists e; repeat split; assumption|].
      split; [reflexivity|]. split; [exact Rows|].
      now rewrite app_nil_r.
Qed.

Lemma employee_update_validates_witness :
  Gateway.role (jwt "boss" role_admin) = role_admin /\
  (exists e, In e (Gateway.employees (Gateway.db locked)) /\
             Gateway.emp_id e = "R") /\
  Gateway.put_employee no_fault (Some (jwt "boss" role_admin)) "R" None
    (Some "") (Some "available") locked
  = (locked, inl (Rejected "put-employee: UPDATE employees")).
Proof.
  assert (X : exists e, In e (Gateway.employees (Gateway.db locked)) /\
                        Gateway.emp_id e = "R")
    by (eexists; split; [left; reflexivity | reflexivity]).
  split; [reflexivity|]. split; [exact X|].
  exact (proj1 (proj2 (employee_update_validates (jwt "boss" role_admin) "R"
                         None (Some "") (Some "available") locked
                         eq_refl X))
           eq_refl (fun _ => eq_refl)).
Defined.

End EmployeeUpdate.

Section Heartbeat.
Import Model Steps Samples.

(** A heartbeat buys five minutes.  [updateHeartbeat] never throws; a
    rejected UPDATE leaves the world as it was.  Otherwise the rows of
    the user differ from before in [last_heartbeat] only, which is the
    time of the call, so that the assigner takes such a row at a time
    [later] exactly when it is available, has fewer than four
    violations and no current task, and less than five minutes have
    passed since the heartbeat.  The HEARTBEAT message of the socket
    does the same. *)
Theorem heartbeat_buys_five_minutes :
  forall fails now user w,
    let after := fst (Gateway.updateHeartbeat fails now
                        (Gateway.userId user) w) in
    Gateway.handleMessage fails now user
      {| Gateway.msg_type := "HEARTBEAT"; Gateway.msg_status := None;
         Gateway.msg_taskId := None |} w
    = Gateway.updateHeartbeat fails now (Gateway.userId user) w /\
    snd (Gateway.updateHeartbeat fails now (Gateway.userId user) w)
    = inr tt /\
    (fails "updateHeartbeat: UPDATE employees" = true -> after = w) /\
    (fails "updateHeartbeat: UPDATE employees" = false ->
     Gateway.ats_tasks (Gateway.db after) = Gateway.ats_tasks (Gateway.db w)
     /\
     Forall2
       (fun e e' =>
          (Gateway.emp_id e <> Gateway.userId user -> e' = e) /\
          (Gateway.emp_id e = Gateway.userId user ->
           e' = Gateway.beat now e /\
           forall later,
             Gateway.assignable later e' = true <->
             Gateway.emp_status e = available /\
             Gateway.emp_violations e < 4 /\
             Gateway.emp_current_task_id e = None /\
             later < now + 300000))
       (Gateway.employees (Gateway.db w))
       (Gateway.employees (Gateway.db after))).
Proof.
  intros fails now user w after. split; [reflexivity|].
  subst after.
  unfold Gateway.updateHeartbeat, try_catch, Gateway.execute, await.
  destruct (fails "updateHeartbeat: UPDATE employees").
  - split; [reflexivity|]. split; [reflexivity | discriminate].
  - split; [reflexivity|]. split; [discriminate|]. intros _.
    split; [reflexivity|].
    cbn [fst Gateway.db Gateway.with_db Gateway.with_employees
           Gateway.employees].
    eapply Forall2_weaken; [|apply update_where_Forall2].
    cbv beta. intros e e' _ ->.
    destruct (String.eqb_spec (Gateway.emp_id e) (Gateway.userId user))
      as [Same | Other].
    + split; [intro; contradiction|]. intros _. split; [reflexivity|].
      intro later. rewrite assignable_iff. simpl. split.
      * intros (Hs & Hv & Hc & hb & Hb & Hlt). injection Hb as <-.
        repeat split; auto; lia.
      * intros (Hs & Hv & Hc & Hlt). repeat split; auto.
        exists now. split; [reflexivity | lia].
    + split; [reflexivity|]. intro; contradiction.
Qed.

Lemma heartbeat_buys_five_minutes_witness :
  Gateway.ats_tasks
    (Gateway.db (fst (Gateway.updateHeartbeat no_fault tick "R"
                        (world (holding 0 0)))))
  = [held_task].
Proof.
  exact (proj1 (proj2 (proj2 (proj2
           (heartbeat_buys_five_minutes no_fault tick
              (jwt "R" role_employee) (world (holding 0 0)))))
           eq_refl)).
Defined.

End Heartbeat.

Section TaskList.
Import Model Steps Samples.

Lemma In_skipn_of {A} n (l : list A) x : In x (skipn n l) -> In x l.
Proof.
  intro H. rewrite <- (firstn_skipn n l). apply in_or_app. now right.
Qed.

Lemma listed_join_In p s t c j e :
  In (t, c, j, e) (Gateway.listed_join p s) ->
  In t (Gateway.ats_tasks s) /\ p t = true.
Proof.
  unfold Gateway.listed_join. rewrite in_flat_map.
  intros (t0 & Ht0 & H). apply filter_In in Ht0.
  apply in_flat_map in H. destruct H as (c0 & _ & H).
  apply in_flat_map in H. destruct H as (j0 & _ & H).
  destruct (Sql.select_where _ (Gateway.employees s)) as [|e0 es].
  - destruct H as [H | []]. injection H as -> _ _ _. exact Ht0.
  - apply in_map_iff in H. destruct H as (e1 & H & _).
    injection H as -> _ _ _. exact Ht0.
Qed.

(** What [GET /api/tasks] shows, whenever it answers.  The request
    writes nothing.  The page size is between 1 and 100 and bounds the
    number of rows; the page number is at least 1; [total] counts the
    tasks that pass the filter, and [totalPages] is [total] divided by
    the page size, rounded up.  Every row is a task of the table that
    passes the filter.  For a caller of role employee who names no
    assignee, every row is a task assigned to the caller or a queued
    one.  With an assignee named, every row is a task of that assignee,
    whatever the caller's role: an employee who names a colleague is
    shown the colleague's tasks. *)
Theorem task_list_shows :
  forall fails parseInt user page limit status assignedTo w w' resp,
    Gateway.list_tasks fails parseInt user page limit status assignedTo w
    = (w', inr resp) ->
    w' = w /\
    1 <= Gateway.tl_page resp /\
    1 <= Gateway.tl_limit resp <= 100 /\
    (List.length (Gateway.tl_tasks resp)
     <= Z.to_nat (Gateway.tl_limit resp))%nat /\
    Gateway.tl_total resp
    = Z.of_nat (List.length
                  (Sql.select_where
                     (Gateway.whereClause user status assignedTo)
                     (Gateway.ats_tasks (Gateway.db w)))) /\
    (Gateway.tl_totalPages resp - 1) * Gateway.tl_limit resp
    < Gateway.tl_total resp
    <= Gateway.tl_totalPages resp * Gateway.tl_limit resp /\
    forall t c j e, In (t, c, j, e) (Gateway.tl_tasks resp) ->
      In t (Gateway.ats_tasks (Gateway.db w)) /\
      Gateway.whereClause user status assignedTo t = true /\
      (Gateway.role user = role_employee ->
       assignedTo = None \/ assignedTo = Some "" ->
       Gateway.task_assigned_to t = Some (Gateway.userId user) \/
       Gateway.task_status t = queued) /\
      (forall a, assignedTo = Some a -> a <> "" ->
                 Gateway.task_assigned_to t = Some a).
Proof.
  intros fails parseInt user page limit status assignedTo w w' resp H.
  unfold Gateway.list_tasks, bind, Gateway.query, await, ret, throw in H.
  destruct (fails "list: SELECT COUNT"); [discriminate|].
  cbn [fst snd] in H.
  destruct (option_map (Z.max 1)
              match page with Some s => parseInt s | None => Some 1 end)
    as [pageNum|] eqn:Ep; [|discriminate].
  destruct (option_map (fun n => Z.min 100 (Z.max 1 n))
              match limit with Some s => parseInt s | None => Some 20 end)
    as [limitNum|] eqn:El; [|discriminate].
  destruct (fails "list: SELECT ats_tasks"); [discriminate|].
  injection H as <- <-.
  cbn [Gateway.tl_page Gateway.tl_limit Gateway.tl_tasks Gateway.tl_total
         Gateway.tl_totalPages].
  assert (Hp : 1 <= pageNum).
  { destruct (match page with Some s => parseInt s | None => Some 1 end);
      [|discriminate]. injection Ep as <-. lia. }
  assert (Hl : 1 <= limitNum <= 100).
  { destruct (match limit with Some s => parseInt s | None => Some 20 end);
      [|discriminate]. injection El as <-. lia. }
  split; [reflexivity|]. split; [exact Hp|]. split; [exact Hl|].
  split; [rewrite length_firstn; lia|]. split; [reflexivity|]. split.
  - set (total := Z.of_nat _).
    pose proof (Z.mul_div_le (- total) limitNum ltac:(lia)).
    pose proof (Z.mul_succ_div_gt (- total) limitNum ltac:(lia)).
    nia.
  - intros t c j e Hin.
    apply limit_In, In_skipn_of, order_by_In, listed_join_In in Hin.
    destruct Hin as [Ht Hw]. split; [exact Ht|]. split; [exact Hw|].
    unfold Gateway.whereClause in Hw. apply andb_true_iff in Hw.
    destruct Hw as [_ Hw]. split.
    + intros Hrole Hnone.
      assert (Own : Gateway.own_or_queued user t = true).
      { destruct Hnone as [-> | ->]; exact Hw. }
      unfold Gateway.own_or_queued in Own. rewrite Hrole in Own.
      cbn [Gateway.Role_eqb] in Own. apply orb_true_iff in Own.
      destruct Own as [Own | Queued].
      * left. unfold is_uuid in Own.
        destruct (Gateway.task_assigned_to t) as [x|]; [|discriminate].
        apply String.eqb_eq in Own. now subst x.
      * right. destruct (Gateway.task_status t); simpl in Queued;
          congruence.
    + intros a -> Ha. apply String.eqb_neq in Ha. rewrite Ha in Hw.
      unfold is_uuid in Hw.
      destruct (Gateway.task_assigned_to t) as [x|]; [|discriminate].
      apply String.eqb_eq in Hw. now subst x.
Qed.

Lemma task_list_shows_witness :
  exists resp,
    Gateway.list_tasks no_fault (fun _ => None) (jwt "B" role_employee)
      None None None (Some "R") (world (holding 0 0))
    = (world (holding 0 0), inr resp) /\
    map (fun row => Gateway.task_id (fst (fst (fst row))))
        (Gateway.tl_tasks resp) = ["T"] /\
    forall t c j e, In (t, c, j, e) (Gateway.tl_tasks resp) ->
                    Gateway.task_assigned_to t = Some "R".
Proof.
  eexists. split; [vm_compute; reflexivity|]. split; [reflexivity|].
  intros t c j e Hin.
  assert (Ha : "R" <> "") by discriminate.
  match type of Hin with
  | In _ (Gateway.tl_tasks ?r) =>
      exact (proj2 (proj2 (proj2
               (proj2 (proj2 (proj2 (proj2 (proj2 (proj2
                  (task_list_shows no_fault (fun _ => None)
                     (jwt "B" role_employee) None None None (Some "R")
                     (world (holding 0 0)) (world (holding 0 0)) r
                     eq_refl))))))
                  t c j e Hin)))
               "R" eq_refl Ha)
  end.
Defined.

End TaskList.

Section Login.
Import Model Steps Steps.Notations Samples.

(** Logging in.  Without an email or a password the answer is the 400;
    an email without a row and a password that does not match get the
    same 401; in each case nothing changes.  With the password of the
    first row found, and no call rejected, every row of that employee is
    set to available with the time of the login as heartbeat, and is
    otherwise as before: the login asks neither for the violations nor
    for a current task, so it sets a locked reviewer, or one who holds a
    task, to available.  The assigner then takes the row, within five
    minutes, exactly when it has fewer than four violations and no
    current task. *)
Theorem login_sets_available :
  forall toLowerCase compare generateToken now email password w,
    (Gateway.truthy email && Gateway.truthy password = false ->
     forall fails,
       Gateway.login fails toLowerCase compare generateToken now email
         password w
       = (w, inl (AppError "Email and password are required" 400))) /\
    forall em pw,
      email = Some em -> password = Some pw -> em <> "" -> pw <> "" ->
      let found :=
        Sql.select_where
          (fun e => String.eqb (Gateway.emp_email e) (toLowerCase em))
          (Gateway.employees (Gateway.db w)) in
      let answer :=
        Gateway.login no_fault toLowerCase compare generateToken now email
          password w in
      (found = [] \/
       (exists e rest, found = e :: rest /\ compare pw e = false) ->
       answer = (w, inl (AppError "Invalid credentials" 401))) /\
      (forall e rest,
         found = e :: rest -> compare pw e = true ->
         (exists resp,
            snd answer = inr resp /\
            Gateway.lr_id resp = Gateway.emp_id e /\
            Gateway.lr_status resp = available /\
            Gateway.lr_violations resp = Gateway.emp_violations e) /\
         Gateway.ats_tasks (Gateway.db (fst answer))
         = Gateway.ats_tasks (Gateway.db w) /\
         Forall2
           (fun x x' =>
              (Gateway.emp_id x <> Gateway.emp_id e -> x' = x) /\
              (Gateway.emp_id x = Gateway.emp_id e ->
               x' = Gateway.present available now x /\
               forall later,
                 Gateway.assignable later x' = true <->
                 Gateway.emp_violations x < 4 /\
                 Gateway.emp_current_task_id x = None /\
                 later < now + 300000))
           (Gateway.employees (Gateway.db w))
           (Gateway.employees (Gateway.db (fst answer)))).
Proof.
  intros toLowerCase compare generateToken now email password w. split.
  - intros Hmissing fails. unfold Gateway.login. now rewrite Hmissing.
  - intros em pw -> -> Hem Hpw found answer.
    assert (T : Gateway.truthy (Some em) && Gateway.truthy (Some pw) = true).
    { unfold Gateway.truthy. apply String.eqb_neq in Hem, Hpw.
      now rewrite Hem, Hpw. }
    subst answer.
    unfold Gateway.login. rewrite T.
    unfold bind, Gateway.query, Gateway.execute, Gateway.external, await,
      ret, throw, no_fault.
    cbn [fst snd Gateway.db]. fold found.
    split.
    + intros [-> | (e & rest & -> & Hbad)]; [reflexivity|].
      now rewrite Hbad.
    + intros e rest -> Hok. rewrite Hok.
      cbn [fst snd Gateway.db Gateway.with_db Gateway.with_employees
             Gateway.employees Gateway.ats_tasks].
      split; [eexists; repeat split|]. split; [reflexivity|].
      eapply Forall2_weaken; [|apply update_where_Forall2].
      cbv beta. intros x x' _ ->.
      destruct (String.eqb_spec (Gateway.emp_id x) (Gateway.emp_id e))
        as [Same | Other].
      * split; [intro; contradiction|]. intros _. split; [reflexivity|].
        intro later. rewrite assignable_iff. simpl. split.
        -- intros (_ & Hv & Hc & hb & Hb & Hlt). injection Hb as <-.
           repeat split; auto; lia.
        -- intros (Hv & Hc & Hlt). repeat split; auto.
           exists now. split; [reflexivity | lia].
      * split; [reflexivity|]. intro; contradiction.
Qed.

Lemma login_sets_available_witness :
  exists resp,
    snd (Gateway.login no_fault (fun s => s) (fun _ _ => true)
           (fun _ => "token") late (Some "R@company.com") (Some "secret")
           locked)
    = inr resp /\
    Gateway.lr_status resp = available /\
    Gateway.lr_violations resp = 4.
Proof.
  assert (He : "R@company.com" <> "") by discriminate.
  assert (Hp : "secret" <> "") by discriminate.
  destruct (proj2 (proj2 (login_sets_available (fun s => s) (fun _ _ => true)
                            (fun _ => "token") late (Some "R@company.com")
                            (Some "secret") locked)
                     "R@company.com" "secret" eq_refl eq_refl He Hp)
              _ _ eq_refl eq_refl) as ((resp & Es & _ & St & Vi) & _).
  exists resp. split; [exact Es|]. split; [exact St | exact Vi].
Defined.

End Login.

Section QueuePlace.
Import Model Steps Samples.

Lemma worker_queue_head s x rest :
  Sql.order_by Worker.by_created_at
    (Sql.select_where (fun t => TaskStatus_eqb (Worker.task_status t) queued)
                      (Worker.ats_tasks s)) = x :: rest ->
  In x (Worker.ats_tasks s) /\ Worker.task_status x = queued /\
  forall t, In t (Worker.ats_tasks s) -> Worker.task_status t = queued ->
            Worker.task_created_at x <= Worker.task_created_at t.
Proof.
  intro E. apply order_by_head in E.
  - destruct E as [Hin Hmin]. apply filter_In in Hin.
    destruct Hin as [Hin Hq]. split; [exact Hin|]. split.
    + destruct (Worker.task_status x); simpl in Hq; congruence.
    + intros t Ht Hs.
      assert (X : In t (Sql.select_where
                          (fun t => TaskStatus_eqb (Worker.task_status t)
                                                   queued)
                          (Worker.ats_tasks s)))
        by (apply filter_In; split; [exact Ht | now rewrite Hs]).
      apply Hmin in X. unfold Worker.by_created_at, Sql.asc in X.
      now apply Z.leb_le.
  - intros a b. unfold Worker.by_created_at, Sql.asc.
    rewrite !Z.leb_le. lia.
  - intros a b c. unfold Worker.by_created_at, Sql.asc.
    rewrite !Z.leb_le. lia.
Qed.

(** Where an expired task goes in the queue.  In the gateway the row
    itself is queued again and keeps its [created_at]: when the task,
    with its candidate and job, was created before every task then
    queued, the next tick of the assigner reads it first.  In the
    worker-service the row stays behind as [timeout] and a copy is
    queued with the time of the expiry as [created_at]: with another
    task queued before that time, the next tick reads first a task
    created before the expiry, not the copy. *)
Theorem expired_task_place_in_queue :
  (forall ot w t c j,
     In t (Gateway.ats_tasks (Gateway.db w)) ->
     Gateway.ot_id ot = Gateway.task_id t ->
     In c (Gateway.candidates (Gateway.db w)) ->
     Gateway.cand_id c = Gateway.task_candidate_id t ->
     In j (Gateway.jobs (Gateway.db w)) ->
     Gateway.job_id j = Gateway.task_job_id t ->
     (forall t2, In t2 (Gateway.ats_tasks (Gateway.db w)) ->
                 Gateway.task_status t2 = queued ->
                 Gateway.task_id t2 <> Gateway.task_id t ->
                 Gateway.task_created_at t < Gateway.task_created_at t2) ->
     exists row,
       Gateway.next_queued_task
         (Gateway.db (fst (Gateway.handleTimeout no_fault ot w))) = [row] /\
       Gateway.qt_id row = Gateway.task_id t)
  /\
  (forall tm drawn now ot w t2,
     In t2 (Worker.ats_tasks (Worker.db w)) ->
     Worker.task_status t2 = queued ->
     Worker.task_id t2 <> Worker.ot_id ot ->
     Worker.task_created_at t2 < now ->
     forall n,
     exists x rest,
       Worker.queued_tasks (S n)
         (Worker.db (fst (Worker.expire no_fault tm drawn now ot w)))
       = x :: rest /\
       Worker.task_created_at x < now /\
       forall t, x <> Worker.clone drawn now t).
Proof.
  split.
  - intros ot w t c j Ht Hid Hc Ec Hj Ej Hfirst.
    set (s' := Gateway.db (fst (Gateway.handleTimeout no_fault ot w))).
    assert (Es' : s' = _) by apply handleTimeout_db.
    assert (Hreq : In (Gateway.requeue t, c, j) (Gateway.queued_join s')).
    { apply gateway_queued_join_In. rewrite Es'. simpl.
      repeat split; auto.
      apply update_where_In. exists t. split; [exact Ht|].
      now rewrite Hid, String.eqb_refl. }
    destruct (next_queued_task_spec s')
      as [[Empty _] | (t' & c' & j' & -> & Hin & Hmin)].
    { rewrite Empty in Hreq. contradiction. }
    exists (Gateway.queued_task_row (t', c', j')). split; [reflexivity|].
    simpl. specialize (Hmin _ Hreq). simpl in Hmin.
    apply gateway_queued_join_In in Hin. destruct Hin as (Ht' & Hq' & _).
    rewrite Es' in Ht'. simpl in Ht'. apply update_where_In in Ht'.
    destruct Ht' as (t0 & Ht0 & ->).
    rewrite Hid in *.
    destruct (String.eqb_spec (Gateway.task_id t0) (Gateway.task_id t))
      as [Same | Other]; [exact Same|].
    exfalso. specialize (Hfirst t0 Ht0 Hq' Other). lia.
  - intros tm drawn now ot w t2 Ht2 Hq Hid Hold n.
    set (s' := Worker.db (fst (Worker.expire no_fault tm drawn now ot w))).
    assert (Ht2' : In t2 (Worker.ats_tasks s')).
    { subst s'. rewrite expire_db. simpl. apply in_or_app. left.
      apply update_where_In. exists t2. split; [exact Ht2|].
      destruct (String.eqb_spec (Worker.task_id t2) (Worker.ot_id ot));
        [contradiction | reflexivity]. }
    unfold Worker.queued_tasks.
    destruct (Sql.order_by Worker.by_created_at
                (Sql.select_where
                   (fun t => TaskStatus_eqb (Worker.task_status t) queued)
                   (Worker.ats_tasks s'))) as [|x rest] eqn:E.
    { apply order_by_nil in E.
      assert (X : In t2 (Sql.select_where
                           (fun t => TaskStatus_eqb (Worker.task_status t)
                                                    queued)
                           (Worker.ats_tasks s')))
        by (apply filter_In; split; [exact Ht2' | now rewrite Hq]).
      rewrite E in X. contradiction. }
    apply worker_queue_head in E. destruct E as (_ & _ & Hmin).
    specialize (Hmin t2 Ht2' Hq).
    exists x, (Sql.limit n rest). split; [reflexivity|].
    split; [lia|].
    intros t Eq. apply (f_equal Worker.task_created_at) in Eq. simpl in Eq.
    lia.
Qed.

Lemma expired_task_place_in_queue_witness :
  exists row,
    Gateway.next_queued_task
      (Gateway.db
         (fst (Gateway.handleTimeout no_fault
                 (Gateway.overdue_row held_task (holder 0 0) sla)
                 (world (store [holder 0 0]
                               [review_task "U" queued None None None 0 5;
                                held_task]))))) = [row] /\
    Gateway.qt_id row = "T".
Proof.
  refine (proj1 expired_task_place_in_queue
            (Gateway.overdue_row held_task (holder 0 0) sla)
            (world (store [holder 0 0]
                          [review_task "U" queued None None None 0 5;
                           held_task]))
            held_task
            {| Gateway.cand_id := "cand"; Gateway.cand_name := "Alex Rivera";
               Gateway.cand_resume_url := Some "u1";
               Gateway.cand_total_applications := 0 |}
            {| Gateway.job_id := "job"; Gateway.job_title := "Data Analyst";
               Gateway.job_application_count := 0 |}
            _ eq_refl _ eq_refl _ eq_refl _).
  - right. left. reflexivity.
  - left. reflexivity.
  - left. reflexivity.
  - intros t2 [<- | [<- | []]] Hs Hne.
    + simpl. lia.
    + contradiction.
Defined.

End QueuePlace.

Section WorkerPairs.
Import Model Steps Samples.

Lemma NoDup_firstn_of {A} n (l : list A) : NoDup l -> NoDup (firstn n l).
Proof.
  intro H. rewrite <- (firstn_skipn n l) in H.
  now apply NoDup_app_remove_r in H.
Qed.

Lemma NoDup_map_filter {A B} (f : A -> B) p (l : list A) :
  NoDup (map f l) -> NoDup (map f (filter p l)).
Proof.
  induction l as [|x l IH]; simpl; intro H; [constructor|].
  inversion H as [|? ? Hx Hl]; subst.
  destruct (p x); simpl; [|now apply IH].
  constructor; [|now apply IH].
  intro Hin. apply Hx. apply in_map_iff in Hin.
  destruct Hin as (y & Ey & Hy). apply filter_In in Hy.
  apply in_map_iff. exists y. now split.
Qed.

Lemma NoDup_selected {Row} (key : Row -> string) leb p n (t : list Row) :
  NoDup (map key t) ->
  NoDup (map key (Sql.limit n (Sql.order_by leb (Sql.select_where p t)))).
Proof.
  intro H. unfold Sql.limit. rewrite <- firstn_map. apply NoDup_firstn_of.
  eapply Permutation_NoDup.
  - apply Permutation_map, order_by_perm.
  - now apply NoDup_map_filter.
Qed.

Lemma map_fst_combine {A B} (l : list A) (l' : list B) :
  map fst (combine l l') = firstn (List.length l') l.
Proof.
  revert l'. induction l as [|x l IH]; intros [|y l']; simpl;
    try reflexivity.
  now rewrite IH.
Qed.

Lemma map_snd_combine {A B} (l : list A) (l' : list B) :
  map snd (combine l l') = firstn (List.length l) l'.
Proof.
  revert l'. induction l as [|x l IH]; intros [|y l']; simpl;
    try reflexivity.
  now rewrite IH.
Qed.

(** The loop of [assignTasks] publishes one message per pair, in
    order. *)
Lemma assign_pairs_published tm now pairs :
  forall w w',
    for_of pairs (Worker.assign_pair no_fault tm now) w = (w', inr tt) ->
    Worker.published w'
    = (Worker.published w
       ++ map (fun pair =>
                 Worker.task_assigned (Worker.task_id (fst pair))
                   (Worker.emp_id (snd pair)) (Worker.emp_name (snd pair))
                   (Worker.addMinutes now tm) tm)
              pairs)%list.
Proof.
  induction pairs as [|[task e] pairs IH]; intros w w' E.
  - simpl in E. unfold ret in E. injection E as <-.
    now rewrite app_nil_r.
  - cbn [for_of] in E. unfold bind at 1 in E.
    change (Worker.assign_pair no_fault tm now (task, e) w)
      with (fst (Worker.assign_pair no_fault tm now (task, e) w),
            @inr Error unit tt) in E.
    cbv iota in E. apply IH in E. rewrite E. simpl.
    now rewrite <- app_assoc.
Qed.

(** One task per employee and one employee per task, in every tick of
    the worker-service.  Over tables with primary keys, and when no call
    rejects, the messages that [assignTasks] publishes name pairwise
    different employees and pairwise different tasks; each names a task
    that was queued and an employee who was free before the tick. *)
Theorem worker_tick_pairs_are_distinct :
  forall tm now w,
    NoDup (map Worker.emp_id (Worker.employees (Worker.db w))) ->
    NoDup (map Worker.task_id (Worker.ats_tasks (Worker.db w))) ->
    exists pairs,
      Worker.published (fst (Worker.assignTasks no_fault tm now w))
      = (Worker.published w
         ++ map (fun pair =>
                   Worker.task_assigned (Worker.task_id (fst pair))
                     (Worker.emp_id (snd pair)) (Worker.emp_name (snd pair))
                     (Worker.addMinutes now tm) tm)
                pairs)%list /\
      NoDup (map (fun pair => Worker.emp_id (snd pair)) pairs) /\
      NoDup (map (fun pair => Worker.task_id (fst pair)) pairs) /\
      forall task e, In (task, e) pairs ->
        In task (Worker.ats_tasks (Worker.db w)) /\
        Worker.task_status task = queued /\
        In e (Worker.employees (Worker.db w)) /\
        Worker.free (Worker.db w) e = true.
Proof.
  intros tm now w He Ht.
  set (es := Worker.available_employees (Worker.db w)).
  set (ts := Worker.queued_tasks (List.length es) (Worker.db w)).
  assert (Nes : NoDup (map Worker.emp_id es))
    by (apply NoDup_selected; exact He).
  assert (Nts : NoDup (map Worker.task_id ts))
    by (apply NoDup_selected; exact Ht).
  assert (Pairs : forall task e, In (task, e) (combine ts es) ->
            In task (Worker.ats_tasks (Worker.db w)) /\
            Worker.task_status task = queued /\
            In e (Worker.employees (Worker.db w)) /\
            Worker.free (Worker.db w) e = true).
  { intros task e Hin.
    pose proof (in_combine_l _ _ _ _ Hin) as Hl.
    pose proof (in_combine_r _ _ _ _ Hin) as Hr.
    apply worker_available_free in Hr. destruct Hr as [Hr Hf].
    unfold ts, Worker.queued_tasks in Hl.
    apply limit_In, order_by_In, filter_In in Hl. destruct Hl as [Hl Hq].
    repeat split; auto.
    destruct (Worker.task_status task); simpl in Hq; congruence. }
  assert (Nd : NoDup (map (fun pair => Worker.emp_id (snd pair))
                          (combine ts es)) /\
               NoDup (map (fun pair => Worker.task_id (fst pair))
                          (combine ts es))).
  { split.
    - rewrite <- (map_map snd Worker.emp_id), map_snd_combine, <- firstn_map.
      now apply NoDup_firstn_of.
    - rewrite <- (map_map fst Worker.task_id), map_fst_combine, <- firstn_map.
      now apply NoDup_firstn_of. }
  destruct (assign_pairs_run tm now (combine ts es) w) as (w' & Erun & _).
  pose proof (assign_pairs_published _ _ _ _ _ Erun) as Epub.
  unfold Worker.assignTasks, Worker.in_transaction, Worker.statement, bind,
    Worker.query, await, ret.
  change (no_fault "pool.connect") with false.
  change (no_fault "BEGIN") with false.
  change (no_fault "COMMIT") with false.
  change (no_fault "assignTasks: SELECT employees") with false.
  change (no_fault "assignTasks: SELECT ats_tasks") with false.
  cbv iota beta. fold es.
  destruct es as [|e0 es'] eqn:Ees.
  { exists []. simpl. rewrite app_nil_r. split; [reflexivity|].
    split; [constructor|]. split; [constructor|]. intros task e []. }
  fold ts.
  destruct ts as [|t0 ts'] eqn:Ets.
  { exists []. simpl. rewrite app_nil_r. split; [reflexivity|].
    split; [constructor|]. split; [constructor|]. intros task e []. }
  rewrite Erun. cbn [fst].
  exists (combine (t0 :: ts') (e0 :: es')).
  split; [exact Epub|]. split; [apply Nd|]. split; [apply Nd | exact Pairs].
Qed.

Lemma worker_tick_pairs_are_distinct_witness :
  exists pairs,
    Worker.published
      (fst (Worker.assignTasks no_fault 20 tick
              (worker_world
                 [worker_reviewer "A" available true 3 0 0;
                  worker_reviewer "B" available true 1 0 0]
                 [worker_task "T" queued None None None 0;
                  worker_task "U" queued None None None 5])))
    = map (fun pair =>
             Worker.task_assigned (Worker.task_id (fst pair))
               (Worker.emp_id (snd pair)) (Worker.emp_name (snd pair))
               (Worker.addMinutes tick 20) 20)
          pairs /\
    NoDup (map (fun pair => Worker.emp_id (snd pair)) pairs).
Proof.
  assert (He : NoDup ["A"; "B"]).
  { constructor; [intros [E | []]; discriminate E|].
    constructor; [intros []|constructor]. }
  assert (Ht : NoDup ["T"; "U"]).
  { constructor; [intros [E | []]; discriminate E|].
    constructor; [intros []|constructor]. }
  destruct (worker_tick_pairs_are_distinct 20 tick
              (worker_world
                 [worker_reviewer "A" available true 3 0 0;
                  worker_reviewer "B" available true 1 0 0]
                 [worker_task "T" queued None None None 0;
                  worker_task "U" queued None None None 5]) He Ht)
    as (pairs & Epub & Ne & _).
  exists pairs. split; [exact Epub | exact Ne].
Defined.

End WorkerPairs.
